(** * The WordPress publishing script, embedded and verified

    The repository holds a corpus of markdown posts, a JSON index
    ([blogs.json]) and one script, [scripts/publish.js], that pushes the
    posts to a WordPress site through its REST API.  The script exists in
    three variants in the source tree:

    - [src/scripts/publish.js]: the [https]-module transport with a
      connectivity probe (module [Publish] below);
    - [src/unnamed/part_007]: the [fetch]-based transport
      (module [PublishFetch]);
    - [src/unnamed/part_006]: the variant with featured images
      (module [PublishMedia]).

    The embedding is shallow.  JavaScript values coming back from the
    remote API are an inductive type [JS.value]; asynchronous code is
    sequential here (every promise is awaited at once), so it becomes a
    state-and-exception monad over the remote world that also writes the
    events of the run (requests with their answers, console lines,
    pauses); [process.exit] is an outcome of its own, which no [catch]
    intercepts. *)

From Stdlib Require Import String Ascii List ZArith Lia Bool Arith DecimalString.
Import ListNotations.
Local Open Scope string_scope.

(* ===================================================================== *)
(** ** JavaScript values and the built-ins the script relies on *)
(* ===================================================================== *)

Module JS.

(** Values as [JSON.parse] produces them, plus [undefined].  Numbers are
    integers: the script only meets identifiers, lengths and HTTP status
    codes. *)
#[warnings="-register-all"]
Inductive value : Type :=
| VUndef
| VNull
| VBool (b : bool)
| VNum (n : Z)
| VStr (s : string)
| VArr (items : list value)
| VObj (props : list (string * value)).

(** Thrown values.  All of them are [Error] objects; the script only ever
    reads their [message]. *)
Inductive exn : Type :=
| Error (message : string)
| TypeError (message : string)
| RangeError (message : string)
| SyntaxError (message : string).

Definition message (e : exn) : string :=
  match e with
  | Error m | TypeError m | RangeError m | SyntaxError m => m
  end.

(** Own data property of an object literal. *)
Fixpoint lookup (k : string) (props : list (string * value)) : option value :=
  match props with
  | [] => None
  | (k', v) :: rest => if String.eqb k k' then Some v else lookup k rest
  end.

(** [Number.prototype.toString] on an integer. *)
Definition Number_toString (n : Z) : string :=
  NilZero.string_of_int (Z.to_int n).

(** [v.k]: reading a property.  Reading from [null] or [undefined] throws;
    the keys the script reads ([id], [name], [slug], [length]) are not
    inherited from any prototype, so primitives answer [undefined] except
    for the [length] of strings and arrays. *)
Definition prop (v : value) (k : string) : exn + value :=
  match v with
  | VUndef => inl (TypeError ("Cannot read properties of undefined (reading '" ++ k ++ "')"))
  | VNull => inl (TypeError ("Cannot read properties of null (reading '" ++ k ++ "')"))
  | VObj props => inr (match lookup k props with Some x => x | None => VUndef end)
  | VArr items =>
      inr (if String.eqb k "length" then VNum (Z.of_nat (List.length items)) else VUndef)
  | VStr s =>
      inr (if String.eqb k "length" then VNum (Z.of_nat (String.length s)) else VUndef)
  | VBool _ | VNum _ => inr VUndef
  end.

(** [v[0]] on a value that is neither [null] nor [undefined]. *)
Definition index0 (v : value) : value :=
  match v with
  | VArr (x :: _) => x
  | VStr (String c _) => VStr (String c EmptyString)
  | VObj props => match lookup "0" props with Some x => x | None => VUndef end
  | _ => VUndef
  end.

(** ToBoolean. *)
Definition truthy (v : value) : bool :=
  match v with
  | VUndef | VNull => false
  | VBool b => b
  | VNum n => negb (Z.eqb n 0)
  | VStr s => negb (String.eqb s EmptyString)
  | VArr _ | VObj _ => true
  end.

(** ToString, as a template literal applies it. *)
Fixpoint ToString (v : value) : string :=
  match v with
  | VUndef => "undefined"
  | VNull => "null"
  | VBool true => "true"
  | VBool false => "false"
  | VNum n => Number_toString n
  | VStr s => s
  | VArr items =>
      (fix join (l : list value) : string :=
         match l with
         | [] => EmptyString
         | x :: rest =>
             (match x with VUndef | VNull => EmptyString | _ => ToString x end)
             ++ match rest with [] => EmptyString | _ => "," ++ join rest end
         end) items
  | VObj _ => "[object Object]"
  end.

(** An entry of [blogs.json]: an object whose fields, where it has them,
    are typed as the README documents them.  A key the entry lacks reads
    as [undefined]; an entry that is no object at all (a character of a
    string, a number) is the entry without any field.  [null] as an
    entry, which cannot be destructured, is not an entry of this type. *)
Record PostIndexEntry : Type := mkEntry {
  slug : option string;
  title : option string;
  excerpt : option string;
  date : option string;
  author : option string;
  tags : option (list string);
  featuredImage : option string
}.

(** What [const { posts } = JSON.parse(text)] leaves when it has not
    thrown and [posts.length] can be read: the entries of an array (or
    the characters of a string of the basic plane, each an entry without
    fields), or a value with a [length] to print that [for ... of]
    refuses to iterate (a number, an object) with the error it throws. *)
Inductive Index : Type :=
| Posts (posts : list PostIndexEntry)
| NotIterable (length : value) (e : exn).

(** The built-in functions of the platform that the script calls and that
    are taken as given. *)
Record URL : Type := mkURL {
  hostname : string;
  pathname : string;
  search : string
}.

Record Builtins : Type := {
  (** [encodeURIComponent(s)] on a well-formed string *)
  encodeURIComponent : string -> string;
  (** [s.toLowerCase()] *)
  toLowerCase : string -> string;
  (** [s.trim()] *)
  trim : string -> string;
  (** [new Date(d).toISOString()] for a string or undefined [d]; [None]
      when the date is invalid, as it is for [undefined], and
      [toISOString] throws a [RangeError] *)
  Date_toISOString : option string -> option string;
  (** whether [Number(s) > 0] *)
  StringToNumber_gt0 : string -> bool;
  (** [JSON.parse(s)]; [None] when it throws *)
  JSON_parse : string -> option value;
  (** [new URL(s)]; [None] when it throws *)
  URL_parse : string -> option URL;
  (** [Buffer.from(s).toString("base64")] *)
  base64 : string -> string;
  (** [path.join(...)] *)
  path_join : list string -> string;
  (** [marked.parse(markdown)] with the configured renderer *)
  marked_parse : string -> string;
  (** [JSON.parse] of the index text, its [posts] and their [length];
      [inl] when one of these throws: the text is not JSON, its value is
      [null], or it holds no [posts] (or [null] for them) *)
  parse_index : string -> exn + Index
}.

(** [v > 0]. *)
Definition gt0 (B : Builtins) (v : value) : bool :=
  match v with
  | VUndef | VNull => false
  | VBool b => b
  | VNum n => (0 <? n)%Z
  | VStr s => StringToNumber_gt0 B s
  | VArr _ | VObj _ => StringToNumber_gt0 B (ToString v)
  end.

(** [s.replace(/\/$/, empty)]: one trailing slash removed. *)
Fixpoint strip_trailing_slash (s : string) : string :=
  match s with
  | EmptyString => EmptyString
  | String c EmptyString => if Ascii.eqb c "/" then EmptyString else s
  | String c rest => String c (strip_trailing_slash rest)
  end.

(** Whether the last character of [s] is a slash. *)
Fixpoint ends_with_slash (s : string) : bool :=
  match s with
  | EmptyString => false
  | String c EmptyString => Ascii.eqb c "/"
  | String _ rest => ends_with_slash rest
  end.

(** [s.startsWith(p)]. *)
Definition startsWith (p s : string) : bool := String.prefix p s.

(** The double quote and the line feed of a string literal. *)
Definition dq : string := String (Ascii.ascii_of_nat 34) EmptyString.

Definition nl : string := String (Ascii.ascii_of_nat 10) EmptyString.

(** [arr.find(p)] where the callback may throw; [undefined] when nothing
    matches. *)
Fixpoint find_first (p : value -> exn + bool) (l : list value) : exn + value :=
  match l with
  | [] => inr VUndef
  | x :: rest =>
      match p x with
      | inl e => inl e
      | inr true => inr x
      | inr false => find_first p rest
      end
  end.

(** [v.find(p)]: only arrays have the method. *)
Definition find (v : value) (p : value -> exn + bool) : exn + value :=
  match v with
  | VArr items => find_first p items
  | VUndef | VNull => inl (TypeError "Cannot read properties of null or undefined (reading 'find')")
  | _ => inl (TypeError "find is not a function")
  end.

(** [t.name.toLowerCase() === name.toLowerCase()], the callback of both
    taxonomy searches. *)
Definition name_matches (B : Builtins) (name : string) (t : value) : exn + bool :=
  match prop t "name" with
  | inl e => inl e
  | inr (VStr s) => inr (String.eqb (toLowerCase B s) (toLowerCase B name))
  | inr _ => inl (TypeError "Cannot call toLowerCase on a value that is not a string")
  end.

(** [!v] on an environment variable: unset or empty. *)
Definition missing (v : option string) : bool :=
  match v with
  | None => true
  | Some s => String.eqb s EmptyString
  end.

(** A possibly undefined string inside a template literal. *)
Definition template (v : option string) : string :=
  match v with
  | None => "undefined"
  | Some s => s
  end.

(** A possibly undefined string as a value. *)
Definition str_or_undef (v : option string) : value :=
  match v with
  | None => VUndef
  | Some s => VStr s
  end.

(** The properties of an object that [JSON.stringify] writes: those whose
    value is not [undefined]. *)
Definition stringified (props : list (string * value)) : list (string * value) :=
  List.filter (fun kv => match snd kv with VUndef => false | _ => true end) props.

End JS.
Import JS.

(* ===================================================================== *)
(** ** The host: environment, file system, network; the process monad *)
(* ===================================================================== *)

Module Node.

(** What is written to a request. *)
Inductive payload : Type :=
| JsonText (v : value)        (* the text [JSON.stringify(v)] *)
| Bytes (b : string).         (* a raw buffer *)

(** Where a request goes: [https.request] is given a host, a port and a
    path; [fetch] is given the URL. *)
Inductive target : Type :=
| HostPath (hostname : string) (port : Z) (path : string)
| FullURL (url : string).

Record request : Type := mkRequest {
  r_endpoint : string;        (* the endpoint the caller asked for *)
  r_method : string;
  r_target : target;
  r_headers : list (string * string);
  r_body : option payload
}.

(** How a request ends. *)
Inductive net_result : Type :=
| Response (statusCode : Z) (data : string)
| NetworkError (code : string) (msg : string)
| Timeout.

(** How a plain GET for an image ends. *)
Inductive get_result : Type :=
| GetResponse (statusCode : Z) (location : option string)
              (contentType : option string) (buffer : string)
| GetError (e : exn)          (* the [error] event of the request *)
| GetThrows (e : exn).        (* [get] itself throws at the call *)

Inductive stream : Type := Log | Warn | Err.

Inductive event : Type :=
| ENet (r : request) (res : net_result)
| EGet (url : string) (res : get_result)
| EConsole (out : stream) (msg : string)
| EDelay (ms : Z).

(** The world outside the process.  [W] is the state of the remote
    systems; the file system and the environment are only read. *)
Record Host (W : Type) : Type := {
  env_WP_URL : option string;
  env_WP_USERNAME : option string;
  env_WP_APP_PASSWORD : option string;
  dirname : string;
  existsSync : string -> bool;
  readFileSync : string -> exn + string;
  network : request -> W -> net_result * W;
  http_get : string -> W -> get_result * W
}.
Arguments env_WP_URL {W}.
Arguments env_WP_USERNAME {W}.
Arguments env_WP_APP_PASSWORD {W}.
Arguments dirname {W}.
Arguments existsSync {W}.
Arguments readFileSync {W}.
Arguments network {W}.
Arguments http_get {W}.

Inductive outcome (A : Type) : Type :=
| Ret (a : A)
| Throw (e : exn)
| Exit (code : Z).
Arguments Ret {A}.
Arguments Throw {A}.
Arguments Exit {A}.

(** What a computation leaves: its outcome, the remote world after it and
    the events it produced, oldest first. *)
Record result (W A : Type) : Type := mkResult {
  out : outcome A;
  final : W;
  events : list event
}.
Arguments mkResult {W A}.
Arguments out {W A}.
Arguments final {W A}.
Arguments events {W A}.

Definition M (W A : Type) : Type := W -> result W A.

Section Monad.
Context {W : Type}.

Definition ret {A} (a : A) : M W A := fun w => mkResult (Ret a) w [].

Definition bind {A B} (m : M W A) (k : A -> M W B) : M W B :=
  fun w =>
    let r := m w in
    match out r with
    | Ret a =>
        let r' := k a (final r) in
        mkResult (out r') (final r') (events r ++ events r')
    | Throw e => mkResult (Throw e) (final r) (events r)
    | Exit c => mkResult (Exit c) (final r) (events r)
    end.

Definition throw {A} (e : exn) : M W A := fun w => mkResult (Throw e) w [].

(** [process.exit(code)]. *)
Definition exit {A} (code : Z) : M W A := fun w => mkResult (Exit code) w [].

(** [try { m } catch (e) { h(e) }]. *)
Definition try_catch {A} (m : M W A) (h : exn -> M W A) : M W A :=
  fun w =>
    let r := m w in
    match out r with
    | Throw e =>
        let r' := h e (final r) in
        mkResult (out r') (final r') (events r ++ events r')
    | _ => r
    end.

Definition emit (e : event) : M W unit := fun w => mkResult (Ret tt) w [e].

Definition console_log (msg : string) : M W unit := emit (EConsole Log msg).
Definition console_warn (msg : string) : M W unit := emit (EConsole Warn msg).
Definition console_error (msg : string) : M W unit := emit (EConsole Err msg).

(** [await delay(ms)]. *)
Definition delay (ms : Z) : M W unit := emit (EDelay ms).

(** A synchronous call that may throw. *)
Definition lift {A} (r : exn + A) : M W A :=
  match r with
  | inl e => throw e
  | inr a => ret a
  end.

(** One round trip to the remote API. *)
Definition send (H : Host W) (r : request) : M W net_result :=
  fun w =>
    let '(res, w') := network H r w in
    mkResult (Ret res) w' [ENet r res].

(** One plain GET. *)
Definition get (H : Host W) (url : string) : M W get_result :=
  fun w =>
    let '(res, w') := http_get H url w in
    mkResult (Ret res) w' [EGet url res].

(** The exit code of a process whose module body is [m]: an explicit
    [process.exit], 1 for an uncaught exception, 0 otherwise. *)
Definition exit_code {A} (r : result W A) : Z :=
  match out r with
  | Ret _ => 0
  | Throw _ => 1
  | Exit code => code
  end.

End Monad.

Declare Scope js_scope.
Delimit Scope js_scope with js.
Notation "x <- m ;; k" := (bind m (fun x => k))
  (at level 61, m at next level, right associativity) : js_scope.
Notation "m ;;; k" := (bind m (fun _ => k))
  (at level 61, right associativity) : js_scope.

End Node.
Import Node.

(* ===================================================================== *)
(** ** [src/scripts/publish.js] *)
(* ===================================================================== *)

Module Publish.
Local Open Scope js_scope.

Section Script.
Context {W : Type} (B : Builtins) (H : Host W).

Definition WP_URL : option string := option_map strip_trailing_slash (env_WP_URL H).
Definition WP_USERNAME : option string := env_WP_USERNAME H.
Definition WP_APP_PASSWORD : option string := env_WP_APP_PASSWORD H.

Definition API_BASE : string := template WP_URL ++ "/wp-json/wp/v2".

Definition AUTH_HEADER : string :=
  "Basic " ++ base64 B (template WP_USERNAME ++ ":" ++ template WP_APP_PASSWORD).

(** The callbacks that settle the promise of [wpRequest]: the [end] of a
    response, an [error] of the request, the timeout. *)
Definition settle (endpoint method : string) (res : net_result) : exn + value :=
  match res with
  | Response statusCode data =>
      if ((200 <=? statusCode) && (statusCode <? 300))%Z then
        match JSON_parse B data with
        | Some v => inr v
        | None => inr (VStr data)
        end
      else
        inl (Error ("API " ++ Number_toString statusCode ++ " on " ++ method
                    ++ " " ++ endpoint ++ ": " ++ String.substring 0 200 data))
  | NetworkError _ msg =>
      inl (Error ("Network error on " ++ method ++ " " ++ endpoint ++ ": " ++ msg))
  | Timeout =>
      inl (Error ("Timeout on " ++ method ++ " " ++ endpoint))
  end.

Definition wpRequest (endpoint method : string) (body : value) : M W value :=
  match URL_parse B (API_BASE ++ endpoint) with
  | None => throw (TypeError "Invalid URL")
  | Some url =>
      let options :=
        {| r_endpoint := endpoint;
           r_method := method;
           r_target := HostPath (hostname url) 443 (pathname url ++ search url);
           r_headers :=
             [("Authorization", AUTH_HEADER);
              ("Content-Type", "application/json");
              ("User-Agent", "TechBlog-Publisher/1.0")];
           r_body := if truthy body then Some (JsonText body) else None |} in
      res <- send H options ;;
      lift (settle endpoint method res)
  end.

Definition getExistingPost (slug : string) : M W value :=
  posts <- wpRequest ("/posts?slug=" ++ slug ++ "&status=publish,draft,pending")
                     "GET" VNull ;;
  len <- lift (prop posts "length") ;;
  ret (if gt0 B len then index0 posts else VNull).

Definition getOrCreateTag (tagName : string) : M W value :=
  existing <- wpRequest ("/tags?search=" ++ encodeURIComponent B tagName) "GET" VNull ;;
  match_ <- lift (find existing (name_matches B tagName)) ;;
  if truthy match_ then lift (prop match_ "id")
  else
    delay 300 ;;;
    tag <- wpRequest "/tags" "POST" (VObj [("name", VStr tagName)]) ;;
    lift (prop tag "id").

Definition getOrCreateCategory (name : string) : M W value :=
  existing <- wpRequest ("/categories?search=" ++ encodeURIComponent B name) "GET" VNull ;;
  match_ <- lift (find existing (name_matches B name)) ;;
  if truthy match_ then lift (prop match_ "id")
  else
    delay 300 ;;;
    cat <- wpRequest "/categories" "POST" (VObj [("name", VStr name)]) ;;
    lift (prop cat "id").

(** The loop [for (const tag of tags || [])] of [publishPost], with the
    array [tagIds] it pushes onto. *)
Fixpoint publishPost_tags (tags : list string) (tagIds : list value)
  : M W (list value) :=
  match tags with
  | [] => ret tagIds
  | tag :: rest =>
      tagIds' <-
        try_catch
          (tagId <- getOrCreateTag tag ;;
           let pushed := (tagIds ++ [tagId])%list in
           delay 200 ;;;
           ret pushed)
          (fun e =>
             console_warn ("  Warning: Could not create tag " ++ dq ++ tag ++ dq ++ ": "
                           ++ message e) ;;;
             ret tagIds) ;;
      publishPost_tags rest tagIds'
  end.

(** The fields of the entry may be undefined.  [getExistingPost] (and
    [setFeaturedImage] where there is one) only ever prints the slug it is
    given, so it is handed the text a template literal makes of it. *)
Definition publishPost (postMeta : PostIndexEntry) : M W unit :=
  let slug := slug postMeta in
  let title := title postMeta in
  let excerpt := excerpt postMeta in
  let date := date postMeta in
  let tags := tags postMeta in
  let mdPath := path_join B [dirname H; ".."; "posts"; template slug ++ ".md"] in
  if negb (existsSync H mdPath) then
    console_warn ("  Skipping " ++ dq ++ template slug ++ dq ++ " - markdown file not found")
  else
    markdown <- lift (readFileSync H mdPath) ;;
    let htmlContent := marked_parse B markdown in
    tagIds <- publishPost_tags (match tags with Some l => l | None => [] end) [] ;;
    categoryIds <-
      try_catch
        (blogCatId <- getOrCreateCategory "Blog" ;;
         ret [blogCatId])
        (fun e =>
           console_warn ("  Warning: Could not get/create category: " ++ message e) ;;;
           ret []) ;;
    isoDate <-
      match Date_toISOString B date with
      | Some d => ret d
      | None => throw (RangeError "Invalid time value")
      end ;;
    let postData :=
      VObj [("title", str_or_undef title);
            ("slug", str_or_undef slug);
            ("content", VStr htmlContent);
            ("excerpt", str_or_undef excerpt);
            ("status", VStr "publish");
            ("date", VStr isoDate);
            ("tags", VArr tagIds);
            ("categories", VArr categoryIds)] in
    existing <- getExistingPost (template slug) ;;
    if truthy existing then
      id <- lift (prop existing "id") ;;
      wpRequest ("/posts/" ++ ToString id) "PUT" postData ;;;
      console_log ("  Updated: " ++ dq ++ template title ++ dq)
    else
      wpRequest "/posts" "POST" postData ;;;
      console_log ("  Published: " ++ dq ++ template title ++ dq).

(** The loop [for (const post of posts)] of [main], with its two
    counters. *)
Fixpoint main_loop (posts : list PostIndexEntry) (success failed : nat)
  : M W (nat * nat) :=
  match posts with
  | [] => ret (success, failed)
  | post :: rest =>
      counts <-
        try_catch
          (publishPost post ;;;
           let success' := S success in
           delay 500 ;;;
           ret (success', failed))
          (fun e =>
             console_error ("  Failed: " ++ dq ++ template (title post) ++ dq ++ " - "
                            ++ message e) ;;;
             ret (success, S failed)) ;;
      main_loop rest (fst counts) (snd counts)
  end.

Definition main : M W unit :=
  console_log (nl ++ "Publishing to: " ++ template WP_URL) ;;;
  console_log "Testing API connectivity..." ;;;
  try_catch
    (wpRequest "/posts?per_page=1" "GET" VNull ;;;
     console_log ("API connection OK" ++ nl))
    (fun e =>
       console_error ("Cannot reach WordPress API: " ++ message e) ;;;
       console_error "Check WP_URL, WP_USERNAME, and WP_APP_PASSWORD secrets are correct." ;;;
       exit 1) ;;;
  let blogsPath := path_join B [dirname H; ".."; "blogs.json"] in
  text <- lift (readFileSync H blogsPath) ;;
  index <- lift (parse_index B text) ;;
  match index with
  | Posts posts =>
      console_log ("Found " ++ Number_toString (Z.of_nat (List.length posts))
                   ++ " posts in blogs.json" ++ nl) ;;;
      counts <- main_loop posts 0 0 ;;
      let success := fst counts in
      let failed := snd counts in
      console_log (nl ++ "Done! " ++ Number_toString (Z.of_nat success) ++ " published, "
                   ++ Number_toString (Z.of_nat failed) ++ " failed." ++ nl) ;;;
      if (0 <? failed)%nat then exit 1 else ret tt
  | NotIterable length e =>
      console_log ("Found " ++ ToString length ++ " posts in blogs.json" ++ nl) ;;;
      throw e
  end.

(** The module body: stop if the environment is incomplete, otherwise run
    [main] and turn a rejection into exit code 1. *)
Definition script : M W unit :=
  if missing WP_URL || missing WP_USERNAME || missing WP_APP_PASSWORD then
    console_error "Missing environment variables: WP_URL, WP_USERNAME, WP_APP_PASSWORD" ;;;
    exit 1
  else
    try_catch main
      (fun e =>
         console_error ("Fatal error: " ++ message e) ;;;
         exit 1).

End Script.
End Publish.

(* ===================================================================== *)
(** ** [src/unnamed/part_007]: the variant on [fetch] *)
(* ===================================================================== *)

Module PublishFetch.
Local Open Scope js_scope.

Section Script.
Context {W : Type} (B : Builtins) (H : Host W).

Definition WP_URL : option string := option_map strip_trailing_slash (env_WP_URL H).
Definition WP_USERNAME : option string := env_WP_USERNAME H.
Definition WP_APP_PASSWORD : option string := env_WP_APP_PASSWORD H.

Definition API_BASE : string := template WP_URL ++ "/wp-json/wp/v2".

Definition AUTH_HEADER : string :=
  "Basic " ++ base64 B (template WP_USERNAME ++ ":" ++ template WP_APP_PASSWORD).

(** [wpFetch(endpoint, { method, body: JSON.stringify(body) })]; the
    options are empty when [body] is [None] and the method is GET. *)
Definition wpFetch (endpoint method : string) (body : option value) : M W value :=
  let url := API_BASE ++ endpoint in
  match URL_parse B url with
  | None => throw (TypeError "Invalid URL")
  | Some _ =>
      res <- send H {| r_endpoint := endpoint;
                       r_method := method;
                       r_target := FullURL url;
                       r_headers :=
                         [("Authorization", AUTH_HEADER);
                          ("Content-Type", "application/json")];
                       r_body := option_map JsonText body |} ;;
      match res with
      | Response status data =>
          if negb ((200 <=? status) && (status <? 300))%Z then
            throw (Error ("WordPress API error " ++ Number_toString status ++ ": " ++ data))
          else
            match JSON_parse B data with
            | Some v => ret v
            | None => throw (SyntaxError "Unexpected token in JSON")
            end
      | NetworkError _ _ | Timeout => throw (TypeError "fetch failed")
      end
  end.

Definition getExistingPost (slug : string) : M W value :=
  posts <- wpFetch ("/posts?slug=" ++ slug ++ "&status=publish,draft,pending")
                   "GET" None ;;
  len <- lift (prop posts "length") ;;
  ret (if gt0 B len then index0 posts else VNull).

Definition getOrCreateTag (tagName : string) : M W value :=
  existing <- wpFetch ("/tags?search=" ++ encodeURIComponent B tagName) "GET" None ;;
  match_ <- lift (find existing (name_matches B tagName)) ;;
  if truthy match_ then lift (prop match_ "id")
  else
    tag <- wpFetch "/tags" "POST" (Some (VObj [("name", VStr tagName)])) ;;
    lift (prop tag "id").

Definition getOrCreateCategory (name : string) : M W value :=
  existing <- wpFetch ("/categories?search=" ++ encodeURIComponent B name) "GET" None ;;
  match_ <- lift (find existing (name_matches B name)) ;;
  if truthy match_ then lift (prop match_ "id")
  else
    cat <- wpFetch "/categories" "POST" (Some (VObj [("name", VStr name)])) ;;
    lift (prop cat "id").

Fixpoint publishPost_tags (tags : list string) (tagIds : list value)
  : M W (list value) :=
  match tags with
  | [] => ret tagIds
  | tag :: rest =>
      tagIds' <-
        try_catch
          (tagId <- getOrCreateTag tag ;;
           ret (tagIds ++ [tagId])%list)
          (fun e =>
             console_warn ("  Warning: Could not create tag " ++ dq ++ tag ++ dq ++ ": "
                           ++ message e) ;;;
             ret tagIds) ;;
      publishPost_tags rest tagIds'
  end.

(** The fields of the entry may be undefined.  [getExistingPost] (and
    [setFeaturedImage] where there is one) only ever prints the slug it is
    given, so it is handed the text a template literal makes of it. *)
Definition publishPost (postMeta : PostIndexEntry) : M W unit :=
  let slug := slug postMeta in
  let title := title postMeta in
  let excerpt := excerpt postMeta in
  let date := date postMeta in
  let tags := tags postMeta in
  let mdPath := path_join B [dirname H; ".."; "posts"; template slug ++ ".md"] in
  if negb (existsSync H mdPath) then
    console_warn ("  Skipping " ++ dq ++ template slug ++ dq ++ " - markdown file not found")
  else
    markdown <- lift (readFileSync H mdPath) ;;
    let htmlContent := marked_parse B markdown in
    tagIds <- publishPost_tags (match tags with Some l => l | None => [] end) [] ;;
    categoryIds <-
      try_catch
        (blogCatId <- getOrCreateCategory "Blog" ;;
         ret [blogCatId])
        (fun e =>
           console_warn ("  Warning: Could not get/create category: " ++ message e) ;;;
           ret []) ;;
    isoDate <-
      match Date_toISOString B date with
      | Some d => ret d
      | None => throw (RangeError "Invalid time value")
      end ;;
    let postData :=
      VObj [("title", str_or_undef title);
            ("slug", str_or_undef slug);
            ("content", VStr htmlContent);
            ("excerpt", str_or_undef excerpt);
            ("status", VStr "publish");
            ("date", VStr isoDate);
            ("tags", VArr tagIds);
            ("categories", VArr categoryIds)] in
    existing <- getExistingPost (template slug) ;;
    if truthy existing then
      id <- lift (prop existing "id") ;;
      wpFetch ("/posts/" ++ ToString id) "PUT" (Some postData) ;;;
      console_log ("  Updated: " ++ dq ++ template title ++ dq)
    else
      wpFetch "/posts" "POST" (Some postData) ;;;
      console_log ("  Published: " ++ dq ++ template title ++ dq).

Fixpoint main_loop (posts : list PostIndexEntry) (success failed : nat)
  : M W (nat * nat) :=
  match posts with
  | [] => ret (success, failed)
  | post :: rest =>
      counts <-
        try_catch
          (publishPost post ;;;
           ret (S success, failed))
          (fun e =>
             console_error ("  Failed: " ++ dq ++ template (title post) ++ dq ++ " - "
                            ++ message e) ;;;
             ret (success, S failed)) ;;
      main_loop rest (fst counts) (snd counts)
  end.

Definition main : M W unit :=
  console_log (nl ++ "Publishing to: " ++ template WP_URL ++ nl) ;;;
  let blogsPath := path_join B [dirname H; ".."; "blogs.json"] in
  text <- lift (readFileSync H blogsPath) ;;
  index <- lift (parse_index B text) ;;
  match index with
  | Posts posts =>
      console_log ("Found " ++ Number_toString (Z.of_nat (List.length posts))
                   ++ " posts in blogs.json" ++ nl) ;;;
      counts <- main_loop posts 0 0 ;;
      let success := fst counts in
      let failed := snd counts in
      console_log (nl ++ "Done! " ++ Number_toString (Z.of_nat success) ++ " published, "
                   ++ Number_toString (Z.of_nat failed) ++ " failed." ++ nl) ;;;
      if (0 <? failed)%nat then exit 1 else ret tt
  | NotIterable length e =>
      console_log ("Found " ++ ToString length ++ " posts in blogs.json" ++ nl) ;;;
      throw e
  end.

Definition script : M W unit :=
  if missing WP_URL || missing WP_USERNAME || missing WP_APP_PASSWORD then
    console_error "Missing environment variables: WP_URL, WP_USERNAME, WP_APP_PASSWORD" ;;;
    exit 1
  else
    try_catch main
      (fun e =>
         console_error ("Fatal error: " ++ message e) ;;;
         exit 1).

End Script.
End PublishFetch.

(* ===================================================================== *)
(** ** [src/unnamed/part_006]: the variant with featured images *)
(* ===================================================================== *)

Module PublishMedia.
Local Open Scope js_scope.

(** [hay.includes(needle)] on strings. *)
Fixpoint includes (needle hay : string) : bool :=
  String.prefix needle hay ||
  match hay with
  | EmptyString => false
  | String _ rest => includes needle rest
  end.

(** [m.slug && m.slug.includes(slug)], the callback of the media search,
    as the truth value [find] takes from it. *)
Definition slug_matches (slug : string) (m : value) : exn + bool :=
  match prop m "slug" with
  | inl e => inl e
  | inr v =>
      if truthy v then
        match v with
        | VStr s => inr (includes slug s)
        | VArr items =>
            inr (existsb (fun x => match x with
                                   | VStr s => String.eqb s slug
                                   | _ => false
                                   end) items)
        | _ => inl (TypeError "includes is not a function")
        end
      else inr false
  end.

Section Script.
Context {W : Type} (B : Builtins) (H : Host W).

(** [WP_URL] as first assigned, and after the scheme has been added. *)
Definition WP_URL_env : string :=
  match env_WP_URL H with
  | Some s => strip_trailing_slash (trim B s)
  | None => EmptyString
  end.
Definition WP_USERNAME : option string := option_map (trim B) (env_WP_USERNAME H).
Definition WP_APP_PASSWORD : option string := option_map (trim B) (env_WP_APP_PASSWORD H).

Definition WP_URL : string :=
  if negb (startsWith "http" WP_URL_env) then "https://" ++ WP_URL_env else WP_URL_env.

Definition API_BASE : string := WP_URL ++ "/wp-json/wp/v2".

Definition AUTH_HEADER : string :=
  "Basic " ++ base64 B (template WP_USERNAME ++ ":" ++ template WP_APP_PASSWORD).

Definition settle (endpoint method : string) (res : net_result) : exn + value :=
  match res with
  | Response statusCode data =>
      if ((200 <=? statusCode) && (statusCode <? 300))%Z then
        match JSON_parse B data with
        | Some v => inr v
        | None => inr (VStr data)
        end
      else
        inl (Error ("API " ++ Number_toString statusCode ++ " " ++ method
                    ++ " " ++ endpoint ++ ": " ++ String.substring 0 200 data))
  | NetworkError code msg =>
      inl (Error ("Network " ++ method ++ " " ++ endpoint ++ ": " ++ code ++ " " ++ msg))
  | Timeout =>
      inl (Error ("Timeout " ++ method ++ " " ++ endpoint))
  end.

Definition wpRequest (endpoint method : string) (body : value) : M W value :=
  match URL_parse B (API_BASE ++ endpoint) with
  | None => throw (TypeError "Invalid URL")
  | Some url =>
      res <- send H {| r_endpoint := endpoint;
                       r_method := method;
                       r_target := HostPath (hostname url) 443 (pathname url ++ search url);
                       r_headers :=
                         [("Authorization", AUTH_HEADER);
                          ("Content-Type", "application/json");
                          ("User-Agent", "TechBlog-Publisher/1.0")];
                       r_body := if truthy body then Some (JsonText body) else None |} ;;
      lift (settle endpoint method res)
  end.

(** [doRequest(url, redirects)] inside [downloadImage].  The counter only
    grows, by one per redirect, and the function gives up above 5: the
    recursion is on [left = 6 - redirects].  A [get] that throws at once
    (an invalid URL, a protocol that is not http) rejects the promise when
    it is the first one; in a later one the exception leaves the response
    callback uncaught and ends the process. *)
Fixpoint doRequest (left : nat) (url : string) : M W (string * string) :=
  match left with
  | O => throw (Error "Too many redirects")
  | S left' =>
      res <- get H url ;;
      match res with
      | GetResponse statusCode location contentType buffer =>
          if ((300 <=? statusCode) && (statusCode <? 400))%Z && negb (missing location) then
            doRequest left' (template location)
          else if negb (statusCode =? 200)%Z then
            throw (Error ("Image download failed: " ++ Number_toString statusCode))
          else
            ret (buffer, if missing contentType then "image/jpeg" else template contentType)
      | GetError e => throw e
      | GetThrows e => if (left =? 6)%nat then throw e else exit 1
      end
  end.

Definition downloadImage (imageUrl : string) : M W (string * string) :=
  doRequest 6 imageUrl.

Definition uploadMedia (imageBuffer filename contentType : string) : M W value :=
  match URL_parse B (API_BASE ++ "/media") with
  | None => throw (TypeError "Invalid URL")
  | Some url =>
      res <- send H {| r_endpoint := "/media";
                       r_method := "POST";
                       r_target := HostPath (hostname url) 443 (pathname url);
                       r_headers :=
                         [("Authorization", AUTH_HEADER);
                          ("Content-Type", contentType);
                          ("Content-Disposition",
                           "attachment; filename=" ++ dq ++ filename ++ dq);
                          ("User-Agent", "TechBlog-Publisher/1.0")];
                       r_body := Some (Bytes imageBuffer) |} ;;
      match res with
      | Response statusCode data =>
          if ((200 <=? statusCode) && (statusCode <? 300))%Z then
            match JSON_parse B data with
            | Some v => ret v
            | None => ret (VStr data)
            end
          else
            throw (Error ("Media upload " ++ Number_toString statusCode ++ ": "
                          ++ String.substring 0 200 data))
      | NetworkError _ msg => throw (Error ("Media upload error: " ++ msg))
      | Timeout => throw (Error "Media upload timeout")
      end
  end.

Definition getExistingPost (slug : string) : M W value :=
  posts <- wpRequest ("/posts?slug=" ++ slug) "GET" VNull ;;
  len <- lift (prop posts "length") ;;
  ret (if gt0 B len then index0 posts else VNull).

Definition getOrCreateTag (tagName : string) : M W value :=
  existing <- wpRequest ("/tags?search=" ++ encodeURIComponent B tagName) "GET" VNull ;;
  match_ <- lift (find existing (name_matches B tagName)) ;;
  if truthy match_ then lift (prop match_ "id")
  else
    delay 300 ;;;
    tag <- wpRequest "/tags" "POST" (VObj [("name", VStr tagName)]) ;;
    lift (prop tag "id").

Definition getOrCreateCategory (name : string) : M W value :=
  existing <- wpRequest ("/categories?search=" ++ encodeURIComponent B name) "GET" VNull ;;
  match_ <- lift (find existing (name_matches B name)) ;;
  if truthy match_ then lift (prop match_ "id")
  else
    delay 300 ;;;
    cat <- wpRequest "/categories" "POST" (VObj [("name", VStr name)]) ;;
    lift (prop cat "id").

Definition setFeaturedImage (slug : string) (imageUrl : option string) : M W value :=
  if missing imageUrl then ret VNull
  else
    let filename := slug ++ "-featured.jpg" in
    found <-
      try_catch
        (existing <- wpRequest ("/media?search=" ++ encodeURIComponent B slug
                                ++ "&per_page=5") "GET" VNull ;;
         match_ <- lift (find existing (slug_matches slug)) ;;
         if truthy match_ then
           id <- lift (prop match_ "id") ;;
           ret (Some id)
         else ret None)
        (fun _ => ret None) ;;
    match found with
    | Some id => ret id
    | None =>
        console_log ("    Downloading image for " ++ slug ++ "...") ;;;
        image <- downloadImage (template imageUrl) ;;
        let buffer := fst image in
        let contentType := snd image in
        console_log ("    Uploading to WordPress ("
                     ++ Number_toString ((Z.of_nat (String.length buffer) + 512) / 1024)
                     ++ "KB)...") ;;;
        media <- uploadMedia buffer filename contentType ;;
        lift (prop media "id")
    end.

Fixpoint publishPost_tags (tags : list string) (tagIds : list value)
  : M W (list value) :=
  match tags with
  | [] => ret tagIds
  | tag :: rest =>
      tagIds' <-
        try_catch
          (tagId <- getOrCreateTag tag ;;
           let pushed := (tagIds ++ [tagId])%list in
           delay 200 ;;;
           ret pushed)
          (fun _ => ret tagIds) ;;
      publishPost_tags rest tagIds'
  end.

(** The fields of the entry may be undefined.  [getExistingPost] (and
    [setFeaturedImage] where there is one) only ever prints the slug it is
    given, so it is handed the text a template literal makes of it. *)
Definition publishPost (postMeta : PostIndexEntry) : M W unit :=
  let slug := slug postMeta in
  let title := title postMeta in
  let excerpt := excerpt postMeta in
  let date := date postMeta in
  let tags := tags postMeta in
  let featuredImage := featuredImage postMeta in
  let mdPath := path_join B [dirname H; ".."; "posts"; template slug ++ ".md"] in
  if negb (existsSync H mdPath) then
    console_warn ("  Skipping " ++ dq ++ template slug ++ dq ++ " - file not found")
  else
    markdown <- lift (readFileSync H mdPath) ;;
    let htmlContent := marked_parse B markdown in
    tagIds <- publishPost_tags (match tags with Some l => l | None => [] end) [] ;;
    categoryIds <-
      try_catch
        (id <- getOrCreateCategory "Blog" ;;
         ret [id])
        (fun _ => ret []) ;;
    featuredMediaId <-
      try_catch
        (setFeaturedImage (template slug) featuredImage)
        (fun e =>
           console_warn ("    Image failed: " ++ message e) ;;;
           ret VNull) ;;
    isoDate <-
      match Date_toISOString B date with
      | Some d => ret d
      | None => throw (RangeError "Invalid time value")
      end ;;
    let postData :=
      VObj ([("title", str_or_undef title);
             ("slug", str_or_undef slug);
             ("content", VStr htmlContent);
             ("excerpt", str_or_undef excerpt);
             ("status", VStr "publish");
             ("date", VStr isoDate)]
            ++ (if (0 <? List.length tagIds)%nat then [("tags", VArr tagIds)] else [])
            ++ (if (0 <? List.length categoryIds)%nat
                then [("categories", VArr categoryIds)] else [])
            ++ (if truthy featuredMediaId
                then [("featured_media", featuredMediaId)] else []))%list in
    existing <- getExistingPost (template slug) ;;
    if truthy existing then
      id <- lift (prop existing "id") ;;
      wpRequest ("/posts/" ++ ToString id) "PUT" postData ;;;
      console_log ("  Updated: " ++ dq ++ template title ++ dq)
    else
      wpRequest "/posts" "POST" postData ;;;
      console_log ("  Published: " ++ dq ++ template title ++ dq).

Fixpoint main_loop (posts : list PostIndexEntry) (success failed : nat)
  : M W (nat * nat) :=
  match posts with
  | [] => ret (success, failed)
  | post :: rest =>
      counts <-
        try_catch
          (publishPost post ;;;
           let success' := S success in
           delay 500 ;;;
           ret (success', failed))
          (fun e =>
             console_error ("  Failed: " ++ dq ++ template (title post) ++ dq ++ " - "
                            ++ message e) ;;;
             ret (success, S failed)) ;;
      main_loop rest (fst counts) (snd counts)
  end.

Definition main : M W unit :=
  console_log (nl ++ "Publishing to: " ++ WP_URL) ;;;
  console_log "Testing API..." ;;;
  try_catch
    (wpRequest "/posts?per_page=1" "GET" VNull ;;;
     console_log ("Connected OK" ++ nl))
    (fun e =>
       console_error ("API error: " ++ message e) ;;;
       exit 1) ;;;
  text <- lift (readFileSync H (path_join B [dirname H; ".."; "blogs.json"])) ;;
  index <- lift (parse_index B text) ;;
  match index with
  | Posts posts =>
      console_log ("Found " ++ Number_toString (Z.of_nat (List.length posts))
                   ++ " posts" ++ nl) ;;;
      counts <- main_loop posts 0 0 ;;
      let success := fst counts in
      let failed := snd counts in
      console_log (nl ++ "Done! " ++ Number_toString (Z.of_nat success) ++ " published, "
                   ++ Number_toString (Z.of_nat failed) ++ " failed." ++ nl) ;;;
      if (0 <? failed)%nat then exit 1 else ret tt
  | NotIterable length e =>
      console_log ("Found " ++ ToString length ++ " posts" ++ nl) ;;;
      throw e
  end.

(** The module body.  [new URL(API_BASE)] in the [Target:] line throws
    on an invalid base, and nothing catches it there. *)
Definition script : M W unit :=
  if missing (Some WP_URL_env) || missing WP_USERNAME || missing WP_APP_PASSWORD then
    console_error "Missing: WP_URL, WP_USERNAME, WP_APP_PASSWORD" ;;;
    exit 1
  else
    match URL_parse B API_BASE with
    | None => throw (TypeError "Invalid URL")
    | Some url =>
        console_log ("Target: " ++ hostname url) ;;;
        try_catch main
          (fun e =>
             console_error ("Fatal: " ++ message e) ;;;
             exit 1)
    end.

End Script.
End PublishMedia.

(* ===================================================================== *)
(** ** A concrete platform and a concrete remote for the examples *)
(* ===================================================================== *)

Module Sample.
Local Open Scope nat_scope.

(** *** Built-ins, computed.  Each agrees with the platform function on
    the ASCII and date-only inputs the examples feed it. *)

Definition hex_digit (n : nat) : ascii :=
  match String.get n "0123456789ABCDEF" with
  | Some c => c
  | None => "0"%char
  end.

Definition unreserved (c : ascii) : bool :=
  let n := nat_of_ascii c in
  ((48 <=? n) && (n <=? 57)) || ((65 <=? n) && (n <=? 90)) || ((97 <=? n) && (n <=? 122))
  || existsb (Ascii.eqb c) (list_ascii_of_string "-_.!~*'()").

Fixpoint encodeURIComponent (s : string) : string :=
  match s with
  | EmptyString => EmptyString
  | String c rest =>
      if unreserved c then String c (encodeURIComponent rest)
      else
        let n := nat_of_ascii c in
        String "%" (String (hex_digit (n / 16)) (String (hex_digit (n mod 16))
                                                        (encodeURIComponent rest)))
  end.

Definition lower (c : ascii) : ascii :=
  let n := nat_of_ascii c in
  if (65 <=? n) && (n <=? 90) then ascii_of_nat (n + 32) else c.

Fixpoint toLowerCase (s : string) : string :=
  match s with
  | EmptyString => EmptyString
  | String c rest => String (lower c) (toLowerCase rest)
  end.

Definition whitespace (c : ascii) : bool :=
  let n := nat_of_ascii c in
  (n =? 32) || ((9 <=? n) && (n <=? 13)).

Fixpoint trim_left (s : string) : string :=
  match s with
  | String c rest => if whitespace c then trim_left rest else s
  | EmptyString => EmptyString
  end.

Fixpoint trim_right (s : string) : string :=
  match s with
  | EmptyString => EmptyString
  | String c rest =>
      match trim_right rest with
      | EmptyString => if whitespace c then EmptyString else String c EmptyString
      | rest' => String c rest'
      end
  end.

Definition trim (s : string) : string := trim_right (trim_left s).

Definition Date_toISOString (d : option string) : option string :=
  match d with
  | None => None
  | Some s =>
      if String.eqb s "2025-03-01" then Some "2025-03-01T00:00:00.000Z"
      else if String.eqb s "2024-12-24" then Some "2024-12-24T00:00:00.000Z"
      else None
  end.

Fixpoint all_digits (s : string) : bool :=
  match s with
  | EmptyString => true
  | String c rest =>
      let n := nat_of_ascii c in
      (48 <=? n) && (n <=? 57) && all_digits rest
  end.

Fixpoint some_nonzero (s : string) : bool :=
  match s with
  | EmptyString => false
  | String c rest => negb (Ascii.eqb c "0") || some_nonzero rest
  end.

Definition StringToNumber_gt0 (s : string) : bool :=
  all_digits s && some_nonzero s.

(** [JSON.stringify] on strings that need no escape.  An [undefined]
    element of an array is written [null]; a property whose value is
    [undefined] is left out. *)
Fixpoint stringify (v : value) : string :=
  match v with
  | VUndef | VNull => "null"
  | VBool true => "true"
  | VBool false => "false"
  | VNum n => Number_toString n
  | VStr s => dq ++ s ++ dq
  | VArr items =>
      "[" ++ (fix elems (l : list value) : string :=
                match l with
                | [] => EmptyString
                | x :: rest =>
                    stringify x
                    ++ match rest with [] => EmptyString | _ => "," ++ elems rest end
                end) items ++ "]"
  | VObj props =>
      "{" ++ (fix members (l : list (string * value)) (first : bool) : string :=
                match l with
                | [] => EmptyString
                | (_, VUndef) :: rest => members rest first
                | (k, x) :: rest =>
                    (if first then EmptyString else ",")
                    ++ dq ++ k ++ dq ++ ":" ++ stringify x ++ members rest false
                end) props true ++ "}"
  end.

(** The JSON documents the sample remote answers with.  It knows the
    posts below, each under a fixed id. *)
Definition known_posts : list (string * Z) :=
  [("existing", 7); ("fresh", 8); ("tagged", 9); ("x", 10); ("y", 12); ("undated", 13);
   ("nofile", 14); ("broken", 15)]%Z.

Definition id_of (slug : string) : Z :=
  match List.find (fun x => String.eqb (fst x) slug) known_posts with
  | Some (_, id) => id
  | None => 1%Z
  end.

Definition no_items : value := VArr [].
Definition post_list (slug : string) : value :=
  VArr [VObj [("id", VNum (id_of slug)); ("slug", VStr slug)]].
Definition post_item (slug : string) : value := VObj [("id", VNum (id_of slug))].
Definition tag_valid : value := VArr [VObj [("id", VNum 11); ("name", VStr "Valid")]].
Definition cat_blog : value := VArr [VObj [("id", VNum 3); ("name", VStr "Blog")]].
Definition media_99 : value := VObj [("id", VNum 99)].

Definition documents : list value :=
  ([no_items; tag_valid; cat_blog; media_99]
   ++ List.map (fun x => post_list (fst x)) known_posts
   ++ List.map (fun x => post_item (fst x)) known_posts)%list.

(** [JSON.parse], by recognising the text of a known document. *)
Definition JSON_parse (s : string) : option value :=
  List.find (fun v => String.eqb (stringify v) s) documents.

Fixpoint span (stop : ascii -> bool) (s : string) : string * string :=
  match s with
  | EmptyString => (EmptyString, EmptyString)
  | String c rest =>
      if stop c then (EmptyString, s)
      else let '(a, b) := span stop rest in (String c a, b)
  end.

Definition after (n : nat) (s : string) : string :=
  String.substring n (String.length s - n) s.

(** [new URL(s)] for [http(s)://host/path?query]. *)
Definition URL_parse (s : string) : option URL :=
  let rest :=
    if String.prefix "https://" s then Some (after 8 s)
    else if String.prefix "http://" s then Some (after 7 s)
    else None in
  match rest with
  | None => None
  | Some r =>
      let '(host, tail) := span (fun c => Ascii.eqb c "/" || Ascii.eqb c "?") r in
      let '(path, query) := span (fun c => Ascii.eqb c "?") tail in
      if String.eqb host EmptyString then None
      else Some (mkURL host (if String.eqb path EmptyString then "/" else path) query)
  end.

Definition b64_char (n : nat) : string :=
  match String.get n "ABCDEFGHIJKLMNOPQRSTUVWXYZabcdefghijklmnopqrstuvwxyz0123456789+/" with
  | Some c => String c EmptyString
  | None => "="
  end.

Fixpoint b64 (l : list nat) : string :=
  match l with
  | [] => EmptyString
  | [a] => b64_char (a / 4) ++ b64_char ((a mod 4) * 16) ++ "=="
  | [a; b] =>
      b64_char (a / 4) ++ b64_char ((a mod 4) * 16 + b / 16)
      ++ b64_char ((b mod 16) * 4) ++ "="
  | a :: b :: c :: rest =>
      b64_char (a / 4) ++ b64_char ((a mod 4) * 16 + b / 16)
      ++ b64_char ((b mod 16) * 4 + c / 64) ++ b64_char (c mod 64) ++ b64 rest
  end.

Definition base64 (s : string) : string :=
  b64 (List.map nat_of_ascii (list_ascii_of_string s)).

Fixpoint split_slash (s : string) (cur : string) : list string :=
  match s with
  | EmptyString => [cur]
  | String c rest =>
      if Ascii.eqb c "/" then cur :: split_slash rest EmptyString
      else split_slash rest (cur ++ String c EmptyString)
  end.

(** [path.join] of absolute POSIX paths: the segments are put together
    and [..] steps back. *)
Definition path_join (parts : list string) : string :=
  let segments := List.flat_map (fun p => split_slash p EmptyString) parts in
  let kept :=
    List.fold_left
      (fun acc seg =>
         if String.eqb seg EmptyString || String.eqb seg "." then acc
         else if String.eqb seg ".." then List.removelast acc
         else (acc ++ [seg])%list)
      segments [] in
  List.fold_left (fun acc seg => acc ++ "/" ++ seg) kept EmptyString.

(** [marked.parse] on one paragraph of plain text. *)
Definition marked_parse (markdown : string) : string :=
  "<p>" ++ markdown ++ "</p>" ++ nl.

(** The text of an index, as [blogs.json] holds it. *)
Definition entry_json (p : PostIndexEntry) : value :=
  VObj ([("slug", str_or_undef (slug p)); ("title", str_or_undef (title p));
         ("excerpt", str_or_undef (excerpt p)); ("date", str_or_undef (date p));
         ("author", str_or_undef (author p))]
        ++ match tags p with
           | Some l => [("tags", VArr (List.map VStr l))]
           | None => []
           end
        ++ match featuredImage p with
           | Some u => [("featuredImage", VStr u)]
           | None => []
           end)%list.

Definition index_json (posts : list PostIndexEntry) : string :=
  stringify (VObj [("posts", VArr (List.map entry_json posts))]).

(** The text of an index whose [posts] is a number. *)
Definition posts_is_a_number : string := stringify (VObj [("posts", VNum 5)]).

(** [parse_index] on the text of a known index; on the index whose
    [posts] is a number, which has no [length] and is not iterable; on
    anything else as on a text that is no JSON. *)
Definition parse_index (known : list (list PostIndexEntry)) (text : string)
  : exn + Index :=
  match List.find (fun posts => String.eqb (index_json posts) text) known with
  | Some posts => inr (Posts posts)
  | None =>
      if String.eqb text posts_is_a_number
      then inr (NotIterable VUndef (TypeError "posts is not iterable"))
      else inl (SyntaxError "Unexpected token in JSON")
  end.

Definition builtins (known : list (list PostIndexEntry)) : Builtins :=
  {| JS.encodeURIComponent := encodeURIComponent;
     JS.toLowerCase := toLowerCase;
     JS.trim := trim;
     JS.Date_toISOString := Date_toISOString;
     JS.StringToNumber_gt0 := StringToNumber_gt0;
     JS.JSON_parse := JSON_parse;
     JS.URL_parse := URL_parse;
     JS.base64 := base64;
     JS.path_join := path_join;
     JS.marked_parse := marked_parse;
     JS.parse_index := parse_index known |}.

(** *** The sample remote: a WordPress that holds the post [existing],
    the tag [Valid] (id 11) and the category [Blog] (id 3), and that
    remembers the posts it is made to create.  It refuses to search any
    other tag, fails on the post [broken] and on the media search for
    [y].  Its state is the list of the slugs created so far. *)

Definition body_slug (r : request) : string :=
  match r_body r with
  | Some (JsonText (VObj props)) =>
      match lookup "slug" props with
      | Some (VStr s) => s
      | _ => EmptyString
      end
  | _ => EmptyString
  end.

Definition ok (v : value) : net_result := Response 200 (stringify v).

(** The post, among those the remote holds, that an endpoint built by
    [endpoint_of] names. *)
Definition held (created : list string) (endpoint_of : string -> string) (e : string)
  : option string :=
  List.find (fun s => String.eqb e (endpoint_of s)) ("existing" :: created).

Definition answer (r : request) (created : list string) : net_result * list string :=
  let e := r_endpoint r in
  let m := r_method r in
  if String.eqb m "GET" then
    (if String.eqb e "/posts?per_page=1" then ok (post_list "existing")
     else if String.prefix "/posts?slug=" e then
       match held created (fun s => "/posts?slug=" ++ s ++ "&status=publish,draft,pending") e,
             held created (fun s => "/posts?slug=" ++ s) e with
       | Some s, _ | None, Some s => ok (post_list s)
       | None, None => ok no_items
       end
     else if String.eqb e "/tags?search=Valid" then ok tag_valid
     else if String.prefix "/tags?search=" e then Response 400 "invalid tag"
     else if String.eqb e "/categories?search=Blog" then ok cat_blog
     else if String.eqb e "/media?search=y&per_page=5" then Response 500 "media search down"
     else if String.prefix "/media?search=" e then ok no_items
     else Response 404 "not found",
     created)
  else if String.eqb m "POST" then
    if String.eqb e "/posts" then
      if String.eqb (body_slug r) "broken"
      then (Response 500 "Internal Server Error", created)
      else (Response 201 (stringify (post_item (body_slug r))), body_slug r :: created)
    else if String.eqb e "/media" then (Response 201 (stringify media_99), created)
    else (Response 400 "cannot create", created)
  else if String.eqb m "PUT" then
    match held created (fun s => "/posts/" ++ Number_toString (id_of s)) e with
    | Some s => (ok (post_item s), created)
    | None => (Response 404 "not found", created)
    end
  else (Response 405 "method not allowed", created).

Definition image (url : string) : get_result :=
  if String.eqb url "https://example.com/ok.jpg"
  then GetResponse 200 None (Some "image/png") "PNGDATA"
  else GetResponse 404 None None "Not Found".

Definition host (url user password : option string)
    (index : list PostIndexEntry) (files : list string) : Host (list string) :=
  {| env_WP_URL := url;
     env_WP_USERNAME := user;
     env_WP_APP_PASSWORD := password;
     dirname := "/repo/scripts";
     existsSync := fun p =>
       existsb (fun s => String.eqb p ("/repo/posts/" ++ s ++ ".md")) files;
     readFileSync := fun p =>
       if String.eqb p "/repo/blogs.json" then inr (index_json index)
       else if existsb (fun s => String.eqb p ("/repo/posts/" ++ s ++ ".md")) files
            then inr "Hello"
            else inl (Error ("ENOENT: no such file or directory, open '" ++ p ++ "'"));
     network := answer;
     http_get := fun u w => (image u, w) |}.

Definition entry (slug date : string) (tags : option (list string))
    (img : option string) : PostIndexEntry :=
  {| JS.slug := Some slug; JS.title := Some ("Title of " ++ slug);
     JS.excerpt := Some "Excerpt"; JS.date := Some date;
     JS.author := Some "Pavan Rangani"; JS.tags := tags;
     JS.featuredImage := img |}.

(** *** Sample indexes.  The markdown files of [existing], [fresh],
    [broken], [tagged], [undated], [x] and [y] are present; that of
    [nofile] is not. *)

Definition files : list string :=
  ["existing"; "fresh"; "broken"; "tagged"; "undated"; "x"; "y"].

Definition existing_post : PostIndexEntry := entry "existing" "2025-03-01" None None.
Definition fresh_post : PostIndexEntry := entry "fresh" "2024-12-24" None None.
Definition nofile_post : PostIndexEntry := entry "nofile" "not a date" None None.
Definition undated_post : PostIndexEntry := entry "undated" "not a date" None None.
Definition tagged_post : PostIndexEntry :=
  entry "tagged" "2025-03-01" (Some ["Valid"; "#Invalid#"]) None.
Definition x_post : PostIndexEntry :=
  entry "x" "2025-03-01" None (Some "https://example.com/missing.jpg").
Definition y_post : PostIndexEntry :=
  entry "y" "2025-03-01" None (Some "https://example.com/ok.jpg").

(** The world of a remote that has not been made to create anything. *)
Definition untouched : list string := [].

(** An index of four entries: one the remote holds, two it does not, one
    without its markdown file. *)
Definition four_posts : list PostIndexEntry :=
  [existing_post; fresh_post; tagged_post; nofile_post].

(** The platform and the host of a run over [index], fully configured. *)
Definition platform (index : list PostIndexEntry) : Builtins := builtins [index].

Definition site (index : list PostIndexEntry) : Host (list string) :=
  host (Some "https://blog.example.com/") (Some "editor") (Some "app password")
       index files.

End Sample.

(* ===================================================================== *)
(** ** What is observed of a run *)
(* ===================================================================== *)

Module Trace.

(** The requests sent to the remote API, with their answers, in order. *)
Definition requests (evs : list event) : list (request * net_result) :=
  List.flat_map (fun ev => match ev with
                           | ENet r res => [(r, res)]
                           | _ => []
                           end) evs.

(** Any network activity at all: API requests and image downloads. *)
Definition is_network (ev : event) : bool :=
  match ev with
  | ENet _ _ | EGet _ _ => true
  | _ => false
  end.

(** The lines written to one console stream. *)
Definition console (s : stream) (evs : list event) : list string :=
  List.flat_map (fun ev => match ev, s with
                           | EConsole Log m, Log => [m]
                           | EConsole Warn m, Warn => [m]
                           | EConsole Err m, Err => [m]
                           | _, _ => []
                           end) evs.

(** Requests on the posts resource. *)
Definition on_posts (x : request * net_result) : bool :=
  String.prefix "/posts" (r_endpoint (fst x)).

Definition posts_requests (evs : list event) : list (request * net_result) :=
  List.filter on_posts (requests evs).

Definition is_create (r : request) : bool :=
  String.eqb (r_method r) "POST" && String.eqb (r_endpoint r) "/posts".

Definition is_update (r : request) : bool :=
  String.eqb (r_method r) "PUT" && String.prefix "/posts/" (r_endpoint r).

Definition is_upsert (r : request) : bool := is_create r || is_update r.

(** The search that resolves the category [name]. *)
Definition is_category_lookup (B : Builtins) (name : string) (r : request) : bool :=
  String.eqb (r_method r) "GET"
  && String.eqb (r_endpoint r) ("/categories?search=" ++ encodeURIComponent B name).

Definition count (p : request -> bool) (evs : list event) : nat :=
  List.length (List.filter (fun x => p (fst x)) (requests evs)).

(** The keys of the object a request carries, in order, as its JSON
    text holds them. *)
Definition body_keys (r : request) : list string :=
  match r_body r with
  | Some (JsonText (VObj props)) => List.map fst (stringified props)
  | _ => []
  end.

Definition body_field (k : string) (r : request) : option value :=
  match r_body r with
  | Some (JsonText (VObj props)) => lookup k (stringified props)
  | _ => None
  end.

(** The key of a field, where the entry has the field. *)
Definition present (k : string) (v : option string) : list string :=
  match v with
  | Some _ => [k]
  | None => []
  end.

(** Every event of a computation satisfies [P], whatever the world. *)
Definition footprint {W A} (P : event -> Prop) (m : M W A) : Prop :=
  forall w, Forall P (events (m w)).

(** A computation never ends the process. *)
Definition no_exit {W A} (m : M W A) : Prop :=
  forall w c, out (m w) <> Exit c.

(** A computation always returns: it neither throws nor ends the
    process. *)
Definition returns {W A} (m : M W A) : Prop :=
  forall w, exists a, out (m w) = Ret a.

(** An event that is no request on an endpoint starting with [prefix]
    and no download. *)
Definition off (prefix : string) (ev : event) : Prop :=
  match ev with
  | ENet r _ => String.prefix prefix (r_endpoint r) = false
  | EGet _ _ => True
  | _ => True
  end.

(** An event of the traffic on one resource: a GET or a POST on an
    endpoint that starts with [prefix], a console line or a pause. *)
Definition resource_event (prefix : string) (ev : event) : Prop :=
  match ev with
  | ENet r _ =>
      String.prefix prefix (r_endpoint r) = true /\
      (r_method r = "GET" \/ (r_method r = "POST" /\ r_endpoint r = prefix))
  | EGet _ _ => False
  | _ => True
  end.

(** A request that, if it is an upsert, carries [data]. *)
Definition carries (data : value) (ev : event) : Prop :=
  match ev with
  | ENet r _ => is_upsert r = true -> r_body r = Some (JsonText data)
  | _ => True
  end.

(** An event that is no upsert. *)
Definition no_upsert (ev : event) : Prop :=
  match ev with
  | ENet r _ => is_upsert r = false
  | _ => True
  end.

End Trace.
Import Trace.

(* ===================================================================== *)
(** ** The phases of [publishPost] in [src/scripts/publish.js]

    [publishPost] is one function in the source.  The statements below
    speak of its parts, so the parts are named here and
    [publishPost_phases] shows that the function is their sequence. *)
(* ===================================================================== *)

Module Phases.
Local Open Scope js_scope.

Section Script.
Context {W : Type} (B : Builtins) (H : Host W).

Definition mdPath (p : PostIndexEntry) : string :=
  path_join B [dirname H; ".."; "posts"; template (slug p) ++ ".md"].

Definition tag_names (p : PostIndexEntry) : list string :=
  match tags p with
  | Some l => l
  | None => []
  end.

(** The category step: lines 151-158. *)
Definition category_step : M W (list value) :=
  try_catch
    (blogCatId <- Publish.getOrCreateCategory B H "Blog" ;;
     ret [blogCatId])
    (fun e =>
       console_warn ("  Warning: Could not get/create category: " ++ message e) ;;;
       ret []).

(** The object [postData]: lines 160-169. *)
Definition postData (p : PostIndexEntry) (htmlContent isoDate : string)
    (tagIds categoryIds : list value) : value :=
  VObj [("title", str_or_undef (title p));
        ("slug", str_or_undef (slug p));
        ("content", VStr htmlContent);
        ("excerpt", str_or_undef (excerpt p));
        ("status", VStr "publish");
        ("date", VStr isoDate);
        ("tags", VArr tagIds);
        ("categories", VArr categoryIds)].

(** The upsert: lines 171-179. *)
Definition upsert (p : PostIndexEntry) (data : value) : M W unit :=
  existing <- Publish.getExistingPost B H (template (slug p)) ;;
  if truthy existing then
    id <- lift (prop existing "id") ;;
    Publish.wpRequest B H ("/posts/" ++ ToString id) "PUT" data ;;;
    console_log ("  Updated: " ++ dq ++ template (title p) ++ dq)
  else
    Publish.wpRequest B H "/posts" "POST" data ;;;
    console_log ("  Published: " ++ dq ++ template (title p) ++ dq).

(** The endpoint of the existence check. *)
Definition check_endpoint (slug : string) : string :=
  "/posts?slug=" ++ slug ++ "&status=publish,draft,pending".

(** What [getExistingPost] makes of the answer to its request. *)
Definition found (slug : string) (res : net_result) : exn + value :=
  match Publish.settle B (check_endpoint slug) "GET" res with
  | inl e => inl e
  | inr posts =>
      match prop posts "length" with
      | inl e => inl e
      | inr len => inr (if gt0 B len then index0 posts else VNull)
      end
  end.

(** The endpoint and method of the write that follows a check which
    answered [existing]. *)
Definition write_endpoint (existing : value) : string :=
  if truthy existing then
    "/posts/" ++ ToString (match prop existing "id" with
                           | inr id => id
                           | inl _ => VUndef
                           end)
  else "/posts".

Definition write_method (existing : value) : string :=
  if truthy existing then "PUT" else "POST".

(** The traffic on the posts resource that one index entry may cause:
    none; or the existence check alone, when it fails or when the URL of
    the write cannot be built; or the check followed by the one write its
    answer calls for, an update of the post found or else a create. *)
Definition upsert_group (slug : option string) (l : list (request * net_result)) : Prop :=
  match l with
  | [] => True
  | (chk, res) :: rest =>
      r_method chk = "GET" /\ r_endpoint chk = check_endpoint (template slug) /\
      match found (template slug) res with
      | inl _ => rest = []
      | inr existing =>
          match URL_parse B (Publish.API_BASE H ++ write_endpoint existing) with
          | None => rest = []
          | Some _ =>
              exists wr res',
                rest = [(wr, res')] /\
                r_method wr = write_method existing /\
                r_endpoint wr = write_endpoint existing /\
                body_field "slug" wr = option_map VStr slug /\
                is_create wr = negb (truthy existing)
          end
      end
  end.

(** Every post of a run returned: it was published, updated or skipped. *)
Fixpoint all_return (posts : list PostIndexEntry) (w : W) : Prop :=
  match posts with
  | [] => True
  | p :: rest =>
      out (Publish.publishPost B H p w) = Ret tt /\
      all_return rest (final (Publish.publishPost B H p w))
  end.

(** The posts of an index that the run does not skip and can read. *)
Definition readable (p : PostIndexEntry) : bool :=
  existsSync H (mdPath p) &&
  match readFileSync H (mdPath p) with
  | inr _ => true
  | inl _ => false
  end.

(** The environment is complete. *)
Definition configured : Prop :=
  missing (Publish.WP_URL H) = false /\
  missing (Publish.WP_USERNAME H) = false /\
  missing (Publish.WP_APP_PASSWORD H) = false.

(** The connectivity probe of [main]. *)
Definition probe : M W value := Publish.wpRequest B H "/posts?per_page=1" "GET" VNull.

(** The index is read and holds [posts]. *)
Definition index_is (posts : list PostIndexEntry) : Prop :=
  exists text,
    readFileSync H (path_join B [dirname H; ".."; "blogs.json"]) = inr text /\
    parse_index B text = inr (Posts posts).

Definition done_line (ok failed : nat) : string :=
  nl ++ "Done! " ++ Number_toString (Z.of_nat ok) ++ " published, "
  ++ Number_toString (Z.of_nat failed) ++ " failed." ++ nl.

End Script.
End Phases.

(* ===================================================================== *)
(** ** The phases of [publishPost] in the variant with featured images *)
(* ===================================================================== *)

Module MediaPhases.
Local Open Scope js_scope.

Section Script.
Context {W : Type} (B : Builtins) (H : Host W).

(** The search of the media library that opens [setFeaturedImage]. *)
Definition media_search (slug : string) : M W value :=
  PublishMedia.wpRequest B H
    ("/media?search=" ++ encodeURIComponent B slug ++ "&per_page=5") "GET" VNull.

(** What [setFeaturedImage] does when the search has delivered no id:
    download, then upload. *)
Definition download_and_upload (slug imageUrl : string) : M W value :=
  console_log ("    Downloading image for " ++ slug ++ "...") ;;;
  image <- PublishMedia.downloadImage H imageUrl ;;
  console_log ("    Uploading to WordPress ("
               ++ Number_toString ((Z.of_nat (String.length (fst image)) + 512) / 1024)
               ++ "KB)...") ;;;
  media <- PublishMedia.uploadMedia B H (fst image) (slug ++ "-featured.jpg") (snd image) ;;
  lift (prop media "id").

Definition category_step : M W (list value) :=
  try_catch
    (id <- PublishMedia.getOrCreateCategory B H "Blog" ;;
     ret [id])
    (fun _ => ret []).

(** The image step of [publishPost], with its [catch]. *)
Definition image_step (p : PostIndexEntry) : M W value :=
  try_catch
    (PublishMedia.setFeaturedImage B H (template (slug p)) (featuredImage p))
    (fun e =>
       console_warn ("    Image failed: " ++ message e) ;;;
       ret VNull).

Definition postData (p : PostIndexEntry) (htmlContent isoDate : string)
    (tagIds categoryIds : list value) (featuredMediaId : value) : value :=
  VObj ([("title", str_or_undef (title p));
         ("slug", str_or_undef (slug p));
         ("content", VStr htmlContent);
         ("excerpt", str_or_undef (excerpt p));
         ("status", VStr "publish");
         ("date", VStr isoDate)]
        ++ (if (0 <? List.length tagIds)%nat then [("tags", VArr tagIds)] else [])
        ++ (if (0 <? List.length categoryIds)%nat
            then [("categories", VArr categoryIds)] else [])
        ++ (if truthy featuredMediaId
            then [("featured_media", featuredMediaId)] else []))%list.

Definition upsert (p : PostIndexEntry) (data : value) : M W unit :=
  existing <- PublishMedia.getExistingPost B H (template (slug p)) ;;
  if truthy existing then
    id <- lift (prop existing "id") ;;
    PublishMedia.wpRequest B H ("/posts/" ++ ToString id) "PUT" data ;;;
    console_log ("  Updated: " ++ dq ++ template (title p) ++ dq)
  else
    PublishMedia.wpRequest B H "/posts" "POST" data ;;;
    console_log ("  Published: " ++ dq ++ template (title p) ++ dq).

End Script.
End MediaPhases.

(* ===================================================================== *)
(** ** The phases of [publishPost] in the variant on [fetch] *)
(* ===================================================================== *)

Module FetchPhases.
Local Open Scope js_scope.

Section Script.
Context {W : Type} (B : Builtins) (H : Host W).

Definition category_step : M W (list value) :=
  try_catch
    (blogCatId <- PublishFetch.getOrCreateCategory B H "Blog" ;;
     ret [blogCatId])
    (fun e =>
       console_warn ("  Warning: Could not get/create category: " ++ message e) ;;;
       ret []).

Definition upsert (p : PostIndexEntry) (data : value) : M W unit :=
  existing <- PublishFetch.getExistingPost B H (template (slug p)) ;;
  if truthy existing then
    id <- lift (prop existing "id") ;;
    PublishFetch.wpFetch B H ("/posts/" ++ ToString id) "PUT" (Some data) ;;;
    console_log ("  Updated: " ++ dq ++ template (title p) ++ dq)
  else
    PublishFetch.wpFetch B H "/posts" "POST" (Some data) ;;;
    console_log ("  Published: " ++ dq ++ template (title p) ++ dq).

End Script.
End FetchPhases.

(* ===================================================================== *)
(** ** Statements as the specification words them

    Where the script departs from a sentence of the specification, the
    sentence is written down here as it stands, to be compared with what
    the script does. *)
(* ===================================================================== *)

Module Claimed.

(** "Both carry the full assembled payload: title, slug, content, excerpt,
    status, date, tags, categories, featured_media." *)
Definition payload_keys : list string :=
  ["title"; "slug"; "content"; "excerpt"; "status"; "date"; "tags"; "categories";
   "featured_media"].

Definition full_payload (evs : list event) : Prop :=
  forall r res, In (ENet r res) evs -> is_upsert r = true -> body_keys r = payload_keys.

(** "[WP_URL] (base URL, trailing slash stripped, [https://] prefixed if
    missing scheme)". *)
Definition has_scheme (s : string) : bool := PublishMedia.includes "://" s.

Definition normalize (raw : string) : string :=
  let stripped := strip_trailing_slash raw in
  if has_scheme stripped then stripped else "https://" ++ stripped.

(** "A fixed category (literal name Blog) is resolved once per run and
    reused across all posts." *)
Definition resolved_once (B : Builtins) (evs : list event) : Prop :=
  (count (is_category_lookup B "Blog") evs <= 1)%nat.

(** "For every post entry whose date field is not parseable as a date
    [...] the whole post transitions to Failed." *)
Definition bad_date_fails {W : Type} (B : Builtins) (H : Host W)
    (p : PostIndexEntry) (w : W) : Prop :=
  Date_toISOString B (date p) = None ->
  exists e, out (Publish.publishPost B H p w) = Throw e.

(** "Returns null if [sourceUrl] is absent or any step fails", for the
    first of the steps, the search of the media library. *)
Definition null_when_search_fails {W : Type} (B : Builtins) (H : Host W)
    (slug : string) (sourceUrl : option string) (w : W) : Prop :=
  (exists e,
      out (PublishMedia.wpRequest B H
             ("/media?search=" ++ encodeURIComponent B slug ++ "&per_page=5")
             "GET" VNull w) = Throw e) ->
  out (PublishMedia.setFeaturedImage B H slug sourceUrl w) = Ret VNull.

End Claimed.

(* ===================================================================== *)
(** ** Further observations on a run: pauses, console lines, downloads *)
(* ===================================================================== *)

Module Observed.

Definition is_pause (ms : Z) (ev : event) : bool :=
  match ev with
  | EDelay n => Z.eqb n ms
  | _ => false
  end.

(** The pauses of [ms] milliseconds. *)
Definition pauses (ms : Z) (evs : list event) : nat :=
  List.length (List.filter (is_pause ms) evs).

(** The number of lines written to one console stream. *)
Definition lines (s : stream) (evs : list event) : nat :=
  List.length (console s evs).

Definition is_download (ev : event) : bool :=
  match ev with
  | EGet _ _ => true
  | _ => false
  end.

(** The GETs made for images. *)
Definition downloads (evs : list event) : nat :=
  List.length (List.filter is_download evs).

(** The requests sent to the API. *)
Definition sent (evs : list event) : nat := List.length (requests evs).

(** The events [getOrCreateTag] and [getOrCreateCategory] may produce:
    requests, and the pause before a creation. *)
Definition term_event (ev : event) : Prop :=
  match ev with
  | ENet _ _ => True
  | EDelay ms => ms = 300%Z
  | _ => False
  end.


(** The events of the variant on [fetch]: requests and console lines. *)
Definition fetch_event (ev : event) : Prop :=
  match ev with
  | ENet _ _ | EConsole _ _ => True
  | _ => False
  end.

(** Reading the index throws, or parsing it or reading [posts.length]
    does: the file cannot be read, its text is not JSON, or it holds no
    [posts]. *)
Definition index_fails {W : Type} (B : Builtins) (H : Host W) (e : exn) : Prop :=
  readFileSync H (path_join B [dirname H; ".."; "blogs.json"]) = inl e \/
  exists text,
    readFileSync H (path_join B [dirname H; ".."; "blogs.json"]) = inr text /\
    parse_index B text = inl e.

(** The index holds [posts] with a [length] to print, and they cannot be
    iterated. *)
Definition index_not_iterable {W : Type} (B : Builtins) (H : Host W)
    (length : value) (e : exn) : Prop :=
  exists text,
    readFileSync H (path_join B [dirname H; ".."; "blogs.json"]) = inr text /\
    parse_index B text = inr (NotIterable length e).

(** A host that answers every image GET with a redirect. *)
Definition always_redirects {W : Type} (H : Host W) : Prop :=
  forall url w,
    exists status location contentType buffer,
      fst (http_get H url w) = GetResponse status (Some location) contentType buffer /\
      (300 <= status < 400)%Z /\ location <> EmptyString.

(** A request with a given header. *)
Definition has_header (name content : string) (r : request) : Prop :=
  In (name, content) (r_headers r).

(** The options object [wpRequest] of [scripts/publish.js] hands to
    [https.request], with the body it writes. *)
Definition options {W : Type} (B : Builtins) (H : Host W)
    (endpoint method : string) (body : value) (url : URL) : request :=
  {| r_endpoint := endpoint;
     r_method := method;
     r_target := HostPath (hostname url) 443 (pathname url ++ search url);
     r_headers :=
       [("Authorization", Publish.AUTH_HEADER B H);
        ("Content-Type", "application/json");
        ("User-Agent", "TechBlog-Publisher/1.0")];
     r_body := if truthy body then Some (JsonText body) else None |}.

(** A request that carries the credentials and goes to port 443 of the
    host of the URL made from the base and its endpoint. *)
Definition authorized {W : Type} (B : Builtins) (H : Host W) (ev : event) : Prop :=
  match ev with
  | ENet r _ =>
      has_header "Authorization" (Publish.AUTH_HEADER B H) r /\
      exists url,
        URL_parse B (Publish.API_BASE H ++ r_endpoint r) = Some url /\
        r_target r = HostPath (hostname url) 443 (pathname url ++ search url)
  | EGet _ _ => False
  | _ => True
  end.

(** A computation sends at most [n] requests, whatever the world. *)
Definition at_most {W A : Type} (n : nat) (m : M W A) : Prop :=
  forall w, (sent (events (m w)) <= n)%nat.

(** The requests one index entry may cost: two for each tag, two for
    the category, two for the upsert. *)
Definition budget (p : PostIndexEntry) : nat :=
  2 * List.length (Phases.tag_names p) + 4.

(** What a thrown value or a returned one makes of a promise. *)
Definition settled {A : Type} (r : exn + A) : outcome A :=
  match r with
  | inl e => Throw e
  | inr a => Ret a
  end.

(** The options object [uploadMedia] hands to [https.request], with the
    buffer it writes. *)
Definition upload_options {W : Type} (B : Builtins) (H : Host W)
    (imageBuffer filename contentType : string) (url : URL) : request :=
  {| r_endpoint := "/media";
     r_method := "POST";
     r_target := HostPath (hostname url) 443 (pathname url);
     r_headers :=
       [("Authorization", PublishMedia.AUTH_HEADER B H);
        ("Content-Type", contentType);
        ("Content-Disposition", "attachment; filename=" ++ dq ++ filename ++ dq);
        ("User-Agent", "TechBlog-Publisher/1.0")];
     r_body := Some (Bytes imageBuffer) |}.

(** The search of the media library has delivered no id: it threw, or
    no item of its result has a slug that contains the post's. *)
Definition no_media_found {W : Type} (B : Builtins) (H : Host W)
    (slug : string) (w : W) : Prop :=
  (exists e, out (MediaPhases.media_search B H slug w) = Throw e) \/
  (exists items,
      out (MediaPhases.media_search B H slug w) = Ret (VArr items) /\
      Forall (fun m => PublishMedia.slug_matches slug m = inr false) items).

(** The six fields every payload of the variant with featured images
    holds. *)
Definition fixed_keys : list string :=
  ["title"; "slug"; "content"; "excerpt"; "status"; "date"].

End Observed.
Import Observed.

(* ===================================================================== *)
(** ** The remote as the existence check sees it *)
(* ===================================================================== *)

Module Remote.

Section Script.
Context {W : Type} (B : Builtins) (H : Host W).

(** The request of the existence check for [slug], its URL being [url]. *)
Definition check_request (slug : string) (url : URL) : request :=
  options B H (Phases.check_endpoint slug) "GET" VNull url.

(** What the remote, in the world [w], answers to the existence check
    for [slug], as [getExistingPost] reads it: an error, or the post
    found, or [null]. *)
Definition counterpart (slug : string) (url : URL) (w : W) : exn + value :=
  Phases.found B slug (fst (network H (check_request slug url) w)).

(** The world in which the existence check of an entry is made: the one
    the tag loop and the category step leave. *)
Definition world_at_check (p : PostIndexEntry) (w : W) : W :=
  final (Phases.category_step B H
           (final (Publish.publishPost_tags B H (Phases.tag_names p) [] w))).

(** The traffic of a run on the posts resource: that of each entry in
    turn, each from the world the one before has left. *)
Fixpoint run_traffic (posts : list PostIndexEntry) (w : W)
  : list (request * net_result) :=
  match posts with
  | [] => []
  | p :: rest =>
      (posts_requests (events (Publish.publishPost B H p w))
       ++ run_traffic rest (final (Publish.publishPost B H p w)))%list
  end.

(** A remote that reports the posts it holds: asked for a slug it holds,
    it answers the existence check with a post. *)
Definition reports (holds : W -> string -> Prop) : Prop :=
  forall w slug url,
    holds w slug ->
    URL_parse B (Publish.API_BASE H ++ Phases.check_endpoint slug) = Some url ->
    exists existing, counterpart slug url w = inr existing /\ truthy existing = true.

(** A remote that loses no post: whatever it is asked, it goes on
    holding what it held. *)
Definition keeps (holds : W -> string -> Prop) : Prop :=
  forall w r slug, holds w slug -> holds (snd (network H r w)) slug.

(** A computation keeps a property of the world. *)
Definition preserves {A : Type} (I : W -> Prop) (m : M W A) : Prop :=
  forall w, I w -> I (final (m w)).

(** "For every post entry with no remote counterpart, exactly one create
    (POST) call is issued", the entry having no counterpart when the
    remote, asked for its slug, answers that it holds no such post. *)
Definition created_once (p : PostIndexEntry) (w : W) : Prop :=
  (exists url existing,
      URL_parse B (Publish.API_BASE H ++ Phases.check_endpoint (template (slug p)))
        = Some url /\
      counterpart (template (slug p)) url w = inr existing /\
      truthy existing = false) ->
  count is_create (events (Publish.publishPost B H p w)) = 1%nat.

End Script.
End Remote.

(* ===================================================================== *)
(** ** Further sample hosts *)
(* ===================================================================== *)

Module Cases.

Definition with_network (H : Host (list string))
    (net : request -> list string -> net_result * list string) : Host (list string) :=
  {| env_WP_URL := env_WP_URL H;
     env_WP_USERNAME := env_WP_USERNAME H;
     env_WP_APP_PASSWORD := env_WP_APP_PASSWORD H;
     dirname := dirname H;
     existsSync := existsSync H;
     readFileSync := readFileSync H;
     network := net;
     http_get := http_get H |}.

Definition with_get (H : Host (list string))
    (g : string -> list string -> get_result * list string) : Host (list string) :=
  {| env_WP_URL := env_WP_URL H;
     env_WP_USERNAME := env_WP_USERNAME H;
     env_WP_APP_PASSWORD := env_WP_APP_PASSWORD H;
     dirname := dirname H;
     existsSync := existsSync H;
     readFileSync := readFileSync H;
     network := network H;
     http_get := g |}.

(** A site whose server refuses every connection. *)
Definition refusing (index : list PostIndexEntry) : Host (list string) :=
  with_network (Sample.site index)
    (fun _ w => (NetworkError "ECONNREFUSED" "connect ECONNREFUSED 203.0.113.7:443", w)).

(** A site configured without a scheme. *)
Definition schemeless (index : list PostIndexEntry) : Host (list string) :=
  Sample.host (Some "blog.example.com/") (Some "editor") (Some "app password")
              index Sample.files.

(** A site that answers the existence check with a page of HTML. *)
Definition html_page : string := "<html>maintenance</html>".

Definition behind_a_page (index : list PostIndexEntry) : Host (list string) :=
  with_network (Sample.site index)
    (fun r w =>
       if String.prefix "/posts?slug=" (r_endpoint r) then (Response 200 html_page, w)
       else Sample.answer r w).

(** An image server that redirects every request to the same place. *)
Definition looping (index : list PostIndexEntry) : Host (list string) :=
  with_get (Sample.site index)
    (fun _ w => (GetResponse 302 (Some "https://example.com/a.jpg") None EmptyString, w)).

(** A site that answers every search of a tag with the tag [Valid]. *)
Definition lenient (index : list PostIndexEntry) : Host (list string) :=
  with_network (Sample.site index)
    (fun r w =>
       if String.eqb (r_method r) "GET" && String.prefix "/tags?search=" (r_endpoint r)
       then (Sample.ok Sample.tag_valid, w)
       else Sample.answer r w).

(** A site whose markdown files are there and cannot be read. *)
Definition locked (index : list PostIndexEntry) : Host (list string) :=
  {| env_WP_URL := env_WP_URL (Sample.site index);
     env_WP_USERNAME := env_WP_USERNAME (Sample.site index);
     env_WP_APP_PASSWORD := env_WP_APP_PASSWORD (Sample.site index);
     dirname := dirname (Sample.site index);
     existsSync := existsSync (Sample.site index);
     readFileSync := fun p =>
       if String.eqb p "/repo/blogs.json" then readFileSync (Sample.site index) p
       else inl (Error ("EACCES: permission denied, open '" ++ p ++ "'"));
     network := network (Sample.site index);
     http_get := http_get (Sample.site index) |}.

(** A media library that holds two images, the second one for the post
    [y], and a platform that parses its listing. *)
Definition library : value :=
  VArr [VObj [("id", VNum 41); ("slug", VStr "other-featured")];
        VObj [("id", VNum 42); ("slug", VStr "y-featured")]].

Definition platform : Builtins :=
  {| JS.encodeURIComponent := Sample.encodeURIComponent;
     JS.toLowerCase := Sample.toLowerCase;
     JS.trim := Sample.trim;
     JS.Date_toISOString := Sample.Date_toISOString;
     JS.StringToNumber_gt0 := Sample.StringToNumber_gt0;
     JS.JSON_parse := fun s =>
       if String.eqb s (Sample.stringify library) then Some library
       else Sample.JSON_parse s;
     JS.URL_parse := Sample.URL_parse;
     JS.base64 := Sample.base64;
     JS.path_join := Sample.path_join;
     JS.marked_parse := Sample.marked_parse;
     JS.parse_index := Sample.parse_index [] |}.

Definition with_library (index : list PostIndexEntry) : Host (list string) :=
  with_network (Sample.site index)
    (fun r w =>
       if String.eqb (r_method r) "GET" && String.prefix "/media?search=" (r_endpoint r)
       then (Sample.ok library, w)
       else Sample.answer r w).

(** A site whose [blogs.json] holds the given text. *)
Definition with_index (H : Host (list string)) (text : string) : Host (list string) :=
  {| env_WP_URL := env_WP_URL H;
     env_WP_USERNAME := env_WP_USERNAME H;
     env_WP_APP_PASSWORD := env_WP_APP_PASSWORD H;
     dirname := dirname H;
     existsSync := existsSync H;
     readFileSync := fun p =>
       if String.eqb p "/repo/blogs.json" then inr text else readFileSync H p;
     network := network H;
     http_get := http_get H |}.

(** A site whose index was cut short, and one whose [posts] is a
    number. *)
Definition garbled : Host (list string) :=
  with_index (Sample.site []) "{ posts: [".

Definition numbered : Host (list string) :=
  with_index (Sample.site []) Sample.posts_is_a_number.

(** An entry with a slug and a date and neither title nor excerpt. *)
Definition terse_post : PostIndexEntry :=
  {| slug := Some "fresh"; title := None; excerpt := None;
     date := Some "2024-12-24"; author := None; tags := None;
     featuredImage := None |}.

(** A post with two tags the sample remote refuses to search. *)
Definition refused_tags_post : PostIndexEntry :=
  Sample.entry "fresh" "2024-12-24" (Some ["#a#"; "#b#"]) None.

End Cases.

(* ===================================================================== *)
(** ** Laws of the process monad *)
(* ===================================================================== *)

Section MonadFacts.
Context {W : Type}.

Lemma result_eta {A} (r : result W A) :
  r = mkResult (out r) (final r) (events r).
Proof. destruct r; reflexivity. Qed.

Lemma bind_Ret {A B} (m : M W A) (k : A -> M W B) w a :
  out (m w) = Ret a ->
  bind m k w =
  mkResult (out (k a (final (m w)))) (final (k a (final (m w))))
           (events (m w) ++ events (k a (final (m w)))).
Proof. intros E. unfold bind. rewrite E. reflexivity. Qed.

Lemma bind_Throw {A B} (m : M W A) (k : A -> M W B) w e :
  out (m w) = Throw e ->
  bind m k w = mkResult (Throw e) (final (m w)) (events (m w)).
Proof. intros E. unfold bind. rewrite E. reflexivity. Qed.

Lemma try_Ret {A} (m : M W A) h w a :
  out (m w) = Ret a -> try_catch m h w = m w.
Proof. intros E. unfold try_catch. rewrite E. reflexivity. Qed.

Lemma try_Throw {A} (m : M W A) h w e :
  out (m w) = Throw e ->
  try_catch m h w =
  mkResult (out (h e (final (m w)))) (final (h e (final (m w))))
           (events (m w) ++ events (h e (final (m w)))).
Proof. intros E. unfold try_catch. rewrite E. reflexivity. Qed.

(** The three components of a sequence and of a [try], one at a time. *)

Lemma out_bind {A B} (m : M W A) (k : A -> M W B) w :
  out (bind m k w) =
  match out (m w) with
  | Ret a => out (k a (final (m w)))
  | Throw e => Throw e
  | Exit c => Exit c
  end.
Proof. unfold bind. destruct (out (m w)); reflexivity. Qed.

Lemma final_bind {A B} (m : M W A) (k : A -> M W B) w :
  final (bind m k w) =
  match out (m w) with
  | Ret a => final (k a (final (m w)))
  | _ => final (m w)
  end.
Proof. unfold bind. destruct (out (m w)); reflexivity. Qed.

Lemma events_bind {A B} (m : M W A) (k : A -> M W B) w :
  events (bind m k w) =
  match out (m w) with
  | Ret a => (events (m w) ++ events (k a (final (m w))))%list
  | _ => events (m w)
  end.
Proof. unfold bind. destruct (out (m w)); reflexivity. Qed.

Lemma out_try {A} (m : M W A) h w :
  out (try_catch m h w) =
  match out (m w) with
  | Throw e => out (h e (final (m w)))
  | o => o
  end.
Proof. unfold try_catch. destruct (out (m w)) eqn:E; cbn; congruence. Qed.

Lemma final_try {A} (m : M W A) h w :
  final (try_catch m h w) =
  match out (m w) with
  | Throw e => final (h e (final (m w)))
  | _ => final (m w)
  end.
Proof. unfold try_catch. destruct (out (m w)); reflexivity. Qed.

Lemma events_try {A} (m : M W A) h w :
  events (try_catch m h w) =
  match out (m w) with
  | Throw e => (events (m w) ++ events (h e (final (m w))))%list
  | _ => events (m w)
  end.
Proof. unfold try_catch. destruct (out (m w)); reflexivity. Qed.

(** The monad laws. *)

Lemma bind_ret_l {A B} (a : A) (k : A -> M W B) w :
  bind (ret a) k w = k a w.
Proof. unfold bind, ret. cbn. destruct (k a w); reflexivity. Qed.

Lemma bind_ret_r {A} (m : M W A) w :
  bind m ret w = m w.
Proof.
  unfold bind, ret. destruct (m w) as [o w' evs]; cbn.
  destruct o; cbn; rewrite ?app_nil_r; reflexivity.
Qed.

Lemma bind_assoc {A B C} (m : M W A) (f : A -> M W B) (g : B -> M W C) w :
  bind (bind m f) g w = bind m (fun x => bind (f x) g) w.
Proof.
  unfold bind. destruct (m w) as [o w1 e1]; cbn.
  destruct o as [a| |]; cbn; try reflexivity.
  destruct (f a w1) as [o2 w2 e2]; cbn.
  destruct o2 as [b| |]; cbn; try reflexivity.
  rewrite app_assoc. reflexivity.
Qed.

(** *** Footprints *)

Lemma footprint_ret {A} P (a : A) : footprint (W:=W) P (ret a).
Proof. intros w. constructor. Qed.

Lemma footprint_throw {A} P e : footprint (W:=W) (A:=A) P (throw e).
Proof. intros w. constructor. Qed.

Lemma footprint_exit {A} P c : footprint (W:=W) (A:=A) P (exit c).
Proof. intros w. constructor. Qed.

Lemma footprint_lift {A} P (r : exn + A) : footprint (W:=W) P (lift r).
Proof. destruct r; intros w; constructor. Qed.

Lemma footprint_emit (P : event -> Prop) ev : P ev -> footprint (W:=W) P (emit ev).
Proof. intros HP w. cbn. constructor; [exact HP | constructor]. Qed.

Lemma footprint_bind {A B} P (m : M W A) (k : A -> M W B) :
  footprint P m -> (forall a, footprint P (k a)) -> footprint P (bind m k).
Proof.
  intros Hm Hk w. unfold bind. specialize (Hm w).
  destruct (out (m w)); cbn; try exact Hm.
  apply Forall_app. split; [exact Hm | apply Hk].
Qed.

Lemma footprint_try {A} P (m : M W A) h :
  footprint P m -> (forall e, footprint P (h e)) -> footprint P (try_catch m h).
Proof.
  intros Hm Hh w. unfold try_catch. specialize (Hm w).
  destruct (out (m w)); cbn; try exact Hm.
  apply Forall_app. split; [exact Hm | apply Hh].
Qed.

Lemma footprint_if {A} P (c : bool) (a b : M W A) :
  footprint P a -> footprint P b -> footprint P (if c then a else b).
Proof. destruct c; auto. Qed.

Lemma footprint_send P (H : Host W) r :
  (forall res, P (ENet r res)) -> footprint P (send H r).
Proof.
  intros HP w. unfold send. destruct (network H r w) as [res w']. cbn.
  constructor; [apply HP | constructor].
Qed.

Lemma footprint_get P (H : Host W) url :
  (forall res, P (EGet url res)) -> footprint P (get H url).
Proof.
  intros HP w. unfold get. destruct (http_get H url w) as [res w']. cbn.
  constructor; [apply HP | constructor].
Qed.

Lemma footprint_weaken {A} (P Q : event -> Prop) (m : M W A) :
  (forall ev, P ev -> Q ev) -> footprint P m -> footprint Q m.
Proof. intros HPQ Hm w. eapply Forall_impl; [exact HPQ | apply Hm]. Qed.

(** *** Computations that never end the process *)

Lemma no_exit_ret {A} (a : A) : no_exit (W:=W) (ret a).
Proof. intros w c; discriminate. Qed.

Lemma no_exit_throw {A} e : no_exit (W:=W) (A:=A) (throw e).
Proof. intros w c; discriminate. Qed.

Lemma no_exit_lift {A} (r : exn + A) : no_exit (W:=W) (lift r).
Proof. destruct r; intros w c; discriminate. Qed.

Lemma no_exit_emit ev : no_exit (W:=W) (emit ev).
Proof. intros w c; discriminate. Qed.

Lemma no_exit_send (H : Host W) r : no_exit (send H r).
Proof. intros w c. unfold send. destruct (network H r w). discriminate. Qed.

Lemma no_exit_bind {A B} (m : M W A) (k : A -> M W B) :
  no_exit m -> (forall a, no_exit (k a)) -> no_exit (bind m k).
Proof.
  intros Hm Hk w c. unfold bind. specialize (Hm w).
  destruct (out (m w)) as [a| |c'] eqn:E; cbn.
  - apply Hk.
  - discriminate.
  - exfalso. apply (Hm c'). reflexivity.
Qed.

Lemma no_exit_try {A} (m : M W A) h :
  no_exit m -> (forall e, no_exit (h e)) -> no_exit (try_catch m h).
Proof.
  intros Hm Hh w c. unfold try_catch. specialize (Hm w).
  destruct (out (m w)) as [a|e|c'] eqn:E; cbn.
  - rewrite E. discriminate.
  - apply Hh.
  - exfalso. apply (Hm c'). reflexivity.
Qed.

Lemma no_exit_if {A} (c : bool) (a b : M W A) :
  no_exit a -> no_exit b -> no_exit (if c then a else b).
Proof. destruct c; auto. Qed.

(** *** Computations that always return *)

Lemma returns_ret {A} (a : A) : returns (W:=W) (ret a).
Proof. intros w. exists a. reflexivity. Qed.

Lemma returns_emit ev : returns (W:=W) (emit ev).
Proof. intros w. exists tt. reflexivity. Qed.

Lemma returns_bind {A B} (m : M W A) (k : A -> M W B) :
  returns m -> (forall a, returns (k a)) -> returns (bind m k).
Proof.
  intros Hm Hk w. destruct (Hm w) as [a Ea].
  rewrite (bind_Ret _ _ _ _ Ea). cbn. apply Hk.
Qed.

Lemma returns_try {A} (m : M W A) h :
  no_exit m -> (forall e, returns (h e)) -> returns (try_catch m h).
Proof.
  intros Hm Hh w. destruct (out (m w)) as [a|e|c] eqn:E.
  - rewrite (try_Ret _ _ _ _ E). exists a. exact E.
  - rewrite (try_Throw _ _ _ _ E). cbn. apply Hh.
  - exfalso. exact (Hm w c E).
Qed.

End MonadFacts.

(** *** Requests of a list of events *)

Lemma requests_app (a b : list event) :
  requests (a ++ b) = (requests a ++ requests b)%list.
Proof. unfold requests. apply flat_map_app. Qed.

Lemma posts_requests_app (a b : list event) :
  posts_requests (a ++ b) = (posts_requests a ++ posts_requests b)%list.
Proof. unfold posts_requests. rewrite requests_app. apply filter_app. Qed.

Lemma count_app p (a b : list event) :
  count p (a ++ b) = (count p a + count p b)%nat.
Proof. unfold count. rewrite requests_app, filter_app, length_app. reflexivity. Qed.

Lemma posts_requests_off (evs : list event) :
  Forall (off "/posts") evs -> posts_requests evs = [].
Proof.
  induction 1 as [|ev evs Hev _ IH]; [reflexivity|].
  change (ev :: evs) with ([ev] ++ evs)%list.
  rewrite posts_requests_app, IH, app_nil_r.
  destruct ev; try reflexivity.
  unfold posts_requests, on_posts; cbn. cbn in Hev. rewrite Hev. reflexivity.
Qed.

Lemma count_none p (evs : list event) :
  Forall (fun ev => match ev with
                    | ENet r _ => p r = false
                    | _ => True
                    end) evs ->
  count p evs = 0%nat.
Proof.
  induction 1 as [|ev evs Hev _ IH]; [reflexivity|].
  change (ev :: evs) with ([ev] ++ evs)%list.
  rewrite count_app, IH, Nat.add_0_r.
  destruct ev; try reflexivity.
  unfold count; cbn. rewrite Hev. reflexivity.
Qed.

Ltac noexit :=
  repeat match goal with
    | |- forall _, _ => intro
    | |- no_exit (bind _ _) => apply no_exit_bind
    | |- no_exit (try_catch _ _) => apply no_exit_try
    | |- no_exit (if _ then _ else _) => apply no_exit_if
    | |- no_exit (ret _) => apply no_exit_ret
    | |- no_exit (throw _) => apply no_exit_throw
    | |- no_exit (lift _) => apply no_exit_lift
    | |- no_exit (emit _) => apply no_exit_emit
    | |- no_exit (console_log _) => apply no_exit_emit
    | |- no_exit (console_warn _) => apply no_exit_emit
    | |- no_exit (console_error _) => apply no_exit_emit
    | |- no_exit (delay _) => apply no_exit_emit
    | |- no_exit (send _ _) => apply no_exit_send
    | |- no_exit (match ?x with _ => _ end) => destruct x
    end.

Ltac footprints :=
  repeat match goal with
    | |- forall _, _ => intro
    | |- footprint _ (bind _ _) => apply footprint_bind
    | |- footprint _ (try_catch _ _) => apply footprint_try
    | |- footprint _ (if _ then _ else _) => apply footprint_if
    | |- footprint _ (ret _) => apply footprint_ret
    | |- footprint _ (throw _) => apply footprint_throw
    | |- footprint _ (exit _) => apply footprint_exit
    | |- footprint _ (lift _) => apply footprint_lift
    | |- footprint _ (console_log _) => apply footprint_emit; exact I
    | |- footprint _ (console_warn _) => apply footprint_emit; exact I
    | |- footprint _ (console_error _) => apply footprint_emit; exact I
    | |- footprint _ (delay _) => apply footprint_emit; exact I
    | |- footprint _ (match ?x with _ => _ end) => destruct x
    end.

(* ===================================================================== *)
(** ** Facts about [src/scripts/publish.js] *)
(* ===================================================================== *)

Section PublishFacts.
Context {W : Type} (B : Builtins) (H : Host W).

#[local] Abbreviation wpRequest := (Publish.wpRequest B H).
#[local] Abbreviation getExistingPost := (Publish.getExistingPost B H).
#[local] Abbreviation getOrCreateTag := (Publish.getOrCreateTag B H).
#[local] Abbreviation getOrCreateCategory := (Publish.getOrCreateCategory B H).
#[local] Abbreviation publishPost_tags := (Publish.publishPost_tags B H).
#[local] Abbreviation publishPost := (Publish.publishPost B H).
#[local] Abbreviation main_loop := (Publish.main_loop B H).

(** *** Nothing below [main] ends the process *)

Lemma wpRequest_no_exit e m b : no_exit (wpRequest e m b).
Proof. unfold Publish.wpRequest. noexit. Qed.

Lemma getExistingPost_no_exit s : no_exit (getExistingPost s).
Proof. unfold Publish.getExistingPost. noexit; apply wpRequest_no_exit. Qed.

Lemma getOrCreateTag_no_exit t : no_exit (getOrCreateTag t).
Proof.
  unfold Publish.getOrCreateTag. noexit; apply wpRequest_no_exit.
Qed.

Lemma getOrCreateCategory_no_exit n : no_exit (getOrCreateCategory n).
Proof.
  unfold Publish.getOrCreateCategory. noexit; apply wpRequest_no_exit.
Qed.

Lemma publishPost_tags_no_exit tags acc : no_exit (publishPost_tags tags acc).
Proof.
  revert acc. induction tags as [|t rest IH]; intros acc; cbn [Publish.publishPost_tags].
  - apply no_exit_ret.
  - noexit; first [apply getOrCreateTag_no_exit | apply IH].
Qed.

Lemma category_step_no_exit : no_exit (Phases.category_step B H).
Proof.
  unfold Phases.category_step.
  noexit; apply getOrCreateCategory_no_exit.
Qed.

Lemma upsert_no_exit p data : no_exit (Phases.upsert B H p data).
Proof.
  unfold Phases.upsert.
  noexit; first [apply getExistingPost_no_exit | apply wpRequest_no_exit].
Qed.

(** *** The tag loop and the category step always return *)

Lemma publishPost_tags_returns tags acc : returns (publishPost_tags tags acc).
Proof.
  revert acc. induction tags as [|t rest IH]; intros acc; cbn [Publish.publishPost_tags].
  - apply returns_ret.
  - apply returns_bind; [|intros a; apply IH].
    apply returns_try.
    + noexit. apply getOrCreateTag_no_exit.
    + intros e. apply returns_bind; [apply returns_emit | intros; apply returns_ret].
Qed.

Lemma category_step_returns : returns (Phases.category_step B H).
Proof.
  unfold Phases.category_step. apply returns_try.
  - noexit. apply getOrCreateCategory_no_exit.
  - intros e. apply returns_bind; [apply returns_emit | intros; apply returns_ret].
Qed.

(** *** [publishPost] is the sequence of its phases *)

Lemma publishPost_phases p w :
  publishPost p w =
  (if negb (existsSync H (Phases.mdPath B H p)) then
     console_warn ("  Skipping " ++ dq ++ template (slug p) ++ dq ++ " - markdown file not found")
   else
     bind (lift (readFileSync H (Phases.mdPath B H p))) (fun markdown =>
     bind (publishPost_tags (Phases.tag_names p) []) (fun tagIds =>
     bind (Phases.category_step B H) (fun categoryIds =>
     bind (match Date_toISOString B (date p) with
           | Some d => ret d
           | None => throw (RangeError "Invalid time value")
           end) (fun isoDate =>
     Phases.upsert B H p
       (Phases.postData p (marked_parse B markdown) isoDate tagIds categoryIds))))))
    w.
Proof. reflexivity. Qed.

Lemma publishPost_no_exit p : no_exit (publishPost p).
Proof.
  intros w c. rewrite publishPost_phases. revert w c.
  change (no_exit
    (if negb (existsSync H (Phases.mdPath B H p)) then
     console_warn ("  Skipping " ++ dq ++ template (slug p) ++ dq ++ " - markdown file not found")
   else
     bind (lift (readFileSync H (Phases.mdPath B H p))) (fun markdown =>
     bind (publishPost_tags (Phases.tag_names p) []) (fun tagIds =>
     bind (Phases.category_step B H) (fun categoryIds =>
     bind (match Date_toISOString B (date p) with
           | Some d => ret d
           | None => throw (RangeError "Invalid time value")
           end) (fun isoDate =>
     Phases.upsert B H p
       (Phases.postData p (marked_parse B markdown) isoDate tagIds categoryIds))))))).
  noexit; first [apply publishPost_tags_no_exit | apply category_step_no_exit
                | apply upsert_no_exit].
Qed.

(** *** The loop of [main] *)

(** One turn of the loop, for a post that returns. *)
Lemma main_loop_ok p rest a b w :
  out (publishPost p w) = Ret tt ->
  main_loop (p :: rest) a b w =
  let r := main_loop rest (S a) b (final (publishPost p w)) in
  mkResult (out r) (final r) ((events (publishPost p w) ++ [EDelay 500]) ++ events r).
Proof.
  intros E. cbn [Publish.main_loop].
  unfold bind at 1. unfold try_catch.
  rewrite (bind_Ret _ _ _ _ E). cbn.
  reflexivity.
Qed.

(** One turn of the loop, for a post that throws. *)
Lemma main_loop_failed p rest a b w e :
  out (publishPost p w) = Throw e ->
  main_loop (p :: rest) a b w =
  let r := main_loop rest a (S b) (final (publishPost p w)) in
  mkResult (out r) (final r)
    ((events (publishPost p w)
      ++ [EConsole Err ("  Failed: " ++ dq ++ template (title p) ++ dq ++ " - " ++ message e)])
     ++ events r).
Proof.
  intros E. cbn [Publish.main_loop].
  unfold bind at 1. unfold try_catch.
  rewrite (bind_Throw _ _ _ _ E). cbn.
  reflexivity.
Qed.

(** The loop always runs to the end of the index: every post is counted
    once, as a success or as a failure. *)
Lemma main_loop_total posts : forall a b w,
  exists ok failed,
    out (main_loop posts a b w) = Ret (a + ok, b + failed)%nat /\
    (ok + failed = List.length posts)%nat.
Proof.
  induction posts as [|p rest IH]; intros a b w.
  - exists 0%nat, 0%nat. cbn. rewrite !Nat.add_0_r. auto.
  - destruct (out (publishPost p w)) as [[]|e|c] eqn:E.
    + rewrite (main_loop_ok _ _ _ _ _ E). cbn.
      destruct (IH (S a) b (final (publishPost p w))) as (ok & failed & E1 & E2).
      exists (S ok), failed. rewrite E1. split; [f_equal; f_equal; lia | cbn; lia].
    + rewrite (main_loop_failed _ _ _ _ _ _ E). cbn.
      destruct (IH a (S b) (final (publishPost p w))) as (ok & failed & E1 & E2).
      exists ok, (S failed). rewrite E1. split; [f_equal; f_equal; lia | cbn; lia].
    + exfalso. exact (publishPost_no_exit p w c E).
Qed.

Lemma main_loop_all_return posts : forall a b w,
  Phases.all_return B H posts w ->
  out (main_loop posts a b w) = Ret (a + List.length posts, b)%nat.
Proof.
  induction posts as [|p rest IH]; intros a b w Hall.
  - cbn. rewrite Nat.add_0_r. reflexivity.
  - destruct Hall as [E Hrest].
    rewrite (main_loop_ok _ _ _ _ _ E). cbn.
    rewrite (IH _ _ _ Hrest). f_equal. f_equal. lia.
Qed.

End PublishFacts.

(** *** A run that gets as far as the loop *)

Section PublishRun.
Context {W : Type} (B : Builtins) (H : Host W).

#[local] Abbreviation configured := (Phases.configured H).
#[local] Abbreviation probe := (Phases.probe B H).
#[local] Abbreviation index_is := (Phases.index_is B H).
#[local] Abbreviation done_line := Phases.done_line.

(** The probe inside its [try], when it succeeds. *)
Lemma probe_step w v :
  out (probe w) = Ret v ->
  try_catch
    (bind (Publish.wpRequest B H "/posts?per_page=1" "GET" VNull)
          (fun _ => console_log ("API connection OK" ++ nl)))
    (fun e =>
       bind (console_error ("Cannot reach WordPress API: " ++ message e)) (fun _ =>
       bind (console_error
               "Check WP_URL, WP_USERNAME, and WP_APP_PASSWORD secrets are correct.")
            (fun _ => exit 1))) w =
  mkResult (Ret tt) (final (probe w))
           (events (probe w) ++ [EConsole Log ("API connection OK" ++ nl)]).
Proof.
  intros Hprobe. unfold Phases.probe in *.
  assert (E : bind (Publish.wpRequest B H "/posts?per_page=1" "GET" VNull)
                (fun _ => console_log ("API connection OK" ++ nl)) w =
              mkResult (Ret tt)
                (final (Publish.wpRequest B H "/posts?per_page=1" "GET" VNull w))
                (events (Publish.wpRequest B H "/posts?per_page=1" "GET" VNull w)
                 ++ [EConsole Log ("API connection OK" ++ nl)])).
  { rewrite (bind_Ret _ _ _ _ Hprobe). reflexivity. }
  unfold try_catch. rewrite E. reflexivity.
Qed.

(** What [main] does after the probe, from the world the probe leaves. *)
Lemma main_after_probe w' posts ok failed :
  index_is posts ->
  out (Publish.main_loop B H posts 0 0 w') = Ret (ok, failed) ->
  forall r,
    r = bind (lift (readFileSync H (path_join B [dirname H; ".."; "blogs.json"])))
          (fun text =>
           bind (lift (parse_index B text)) (fun index =>
           match index with
           | Posts posts =>
               bind (console_log ("Found "
                                  ++ Number_toString (Z.of_nat (List.length posts))
                                  ++ " posts in blogs.json" ++ nl)) (fun _ =>
               bind (Publish.main_loop B H posts 0 0) (fun counts =>
               bind (console_log (nl ++ "Done! "
                                  ++ Number_toString (Z.of_nat (fst counts))
                                  ++ " published, "
                                  ++ Number_toString (Z.of_nat (snd counts))
                                  ++ " failed." ++ nl)) (fun _ =>
               if (0 <? snd counts)%nat then exit 1 else ret tt)))
           | NotIterable length e =>
               bind (console_log ("Found " ++ ToString length
                                  ++ " posts in blogs.json" ++ nl)) (fun _ => throw e)
           end)) w' ->
    out r = (if (0 <? failed)%nat then Exit 1 else Ret tt) /\
    events r =
      ([EConsole Log ("Found " ++ Number_toString (Z.of_nat (List.length posts))
                      ++ " posts in blogs.json" ++ nl)]
       ++ events (Publish.main_loop B H posts 0 0 w')
       ++ [EConsole Log (done_line ok failed)])%list.
Proof.
  intros (text & Hread & Hparse) Hloop r ->.
  rewrite Hread. rewrite bind_Ret with (a := text) by reflexivity.
  cbn [lift ret out final events app].
  rewrite Hparse. rewrite bind_Ret with (a := Posts posts) by reflexivity.
  cbn [lift ret out final events app].
  rewrite bind_Ret with (a := tt) by reflexivity.
  cbn [console_log emit out final events app].
  rewrite (bind_Ret _ _ _ _ Hloop).
  cbn [out final events fst snd].
  rewrite bind_Ret with (a := tt) by reflexivity.
  cbn [console_log emit out final events app].
  destruct (0 <? failed)%nat; cbn [exit ret out final events];
    (split; [reflexivity|]); rewrite ?app_nil_r; reflexivity.
Qed.

Lemma main_reaches_loop w v posts ok failed :
  out (probe w) = Ret v ->
  index_is posts ->
  out (Publish.main_loop B H posts 0 0 (final (probe w))) = Ret (ok, failed) ->
  out (Publish.main B H w) = (if (0 <? failed)%nat then Exit 1 else Ret tt) /\
  events (Publish.main B H w) =
    ([EConsole Log (nl ++ "Publishing to: " ++ template (Publish.WP_URL H));
      EConsole Log "Testing API connectivity..."]
     ++ events (probe w)
     ++ [EConsole Log ("API connection OK" ++ nl);
         EConsole Log ("Found " ++ Number_toString (Z.of_nat (List.length posts))
                       ++ " posts in blogs.json" ++ nl)]
     ++ events (Publish.main_loop B H posts 0 0 (final (probe w)))
     ++ [EConsole Log (done_line ok failed)])%list.
Proof.
  intros Hprobe Hidx Hloop.
  unfold Publish.main.
  rewrite bind_Ret with (a := tt) by reflexivity.
  cbn [console_log emit out final events app].
  rewrite bind_Ret with (a := tt) by reflexivity.
  cbn [console_log emit out final events app].
  rewrite bind_Ret with (a := tt) by (rewrite (probe_step w v Hprobe); reflexivity).
  rewrite (probe_step w v Hprobe).
  cbn [out final events].
  destruct (main_after_probe (final (probe w)) posts ok failed Hidx Hloop _ eq_refl)
    as [Ho He].
  rewrite Ho, He. split; [reflexivity|].
  cbn [app]. rewrite <- !app_assoc. reflexivity.
Qed.

Lemma script_reaches_loop w v posts ok failed :
  configured ->
  out (probe w) = Ret v ->
  index_is posts ->
  out (Publish.main_loop B H posts 0 0 (final (probe w))) = Ret (ok, failed) ->
  exit_code (Publish.script B H w) = (if (0 <? failed)%nat then 1 else 0)%Z /\
  events (Publish.script B H w) = events (Publish.main B H w).
Proof.
  intros (H1 & H2 & H3) Hprobe Hidx Hloop.
  destruct (main_reaches_loop w v posts ok failed Hprobe Hidx Hloop) as [Hout _].
  unfold Publish.script. rewrite H1, H2, H3. cbn [orb].
  unfold exit_code. rewrite out_try, events_try, Hout.
  destruct (0 <? failed)%nat; auto.
Qed.

End PublishRun.

(* ===================================================================== *)
(** ** Configuration and run-level claims on [src/scripts/publish.js] *)
(* ===================================================================== *)

Lemma missing_strip (v : option string) :
  missing v = true -> missing (option_map strip_trailing_slash v) = true.
Proof.
  destruct v as [s|]; cbn; [|reflexivity].
  intros E. apply String.eqb_eq in E. subst s. reflexivity.
Qed.

(** C6.  When one of [WP_URL], [WP_USERNAME], [WP_APP_PASSWORD] is unset
    (or empty) in the environment, the script exits with code 1 having
    written one line to the error console and nothing else: no request
    has been sent and the remote world is untouched. *)
Theorem C6_missing_environment_exits_before_any_request :
  forall (W : Type) (B : Builtins) (H : Host W) (w : W),
    missing (env_WP_URL H) = true \/
    missing (env_WP_USERNAME H) = true \/
    missing (env_WP_APP_PASSWORD H) = true ->
    exit_code (Publish.script B H w) = 1%Z /\
    final (Publish.script B H w) = w /\
    events (Publish.script B H w) =
      [EConsole Err "Missing environment variables: WP_URL, WP_USERNAME, WP_APP_PASSWORD"] /\
    List.filter is_network (events (Publish.script B H w)) = [].
Proof.
  intros W B H w Hmiss.
  assert (E : missing (Publish.WP_URL H) || missing (Publish.WP_USERNAME H)
              || missing (Publish.WP_APP_PASSWORD H) = true).
  { unfold Publish.WP_URL, Publish.WP_USERNAME, Publish.WP_APP_PASSWORD.
    destruct Hmiss as [E|[E|E]].
    - rewrite (missing_strip _ E). reflexivity.
    - rewrite E. apply orb_true_iff. left. apply orb_true_r.
    - rewrite E. apply orb_true_r. }
  unfold Publish.script. rewrite E. cbn. auto.
Qed.

Lemma C6_witness :
  exit_code (Publish.script (Sample.platform [Sample.fresh_post])
               (Sample.host (Some "https://blog.example.com") None (Some "app password")
                            [Sample.fresh_post] Sample.files) Sample.untouched) = 1%Z /\
  final (Publish.script (Sample.platform [Sample.fresh_post])
           (Sample.host (Some "https://blog.example.com") None (Some "app password")
                        [Sample.fresh_post] Sample.files) Sample.untouched) = Sample.untouched /\
  events (Publish.script (Sample.platform [Sample.fresh_post])
            (Sample.host (Some "https://blog.example.com") None (Some "app password")
                         [Sample.fresh_post] Sample.files) Sample.untouched) =
    [EConsole Err "Missing environment variables: WP_URL, WP_USERNAME, WP_APP_PASSWORD"] /\
  List.filter is_network
    (events (Publish.script (Sample.platform [Sample.fresh_post])
               (Sample.host (Some "https://blog.example.com") None (Some "app password")
                            [Sample.fresh_post] Sample.files) Sample.untouched)) = [].
Proof.
  apply (C6_missing_environment_exits_before_any_request (list string)
           (Sample.platform [Sample.fresh_post])
           (Sample.host (Some "https://blog.example.com") None (Some "app password")
                        [Sample.fresh_post] Sample.files) Sample.untouched).
  right. left. reflexivity.
Defined.

(** C7.  A post whose markdown file is absent is skipped: [publishPost]
    returns at once with one warning and no request; the loop counts it
    with the successes, so that the failures of a run starting with it are
    those of the other posts; and a run in which every post returns
    (published, updated or skipped) exits with code 0. *)
Theorem C7_absent_markdown_is_skipped_and_not_a_failure :
  forall (W : Type) (B : Builtins) (H : Host W) (p : PostIndexEntry),
    existsSync H (Phases.mdPath B H p) = false ->
    (forall w,
        Publish.publishPost B H p w =
        mkResult (Ret tt) w
          [EConsole Warn ("  Skipping " ++ dq ++ template (slug p) ++ dq
                          ++ " - markdown file not found")]) /\
    (forall rest a b w,
        out (Publish.main_loop B H (p :: rest) a b w) =
        out (Publish.main_loop B H rest (S a) b w)) /\
    (forall posts w v,
        Phases.configured H ->
        out (Phases.probe B H w) = Ret v ->
        Phases.index_is B H posts ->
        Phases.all_return B H posts (final (Phases.probe B H w)) ->
        exit_code (Publish.script B H w) = 0%Z /\
        In (EConsole Log (Phases.done_line (List.length posts) 0))
           (events (Publish.script B H w))).
Proof.
  intros W B H p Hmiss.
  assert (Hskip : forall w,
        Publish.publishPost B H p w =
        mkResult (Ret tt) w
          [EConsole Warn ("  Skipping " ++ dq ++ template (slug p) ++ dq
                          ++ " - markdown file not found")]).
  { intros w. rewrite publishPost_phases. rewrite Hmiss. reflexivity. }
  split; [exact Hskip|]. split.
  - intros rest a b w.
    rewrite (main_loop_ok B H p rest a b w) by (rewrite Hskip; reflexivity).
    cbn. rewrite Hskip. reflexivity.
  - intros posts w v Hcfg Hprobe Hidx Hall.
    pose proof (main_loop_all_return B H posts 0 0 _ Hall) as Hloop.
    cbn in Hloop.
    destruct (script_reaches_loop B H w v posts _ _ Hcfg Hprobe Hidx Hloop) as [Hc He].
    destruct (main_reaches_loop B H w v posts _ _ Hprobe Hidx Hloop) as [_ Hev].
    split; [exact Hc|].
    rewrite He, Hev. repeat (apply in_or_app; right). left. reflexivity.
Qed.

Lemma C7_witness :
  Publish.publishPost (Sample.platform [Sample.nofile_post; Sample.fresh_post])
    (Sample.site [Sample.nofile_post; Sample.fresh_post]) Sample.nofile_post Sample.untouched =
  mkResult (Ret tt) Sample.untouched
    [EConsole Warn ("  Skipping " ++ dq ++ "nofile" ++ dq ++ " - markdown file not found")]
  /\ exit_code (Publish.script (Sample.platform [Sample.nofile_post; Sample.fresh_post])
                  (Sample.site [Sample.nofile_post; Sample.fresh_post]) Sample.untouched) = 0%Z.
Proof.
  pose proof (C7_absent_markdown_is_skipped_and_not_a_failure (list string)
                (Sample.platform [Sample.nofile_post; Sample.fresh_post])
                (Sample.site [Sample.nofile_post; Sample.fresh_post])
                Sample.nofile_post eq_refl) as (Hskip & _ & Hrun).
  split; [apply Hskip|].
  refine (proj1 (Hrun [Sample.nofile_post; Sample.fresh_post] Sample.untouched
                  (Sample.post_list "existing") _ _ _ _)).
  - repeat split.
  - vm_compute. reflexivity.
  - eexists. split; vm_compute; reflexivity.
  - cbn [Phases.all_return]. repeat split; vm_compute; reflexivity.
Defined.


(* ===================================================================== *)
(** ** The traffic of each function of [src/scripts/publish.js] *)
(* ===================================================================== *)

Section PublishTraffic.
Context {W : Type} (B : Builtins) (H : Host W).

#[local] Abbreviation wpRequest := (Publish.wpRequest B H).
#[local] Abbreviation publishPost_tags := (Publish.publishPost_tags B H).
#[local] Abbreviation publishPost := (Publish.publishPost B H).
#[local] Abbreviation main_loop := (Publish.main_loop B H).

Lemma wpRequest_footprint (P : event -> Prop) e m b :
  (forall r res,
      r_endpoint r = e -> r_method r = m ->
      r_body r = (if truthy b then Some (JsonText b) else None) ->
      P (ENet r res)) ->
  footprint P (wpRequest e m b).
Proof.
  intros HP. unfold Publish.wpRequest.
  destruct (URL_parse B (Publish.API_BASE H ++ e)) as [url|].
  - apply footprint_bind; [|intros; apply footprint_lift].
    apply footprint_send. intros res. apply HP; reflexivity.
  - apply footprint_throw.
Qed.

(** What one call of [wpRequest] does, when the URL can be built. *)
Lemma wpRequest_sent e m b w url :
  URL_parse B (Publish.API_BASE H ++ e) = Some url ->
  exists r res,
    r_endpoint r = e /\ r_method r = m /\
    r_body r = (if truthy b then Some (JsonText b) else None) /\
    events (wpRequest e m b w) = [ENet r res] /\
    out (wpRequest e m b w) =
      match Publish.settle B e m res with
      | inl err => Throw err
      | inr v => Ret v
      end.
Proof.
  intros Hurl. unfold Publish.wpRequest. rewrite Hurl. cbv zeta.
  match goal with |- context [send H ?rq] => exists rq end.
  unfold bind, send.
  destruct (network H _ w) as [res w'] eqn:En. cbn.
  exists res. repeat split; destruct (Publish.settle B e m res); reflexivity.
Qed.

Lemma wpRequest_unsent e m b w :
  URL_parse B (Publish.API_BASE H ++ e) = None ->
  wpRequest e m b w = mkResult (Throw (TypeError "Invalid URL")) w [].
Proof. intros Hurl. unfold Publish.wpRequest. rewrite Hurl. reflexivity. Qed.

Lemma getOrCreateTag_traffic t :
  footprint (resource_event "/tags") (Publish.getOrCreateTag B H t).
Proof.
  unfold Publish.getOrCreateTag. footprints;
    apply wpRequest_footprint; intros r res E1 E2 _; cbn; rewrite E1, E2; cbn; auto.
Qed.

Lemma publishPost_tags_traffic tags acc :
  footprint (resource_event "/tags") (publishPost_tags tags acc).
Proof.
  revert acc. induction tags as [|t rest IH]; intros acc;
    cbn [Publish.publishPost_tags].
  - apply footprint_ret.
  - footprints; first [apply getOrCreateTag_traffic | apply IH].
Qed.

Lemma getOrCreateCategory_traffic n :
  footprint (resource_event "/categories") (Publish.getOrCreateCategory B H n).
Proof.
  unfold Publish.getOrCreateCategory. footprints;
    apply wpRequest_footprint; intros r res E1 E2 _; cbn; rewrite E1, E2; cbn; auto.
Qed.

Lemma category_step_traffic :
  footprint (resource_event "/categories") (Phases.category_step B H).
Proof.
  unfold Phases.category_step. footprints. apply getOrCreateCategory_traffic.
Qed.

(** Traffic on the tags or on the categories is no traffic on the posts,
    no upsert, and (for the tags) no category lookup. *)

Lemma prefix_clash (a b : ascii) (p q s : string) :
  a <> b ->
  String.prefix (String "/" (String a p)) s = true ->
  String.prefix (String "/" (String b q)) s = false.
Proof.
  intros Hne. destruct s as [|c1 [|c2 s]]; cbn [String.prefix]; try discriminate.
  - destruct (ascii_dec "/" c1); discriminate.
  - destruct (ascii_dec "/" c1); [|discriminate].
    destruct (ascii_dec a c2); [|discriminate].
    destruct (ascii_dec b c2); [congruence | reflexivity].
Qed.

Lemma tags_off_posts ev : resource_event "/tags" ev -> off "/posts" ev.
Proof.
  destruct ev as [r res| | |]; cbn [resource_event off]; auto. intros [Hp _].
  revert Hp. apply prefix_clash. discriminate.
Qed.

Lemma categories_off_posts ev : resource_event "/categories" ev -> off "/posts" ev.
Proof.
  destruct ev as [r res| | |]; cbn [resource_event off]; auto. intros [Hp _].
  revert Hp. apply prefix_clash. discriminate.
Qed.

Lemma tags_no_lookup name ev :
  resource_event "/tags" ev ->
  match ev with
  | ENet r _ => is_category_lookup B name r = false
  | _ => True
  end.
Proof.
  destruct ev as [r res| | |]; cbn [resource_event]; auto. intros [Hp _].
  unfold is_category_lookup.
  destruct (String.eqb_spec (r_endpoint r)
              ("/categories?search=" ++ encodeURIComponent B name)) as [E|E];
    [|apply andb_false_r].
  rewrite E in Hp. exfalso.
  assert (Hc : String.prefix "/categories" ("/categories?search=" ++ encodeURIComponent B name)
               = true) by reflexivity.
  pose proof (prefix_clash "c" "t" _ "ags" _ ltac:(discriminate) Hc) as Hf.
  congruence.
Qed.

Lemma resource_no_upsert prefix ev :
  prefix <> "/posts" ->
  resource_event prefix ev ->
  match ev with
  | ENet r _ => is_upsert r = false
  | _ => True
  end.
Proof.
  intros Hne. destruct ev as [r res| | |]; cbn [resource_event]; auto. intros [_ Hm].
  unfold is_upsert, is_create, is_update.
  destruct Hm as [E|[E E']].
  - rewrite E. reflexivity.
  - rewrite E, E'. apply orb_false_iff. split; [|reflexivity].
    apply andb_false_iff. right. apply String.eqb_neq. exact Hne.
Qed.

End PublishTraffic.

(* ===================================================================== *)
(** ** One post, phase by phase *)
(* ===================================================================== *)

Section PublishPost.
Context {W : Type} (B : Builtins) (H : Host W).

#[local] Abbreviation wpRequest := (Publish.wpRequest B H).
#[local] Abbreviation getExistingPost := (Publish.getExistingPost B H).
#[local] Abbreviation publishPost_tags := (Publish.publishPost_tags B H).
#[local] Abbreviation publishPost := (Publish.publishPost B H).
#[local] Abbreviation main_loop := (Publish.main_loop B H).
#[local] Abbreviation category_step := (Phases.category_step B H).
#[local] Abbreviation upsert := (Phases.upsert B H).

Lemma publishPost_skipped p w :
  existsSync H (Phases.mdPath B H p) = false ->
  publishPost p w =
  mkResult (Ret tt) w
    [EConsole Warn ("  Skipping " ++ dq ++ template (slug p) ++ dq ++ " - markdown file not found")].
Proof. intros E. rewrite publishPost_phases, E. reflexivity. Qed.

Lemma publishPost_unreadable p w e :
  existsSync H (Phases.mdPath B H p) = true ->
  readFileSync H (Phases.mdPath B H p) = inl e ->
  publishPost p w = mkResult (Throw e) w [].
Proof. intros E R. rewrite publishPost_phases, E, R. reflexivity. Qed.

(** A post whose file is read: the tag loop and the category step always
    deliver, then the date decides whether the upsert is reached. *)
Lemma publishPost_read p w markdown :
  existsSync H (Phases.mdPath B H p) = true ->
  readFileSync H (Phases.mdPath B H p) = inr markdown ->
  exists tagIds categoryIds,
    out (publishPost_tags (Phases.tag_names p) [] w) = Ret tagIds /\
    out (category_step (final (publishPost_tags (Phases.tag_names p) [] w)))
      = Ret categoryIds /\
    publishPost p w =
    let rt := publishPost_tags (Phases.tag_names p) [] w in
    let rc := category_step (final rt) in
    match Date_toISOString B (date p) with
    | None =>
        mkResult (Throw (RangeError "Invalid time value")) (final rc)
                 (events rt ++ events rc)
    | Some isoDate =>
        let ru := upsert p (Phases.postData p (marked_parse B markdown) isoDate
                              tagIds categoryIds) (final rc) in
        mkResult (out ru) (final ru) (events rt ++ events rc ++ events ru)
    end.
Proof.
  intros E R.
  destruct (publishPost_tags_returns B H (Phases.tag_names p) [] w) as [tagIds Ht].
  destruct (category_step_returns B H
              (final (publishPost_tags (Phases.tag_names p) [] w))) as [categoryIds Hc].
  exists tagIds, categoryIds. split; [exact Ht|]. split; [exact Hc|].
  rewrite publishPost_phases, E, R. cbn [negb lift]. cbv zeta.
  match goal with |- ?l = _ => rewrite (result_eta l) end.
  rewrite out_bind, final_bind, events_bind.
  cbn [ret out final events app].
  rewrite out_bind, final_bind, events_bind, Ht.
  rewrite out_bind, final_bind, events_bind, Hc.
  rewrite out_bind, final_bind, events_bind.
  destruct (Date_toISOString B (date p)) as [isoDate|];
    cbn [ret throw out final events app]; rewrite ?app_nil_r; reflexivity.
Qed.

(** *** The existence check *)

Lemma getExistingPost_unsent s w :
  URL_parse B (Publish.API_BASE H ++ Phases.check_endpoint s) = None ->
  getExistingPost s w = mkResult (Throw (TypeError "Invalid URL")) w [].
Proof.
  intros Hurl. unfold Publish.getExistingPost.
  rewrite bind_Throw with (e := TypeError "Invalid URL")
    by (rewrite (wpRequest_unsent B H _ _ _ _ Hurl); reflexivity).
  rewrite (wpRequest_unsent B H _ _ _ _ Hurl). reflexivity.
Qed.

Lemma getExistingPost_sent s w url :
  URL_parse B (Publish.API_BASE H ++ Phases.check_endpoint s) = Some url ->
  exists r res,
    r_endpoint r = Phases.check_endpoint s /\ r_method r = "GET" /\
    events (getExistingPost s w) = [ENet r res] /\
    out (getExistingPost s w) =
      match Phases.found B s res with
      | inl e => Throw e
      | inr existing => Ret existing
      end.
Proof.
  intros Hurl.
  destruct (wpRequest_sent B H _ "GET" VNull w url Hurl)
    as (r & res & He & Hm & _ & Hev & Hout).
  exists r, res. split; [exact He|]. split; [exact Hm|].
  unfold Publish.getExistingPost, Phases.found.
  fold (Phases.check_endpoint s).
  rewrite events_bind, out_bind, Hout, Hev.
  destruct (Publish.settle B (Phases.check_endpoint s) "GET" res) as [e|posts];
    [split; reflexivity|].
  rewrite events_bind, out_bind.
  destruct (prop posts "length") as [e|len]; cbn; split; reflexivity.
Qed.

Lemma truthy_prop v k : truthy v = true -> exists x, prop v k = inr x.
Proof. destruct v; cbn; try discriminate; eauto. Qed.

(** *** A write followed by its console line *)

Lemma write_events e m data line w :
  match URL_parse B (Publish.API_BASE H ++ e) with
  | None => events (bind (wpRequest e m data) (fun _ => console_log line) w) = []
  | Some _ =>
      exists wr res,
        r_endpoint wr = e /\ r_method wr = m /\
        r_body wr = (if truthy data then Some (JsonText data) else None) /\
        exists tail,
          events (bind (wpRequest e m data) (fun _ => console_log line) w)
          = ENet wr res :: tail /\
          requests tail = []
  end.
Proof.
  destruct (URL_parse B (Publish.API_BASE H ++ e)) as [url|] eqn:Hurl.
  - destruct (wpRequest_sent B H e m data w url Hurl)
      as (wr & res & He & Hm & Hb & Hev & Hout).
    exists wr, res. repeat (split; [assumption|]).
    rewrite events_bind, Hev, Hout.
    destruct (Publish.settle B e m res).
    + exists []. split; reflexivity.
    + exists [EConsole Log line]. split; reflexivity.
  - rewrite events_bind, (wpRequest_unsent B H _ _ _ _ Hurl). reflexivity.
Qed.

Lemma posts_requests_one r res tail :
  String.prefix "/posts" (r_endpoint r) = true ->
  requests tail = [] ->
  posts_requests (ENet r res :: tail) = [(r, res)].
Proof.
  intros Hp Ht. unfold posts_requests.
  change (requests (ENet r res :: tail)) with ((r, res) :: requests tail).
  rewrite Ht. cbn [List.filter]. unfold on_posts. cbn [fst]. rewrite Hp. reflexivity.
Qed.

(** The branch of the upsert taken after the check has answered. *)
Lemma upsert_after_check p data w existing :
  events
    ((if truthy existing then
        bind (lift (prop existing "id")) (fun id =>
        bind (wpRequest ("/posts/" ++ ToString id) "PUT" data) (fun _ =>
        console_log ("  Updated: " ++ dq ++ template (title p) ++ dq)))
      else
        bind (wpRequest "/posts" "POST" data) (fun _ =>
        console_log ("  Published: " ++ dq ++ template (title p) ++ dq))) w)
  = events
      (bind (wpRequest (Phases.write_endpoint existing) (Phases.write_method existing) data)
            (fun _ => console_log
                        ((if truthy existing then "  Updated: " else "  Published: ")
                         ++ dq ++ template (title p) ++ dq)) w).
Proof.
  unfold Phases.write_endpoint, Phases.write_method.
  destruct (truthy existing) eqn:Ht; [|reflexivity].
  destruct (truthy_prop existing "id" Ht) as [id Hid]. rewrite Hid.
  rewrite events_bind. cbn [lift ret out final events app]. reflexivity.
Qed.

(** The traffic of the upsert on the posts resource is a group. *)
Lemma upsert_is_group p data w :
  truthy data = true ->
  body_field "slug" {| r_endpoint := EmptyString; r_method := EmptyString;
                       r_target := FullURL EmptyString; r_headers := [];
                       r_body := Some (JsonText data) |} = option_map VStr (slug p) ->
  Phases.upsert_group B H (slug p) (posts_requests (events (upsert p data w))).
Proof.
  intros Hdata Hslug.
  destruct (URL_parse B (Publish.API_BASE H ++ Phases.check_endpoint (template (slug p))))
    as [url|] eqn:Hurl.
  - destruct (getExistingPost_sent (template (slug p)) w url Hurl)
      as (chk & res & He & Hm & Hev & Hout).
    unfold Phases.upsert. rewrite events_bind, Hout, Hev.
    destruct (Phases.found B (template (slug p)) res) as [e|existing] eqn:Hf.
    + rewrite posts_requests_one; [|rewrite He; reflexivity|reflexivity].
      cbn [Phases.upsert_group]. rewrite Hf. auto.
    + rewrite upsert_after_check.
      pose proof (write_events (Phases.write_endpoint existing)
                    (Phases.write_method existing) data
                    ((if truthy existing then "  Updated: " else "  Published: ")
                     ++ dq ++ template (title p) ++ dq)
                    (final (getExistingPost (template (slug p)) w))) as Hw.
      destruct (URL_parse B (Publish.API_BASE H ++ Phases.write_endpoint existing))
        as [url'|] eqn:Hurl'.
      * destruct Hw as (wr & res' & Hwe & Hwm & Hwb & tail & Htail & Hreq).
        rewrite Htail.
        change ([ENet chk res] ++ ENet wr res' :: tail)%list
          with ([ENet chk res] ++ (ENet wr res' :: tail))%list.
        rewrite posts_requests_app.
        rewrite (posts_requests_one chk res []); [|rewrite He; reflexivity|reflexivity].
        rewrite (posts_requests_one wr res' tail); [| |exact Hreq].
        2:{ rewrite Hwe. unfold Phases.write_endpoint.
            destruct (truthy existing); reflexivity. }
        cbn [app Phases.upsert_group]. rewrite Hf, Hurl'.
        split; [exact Hm|]. split; [exact He|].
        exists wr, res'. split; [reflexivity|]. split; [exact Hwm|].
        split; [exact Hwe|]. split.
        -- unfold body_field in *. rewrite Hwb, Hdata. exact Hslug.
        -- unfold is_create. rewrite Hwm, Hwe.
           unfold Phases.write_method, Phases.write_endpoint.
           destruct (truthy existing); reflexivity.
      * rewrite Hw, app_nil_r.
        rewrite posts_requests_one; [|rewrite He; reflexivity|reflexivity].
        cbn [Phases.upsert_group]. rewrite Hf, Hurl'. auto.
  - unfold Phases.upsert.
    rewrite events_bind, (getExistingPost_unsent _ _ Hurl). exact I.
Qed.

End PublishPost.

(* ===================================================================== *)
(** ** The upsert (C1) *)
(* ===================================================================== *)

Section Upsert.
Context {W : Type} (B : Builtins) (H : Host W).

#[local] Abbreviation publishPost := (Publish.publishPost B H).
#[local] Abbreviation main_loop := (Publish.main_loop B H).

Lemma postData_truthy p html iso tagIds categoryIds :
  truthy (Phases.postData p html iso tagIds categoryIds) = true.
Proof. reflexivity. Qed.

Lemma posts_requests_tags tags acc w :
  posts_requests (events (Publish.publishPost_tags B H tags acc w)) = [].
Proof.
  apply posts_requests_off.
  eapply Forall_impl; [apply tags_off_posts | apply publishPost_tags_traffic].
Qed.

Lemma posts_requests_category w :
  posts_requests (events (Phases.category_step B H w)) = [].
Proof.
  apply posts_requests_off.
  eapply Forall_impl; [apply categories_off_posts | apply category_step_traffic].
Qed.

(** The traffic of one post on the posts resource is that of its upsert,
    when the upsert is reached, and empty otherwise. *)
Lemma publishPost_posts_requests p w :
  posts_requests (events (publishPost p w)) = [] \/
  exists markdown isoDate tagIds categoryIds w',
    existsSync H (Phases.mdPath B H p) = true /\
    readFileSync H (Phases.mdPath B H p) = inr markdown /\
    Date_toISOString B (date p) = Some isoDate /\
    w' = final (Phases.category_step B H
                  (final (Publish.publishPost_tags B H (Phases.tag_names p) [] w))) /\
    posts_requests (events (publishPost p w)) =
    posts_requests
      (events (Phases.upsert B H p
                 (Phases.postData p (marked_parse B markdown) isoDate tagIds categoryIds)
                 w')).
Proof.
  destruct (existsSync H (Phases.mdPath B H p)) eqn:E.
  - destruct (readFileSync H (Phases.mdPath B H p)) as [e|markdown] eqn:R.
    + left. rewrite (publishPost_unreadable B H p w e E R). reflexivity.
    + destruct (publishPost_read B H p w markdown E R)
        as (tagIds & categoryIds & _ & _ & Heq).
      rewrite Heq. cbv zeta.
      destruct (Date_toISOString B (date p)) as [isoDate|] eqn:D.
      * right. exists markdown, isoDate, tagIds, categoryIds. eexists.
        repeat (split; [reflexivity|]).
        cbn [events]. rewrite !posts_requests_app.
        rewrite posts_requests_tags, posts_requests_category. reflexivity.
      * left. cbn [events]. rewrite posts_requests_app.
        rewrite posts_requests_tags, posts_requests_category. reflexivity.
  - left. rewrite (publishPost_skipped B H p w E). reflexivity.
Qed.

Lemma publishPost_group p w :
  Phases.upsert_group B H (slug p) (posts_requests (events (publishPost p w))).
Proof.
  destruct (publishPost_posts_requests p w)
    as [E|(markdown & isoDate & tagIds & categoryIds & w' & _ & _ & _ & _ & E)];
    rewrite E; [exact I|].
  apply upsert_is_group; [reflexivity|].
  unfold body_field, Phases.postData. cbn [r_body].
  destruct (title p), (slug p), (excerpt p); reflexivity.
Qed.

Lemma posts_requests_delay ms : posts_requests [EDelay ms] = [].
Proof. reflexivity. Qed.

Lemma posts_requests_console s m : posts_requests [EConsole s m] = [].
Proof. reflexivity. Qed.

(** Over a whole index, the traffic on the posts resource is one group per
    entry, in the order of the index. *)
Lemma main_loop_groups posts : forall a b w,
  exists groups,
    posts_requests (events (main_loop posts a b w)) = List.concat groups /\
    Forall2 (fun p g => Phases.upsert_group B H (slug p) g) posts groups.
Proof.
  induction posts as [|p rest IH]; intros a b w.
  - exists []. split; [reflexivity | constructor].
  - destruct (out (publishPost p w)) as [[]|e|c] eqn:E.
    + rewrite (main_loop_ok B H p rest a b w E). cbn [events].
      destruct (IH (S a) b (final (publishPost p w))) as (groups & Hg & Hf).
      exists (posts_requests (events (publishPost p w)) :: groups). split.
      * cbn [List.concat]. rewrite !posts_requests_app, posts_requests_delay, Hg.
        rewrite app_nil_r. reflexivity.
      * constructor; [apply publishPost_group | exact Hf].
    + rewrite (main_loop_failed B H p rest a b w e E). cbn [events].
      destruct (IH a (S b) (final (publishPost p w))) as (groups & Hg & Hf).
      exists (posts_requests (events (publishPost p w)) :: groups). split.
      * cbn [List.concat]. rewrite !posts_requests_app, posts_requests_console, Hg.
        rewrite app_nil_r. reflexivity.
      * constructor; [apply publishPost_group | exact Hf].
    + exfalso. exact (publishPost_no_exit B H p w c E).
Qed.

(** The creates among all requests are those among the requests on the
    posts resource. *)
Lemma is_create_on_posts r res : is_create r = true -> on_posts (r, res) = true.
Proof.
  unfold is_create, on_posts. intros Ec. apply andb_true_iff in Ec.
  destruct Ec as [_ Ee]. apply String.eqb_eq in Ee. cbn [fst]. rewrite Ee. reflexivity.
Qed.

Lemma count_create_posts evs :
  count is_create evs =
  List.length (List.filter (fun x => is_create (fst x)) (posts_requests evs)).
Proof.
  unfold count, posts_requests.
  induction (requests evs) as [|[r res] l IH]; [reflexivity|].
  cbn [List.filter fst].
  destruct (is_create r) eqn:Ec.
  - rewrite (is_create_on_posts r res Ec). cbn [List.filter fst]. rewrite Ec.
    cbn [List.length]. rewrite IH. reflexivity.
  - destruct (on_posts (r, res)); [cbn [List.filter fst]; rewrite Ec|]; exact IH.
Qed.

End Upsert.

Section UpsertClaim.
Context {W : Type} (B : Builtins) (H : Host W).

#[local] Abbreviation publishPost := (Publish.publishPost B H).

Lemma upsert_checks p data w url :
  URL_parse B (Publish.API_BASE H ++ Phases.check_endpoint (template (slug p))) = Some url ->
  exists chk res rest,
    posts_requests (events (Phases.upsert B H p data w)) = (chk, res) :: rest.
Proof.
  intros Hurl.
  destruct (getExistingPost_sent B H (template (slug p)) w url Hurl)
    as (chk & res & He & Hm & Hev & Hout).
  unfold Phases.upsert. rewrite events_bind, Hev.
  exists chk, res.
  destruct (out (Publish.getExistingPost B H (template (slug p)) w)).
  - rewrite posts_requests_app.
    rewrite (posts_requests_one chk res []); [|rewrite He; reflexivity|reflexivity].
    eexists. reflexivity.
  - exists []. apply posts_requests_one; [rewrite He|]; reflexivity.
  - exists []. apply posts_requests_one; [rewrite He|]; reflexivity.
Qed.

Lemma group_found p w chk res rest existing :
  posts_requests (events (publishPost p w)) = (chk, res) :: rest ->
  Phases.found B (template (slug p)) res = inr existing ->
  r_method chk = "GET" /\
  match URL_parse B (Publish.API_BASE H ++ Phases.write_endpoint existing) with
  | None => rest = []
  | Some _ =>
      exists wr res',
        rest = [(wr, res')] /\
        r_method wr = Phases.write_method existing /\
        r_endpoint wr = Phases.write_endpoint existing /\
        body_field "slug" wr = option_map VStr (slug p) /\
        is_create wr = negb (truthy existing)
  end.
Proof.
  intros Heq Hf. pose proof (publishPost_group B H p w) as Hg.
  rewrite Heq in Hg. cbn [Phases.upsert_group] in Hg. rewrite Hf in Hg.
  destruct Hg as (Hm & _ & Hg). split; [exact Hm | exact Hg].
Qed.

Lemma get_is_no_create r : r_method r = "GET" -> is_create r = false.
Proof. intros E. unfold is_create. rewrite E. reflexivity. Qed.

End UpsertClaim.

(** A run repeated against the remote it has left.  The first run
    updates the post the remote held and creates the two it did not; the
    second run finds all three, updates them and creates nothing, and the
    remote holds the same posts after it as before. *)
Example second_run_creates_nothing :
  let first := Publish.script (Sample.platform Sample.four_posts)
                 (Sample.site Sample.four_posts) Sample.untouched in
  let second := Publish.script (Sample.platform Sample.four_posts)
                  (Sample.site Sample.four_posts) (final first) in
  (count is_create (events first), count is_update (events first)) = (2, 1)%nat /\
  final first = ["tagged"; "fresh"] /\
  (count is_create (events second), count is_update (events second)) = (0, 3)%nat /\
  final second = final first /\
  exit_code first = 0%Z /\ exit_code second = 0%Z.
Proof. vm_compute. repeat split. Qed.

(* ===================================================================== *)
(** ** The payload of the upsert (C2) *)
(* ===================================================================== *)

Section Payload.
Context {W : Type} (B : Builtins) (H : Host W).

Lemma upsert_carries p data :
  truthy data = true -> footprint (carries data) (Phases.upsert B H p data).
Proof.
  intros Hd. unfold Phases.upsert, Publish.getExistingPost.
  footprints; apply wpRequest_footprint; intros r res E1 E2 E3;
    cbn [carries]; unfold is_upsert, is_create, is_update; rewrite ?E2;
    try (cbn; discriminate); intros _; rewrite E3, Hd; reflexivity.
Qed.

Lemma publishPost_payload p w r res :
  In (ENet r res) (events (Publish.publishPost B H p w)) ->
  is_upsert r = true ->
  exists markdown isoDate tagIds categoryIds,
    readFileSync H (Phases.mdPath B H p) = inr markdown /\
    Date_toISOString B (date p) = Some isoDate /\
    out (Publish.publishPost_tags B H (Phases.tag_names p) [] w) = Ret tagIds /\
    out (Phases.category_step B H
           (final (Publish.publishPost_tags B H (Phases.tag_names p) [] w)))
      = Ret categoryIds /\
    r_body r =
      Some (JsonText (Phases.postData p (marked_parse B markdown) isoDate
                        tagIds categoryIds)).
Proof.
  intros Hin Hup.
  assert (Htags : forall tags acc w', In (ENet r res)
                    (events (Publish.publishPost_tags B H tags acc w')) -> False).
  { intros tags acc w' Hi.
    pose proof (publishPost_tags_traffic B H tags acc w') as Hf.
    rewrite Forall_forall in Hf. specialize (Hf _ Hi).
    pose proof (resource_no_upsert "/tags" _ ltac:(discriminate) Hf) as Hn.
    cbn in Hn. congruence. }
  assert (Hcat : forall w', In (ENet r res) (events (Phases.category_step B H w')) -> False).
  { intros w' Hi.
    pose proof (category_step_traffic B H w') as Hf.
    rewrite Forall_forall in Hf. specialize (Hf _ Hi).
    pose proof (resource_no_upsert "/categories" _ ltac:(discriminate) Hf) as Hn.
    cbn in Hn. congruence. }
  destruct (existsSync H (Phases.mdPath B H p)) eqn:E.
  - destruct (readFileSync H (Phases.mdPath B H p)) as [e|markdown] eqn:R.
    + rewrite (publishPost_unreadable B H p w e E R) in Hin. destruct Hin.
    + destruct (publishPost_read B H p w markdown E R)
        as (tagIds & categoryIds & Ht & Hc & Heq).
      rewrite Heq in Hin. cbv zeta in Hin.
      destruct (Date_toISOString B (date p)) as [isoDate|] eqn:D; cbn [events] in Hin.
      * apply in_app_or in Hin. destruct Hin as [Hi|Hi]; [destruct (Htags _ _ _ Hi)|].
        apply in_app_or in Hi. destruct Hi as [Hi|Hi]; [destruct (Hcat _ Hi)|].
        exists markdown, isoDate, tagIds, categoryIds.
        repeat (split; [reflexivity || assumption|]).
        eapply Forall_forall in Hi; [|apply upsert_carries; apply postData_truthy].
        exact (Hi Hup).
      * apply in_app_or in Hin. destruct Hin as [Hi|Hi];
          [destruct (Htags _ _ _ Hi) | destruct (Hcat _ Hi)].
  - rewrite (publishPost_skipped B H p w E) in Hin.
    destruct Hin as [Hi|[]]. discriminate.
Qed.

(** *** The same for the variant on [fetch] *)

Lemma wpFetch_footprint (P : event -> Prop) e m b :
  (forall r res,
      r_endpoint r = e -> r_method r = m -> r_body r = option_map JsonText b ->
      P (ENet r res)) ->
  footprint P (PublishFetch.wpFetch B H e m b).
Proof.
  intros HP. unfold PublishFetch.wpFetch. cbv zeta.
  destruct (URL_parse B (PublishFetch.API_BASE H ++ e)) as [url|].
  - apply footprint_bind.
    + apply footprint_send. intros res. apply HP; reflexivity.
    + intros res. footprints.
  - apply footprint_throw.
Qed.

Lemma footprint_bind_ret {A C} (P : event -> Prop) (a : A) (k : A -> M W C) :
  footprint P (k a) -> footprint P (bind (ret a) k).
Proof. intros Hk w. exact (Hk w). Qed.

Lemma footprint_bind_throw {A C} (P : event -> Prop) e (k : A -> M W C) :
  footprint P (bind (throw e) k).
Proof. intros w. constructor. Qed.

Lemma fetch_tags_no_upsert tags acc :
  footprint no_upsert (PublishFetch.publishPost_tags B H tags acc).
Proof.
  revert acc. induction tags as [|t rest IH]; intros acc;
    cbn [PublishFetch.publishPost_tags].
  - apply footprint_ret.
  - unfold PublishFetch.getOrCreateTag.
    footprints; try apply IH;
      apply wpFetch_footprint; intros r res E1 E2 _;
      cbn [no_upsert]; unfold is_upsert, is_create, is_update; rewrite E1, E2;
      reflexivity.
Qed.

Lemma fetch_category_no_upsert n :
  footprint no_upsert (PublishFetch.getOrCreateCategory B H n).
Proof.
  unfold PublishFetch.getOrCreateCategory.
  footprints;
    apply wpFetch_footprint; intros r res E1 E2 _;
    cbn [no_upsert]; unfold is_upsert, is_create, is_update; rewrite E1, E2;
    reflexivity.
Qed.

Lemma fetch_upsert_carries p data :
  footprint (carries data) (FetchPhases.upsert B H p data).
Proof.
  unfold FetchPhases.upsert, PublishFetch.getExistingPost.
  footprints; apply wpFetch_footprint; intros r res E1 E2 E3;
    cbn [carries]; unfold is_upsert, is_create, is_update; rewrite ?E2;
    try (cbn; discriminate); intros _; rewrite E3; reflexivity.
Qed.

Lemma wpFetch_no_exit e m b : no_exit (PublishFetch.wpFetch B H e m b).
Proof.
  unfold PublishFetch.wpFetch. cbv zeta.
  destruct (URL_parse B (PublishFetch.API_BASE H ++ e)); [|apply no_exit_throw].
  noexit.
Qed.

Lemma fetch_getOrCreateTag_no_exit t : no_exit (PublishFetch.getOrCreateTag B H t).
Proof. unfold PublishFetch.getOrCreateTag. noexit; apply wpFetch_no_exit. Qed.

Lemma fetch_getOrCreateCategory_no_exit n :
  no_exit (PublishFetch.getOrCreateCategory B H n).
Proof. unfold PublishFetch.getOrCreateCategory. noexit; apply wpFetch_no_exit. Qed.

Lemma fetch_tags_returns tags acc : returns (PublishFetch.publishPost_tags B H tags acc).
Proof.
  revert acc. induction tags as [|t rest IH]; intros acc;
    cbn [PublishFetch.publishPost_tags].
  - apply returns_ret.
  - apply returns_bind; [|intros a; apply IH].
    apply returns_try.
    + noexit. apply fetch_getOrCreateTag_no_exit.
    + intros e. apply returns_bind; [apply returns_emit | intros; apply returns_ret].
Qed.

Lemma fetch_category_step_returns : returns (FetchPhases.category_step B H).
Proof.
  unfold FetchPhases.category_step. apply returns_try.
  - noexit. apply fetch_getOrCreateCategory_no_exit.
  - intros e. apply returns_bind; [apply returns_emit | intros; apply returns_ret].
Qed.

Lemma fetch_category_step_no_upsert :
  footprint no_upsert (FetchPhases.category_step B H).
Proof.
  unfold FetchPhases.category_step. footprints. apply fetch_category_no_upsert.
Qed.

Lemma fetch_publishPost_phases p w :
  PublishFetch.publishPost B H p w =
  (if negb (existsSync H (Phases.mdPath B H p)) then
     console_warn ("  Skipping " ++ dq ++ template (slug p) ++ dq
                   ++ " - markdown file not found")
   else
     bind (lift (readFileSync H (Phases.mdPath B H p))) (fun markdown =>
     bind (PublishFetch.publishPost_tags B H (Phases.tag_names p) []) (fun tagIds =>
     bind (FetchPhases.category_step B H) (fun categoryIds =>
     bind (match Date_toISOString B (date p) with
           | Some d => ret d
           | None => throw (RangeError "Invalid time value")
           end) (fun isoDate =>
     FetchPhases.upsert B H p
       (Phases.postData p (marked_parse B markdown) isoDate tagIds categoryIds))))))
    w.
Proof. reflexivity. Qed.

Lemma fetch_publishPost_read p w markdown :
  existsSync H (Phases.mdPath B H p) = true ->
  readFileSync H (Phases.mdPath B H p) = inr markdown ->
  exists tagIds categoryIds,
    out (PublishFetch.publishPost_tags B H (Phases.tag_names p) [] w) = Ret tagIds /\
    out (FetchPhases.category_step B H
           (final (PublishFetch.publishPost_tags B H (Phases.tag_names p) [] w)))
      = Ret categoryIds /\
    PublishFetch.publishPost B H p w =
    let rt := PublishFetch.publishPost_tags B H (Phases.tag_names p) [] w in
    let rc := FetchPhases.category_step B H (final rt) in
    match Date_toISOString B (date p) with
    | None =>
        mkResult (Throw (RangeError "Invalid time value")) (final rc)
                 (events rt ++ events rc)
    | Some isoDate =>
        let ru := FetchPhases.upsert B H p
                    (Phases.postData p (marked_parse B markdown) isoDate
                       tagIds categoryIds) (final rc) in
        mkResult (out ru) (final ru) (events rt ++ events rc ++ events ru)
    end.
Proof.
  intros E R.
  destruct (fetch_tags_returns (Phases.tag_names p) [] w) as [tagIds Ht].
  destruct (fetch_category_step_returns
              (final (PublishFetch.publishPost_tags B H (Phases.tag_names p) [] w)))
    as [categoryIds Hc].
  exists tagIds, categoryIds. split; [exact Ht|]. split; [exact Hc|].
  rewrite fetch_publishPost_phases, E, R. cbn [negb lift]. cbv zeta.
  match goal with |- ?l = _ => rewrite (result_eta l) end.
  rewrite out_bind, final_bind, events_bind.
  cbn [ret out final events app].
  rewrite out_bind, final_bind, events_bind, Ht.
  rewrite out_bind, final_bind, events_bind, Hc.
  rewrite out_bind, final_bind, events_bind.
  destruct (Date_toISOString B (date p)) as [isoDate|];
    cbn [ret throw out final events app]; rewrite ?app_nil_r; reflexivity.
Qed.

Lemma fetch_publishPost_payload p w r res :
  In (ENet r res) (events (PublishFetch.publishPost B H p w)) ->
  is_upsert r = true ->
  exists markdown isoDate tagIds categoryIds,
    readFileSync H (Phases.mdPath B H p) = inr markdown /\
    Date_toISOString B (date p) = Some isoDate /\
    out (PublishFetch.publishPost_tags B H (Phases.tag_names p) [] w) = Ret tagIds /\
    out (FetchPhases.category_step B H
           (final (PublishFetch.publishPost_tags B H (Phases.tag_names p) [] w)))
      = Ret categoryIds /\
    r_body r =
      Some (JsonText (Phases.postData p (marked_parse B markdown) isoDate
                        tagIds categoryIds)).
Proof.
  intros Hin Hup.
  assert (Hnone : forall evs, Forall no_upsert evs -> In (ENet r res) evs -> False).
  { intros evs Hf Hi. rewrite Forall_forall in Hf. specialize (Hf _ Hi).
    cbn in Hf. congruence. }
  destruct (existsSync H (Phases.mdPath B H p)) eqn:E.
  - destruct (readFileSync H (Phases.mdPath B H p)) as [e|markdown] eqn:R.
    + rewrite fetch_publishPost_phases, E, R in Hin. destruct Hin.
    + destruct (fetch_publishPost_read p w markdown E R)
        as (tagIds & categoryIds & Ht & Hc & Heq).
      rewrite Heq in Hin. cbv zeta in Hin.
      destruct (Date_toISOString B (date p)) as [isoDate|] eqn:D; cbn [events] in Hin.
      * apply in_app_or in Hin. destruct Hin as [Hi|Hi];
          [destruct (Hnone _ (fetch_tags_no_upsert _ _ _) Hi)|].
        apply in_app_or in Hi. destruct Hi as [Hi|Hi];
          [destruct (Hnone _ (fetch_category_step_no_upsert _) Hi)|].
        exists markdown, isoDate, tagIds, categoryIds.
        repeat (split; [reflexivity || assumption|]).
        eapply Forall_forall in Hi; [|apply fetch_upsert_carries].
        exact (Hi Hup).
      * apply in_app_or in Hin. destruct Hin as [Hi|Hi];
          [destruct (Hnone _ (fetch_tags_no_upsert _ _ _) Hi)
          |destruct (Hnone _ (fetch_category_step_no_upsert _) Hi)].
  - rewrite fetch_publishPost_phases, E in Hin.
    destruct Hin as [Hi|[]]. discriminate.
Qed.

End Payload.

Lemma postData_keys p html iso tagIds categoryIds r :
  r_body r = Some (JsonText (Phases.postData p html iso tagIds categoryIds)) ->
  body_keys r =
    (present "title" (title p) ++ present "slug" (slug p) ++ ["content"]
     ++ present "excerpt" (excerpt p) ++ ["status"; "date"; "tags"; "categories"])%list /\
  body_field "title" r = option_map VStr (title p) /\
  body_field "slug" r = option_map VStr (slug p) /\
  body_field "content" r = Some (VStr html) /\
  body_field "excerpt" r = option_map VStr (excerpt p) /\
  body_field "status" r = Some (VStr "publish") /\
  body_field "date" r = Some (VStr iso) /\
  body_field "tags" r = Some (VArr tagIds) /\
  body_field "categories" r = Some (VArr categoryIds) /\
  body_field "featured_media" r = None.
Proof.
  intros E. unfold body_keys, body_field. rewrite E. unfold Phases.postData.
  destruct (title p), (slug p), (excerpt p); repeat split.
Qed.

Lemma present_all (t s e : option string) :
  t <> None -> s <> None -> e <> None ->
  (present "title" t ++ present "slug" s ++ ["content"]
   ++ present "excerpt" e ++ ["status"; "date"; "tags"; "categories"])%list =
  ["title"; "slug"; "content"; "excerpt"; "status"; "date"; "tags"; "categories"].
Proof. destruct t, s, e; intros; try contradiction; reflexivity. Qed.

(** C2, as the script has it.  Every upsert request of [publishPost], the
    create as well as the update, carries the object [postData]: title,
    slug, content (the rendered markdown), excerpt, status (the literal
    publish), date (the ISO form of the entry's date), tags (the ids the
    tag loop delivered) and categories (the ids of the category step), in
    this order and nothing else.  Title, slug and excerpt are the entry's:
    one that the entry lacks is undefined and is left out of the JSON
    text, so the body has exactly the eight fields when the entry has all
    three.  It has no field featured_media.  This holds in
    [scripts/publish.js] and in the variant on [fetch]. *)
Theorem C2_every_upsert_carries_the_eight_field_payload :
  forall (W : Type) (B : Builtins) (H : Host W) (p : PostIndexEntry) (w : W)
         (r : request) (res : net_result),
    is_upsert r = true ->
    (In (ENet r res) (events (Publish.publishPost B H p w)) ->
     exists markdown isoDate tagIds categoryIds,
       readFileSync H (Phases.mdPath B H p) = inr markdown /\
       Date_toISOString B (date p) = Some isoDate /\
       out (Publish.publishPost_tags B H (Phases.tag_names p) [] w) = Ret tagIds /\
       out (Phases.category_step B H
              (final (Publish.publishPost_tags B H (Phases.tag_names p) [] w)))
         = Ret categoryIds /\
       r_body r =
         Some (JsonText
                 (VObj [("title", str_or_undef (title p));
                        ("slug", str_or_undef (slug p));
                        ("content", VStr (marked_parse B markdown));
                        ("excerpt", str_or_undef (excerpt p));
                        ("status", VStr "publish");
                        ("date", VStr isoDate);
                        ("tags", VArr tagIds);
                        ("categories", VArr categoryIds)])) /\
       body_keys r =
         (present "title" (title p) ++ present "slug" (slug p) ++ ["content"]
          ++ present "excerpt" (excerpt p)
          ++ ["status"; "date"; "tags"; "categories"])%list /\
       (title p <> None -> slug p <> None -> excerpt p <> None ->
        body_keys r =
          ["title"; "slug"; "content"; "excerpt"; "status"; "date"; "tags";
           "categories"]) /\
       body_field "title" r = option_map VStr (title p) /\
       body_field "slug" r = option_map VStr (slug p) /\
       body_field "content" r = Some (VStr (marked_parse B markdown)) /\
       body_field "excerpt" r = option_map VStr (excerpt p) /\
       body_field "status" r = Some (VStr "publish") /\
       body_field "date" r = Some (VStr isoDate) /\
       body_field "tags" r = Some (VArr tagIds) /\
       body_field "categories" r = Some (VArr categoryIds) /\
       body_field "featured_media" r = None) /\
    (In (ENet r res) (events (PublishFetch.publishPost B H p w)) ->
     exists markdown isoDate tagIds categoryIds,
       readFileSync H (Phases.mdPath B H p) = inr markdown /\
       Date_toISOString B (date p) = Some isoDate /\
       out (PublishFetch.publishPost_tags B H (Phases.tag_names p) [] w) = Ret tagIds /\
       out (FetchPhases.category_step B H
              (final (PublishFetch.publishPost_tags B H (Phases.tag_names p) [] w)))
         = Ret categoryIds /\
       r_body r =
         Some (JsonText
                 (VObj [("title", str_or_undef (title p));
                        ("slug", str_or_undef (slug p));
                        ("content", VStr (marked_parse B markdown));
                        ("excerpt", str_or_undef (excerpt p));
                        ("status", VStr "publish");
                        ("date", VStr isoDate);
                        ("tags", VArr tagIds);
                        ("categories", VArr categoryIds)])) /\
       body_keys r =
         (present "title" (title p) ++ present "slug" (slug p) ++ ["content"]
          ++ present "excerpt" (excerpt p)
          ++ ["status"; "date"; "tags"; "categories"])%list /\
       (title p <> None -> slug p <> None -> excerpt p <> None ->
        body_keys r =
          ["title"; "slug"; "content"; "excerpt"; "status"; "date"; "tags";
           "categories"]) /\
       body_field "title" r = option_map VStr (title p) /\
       body_field "slug" r = option_map VStr (slug p) /\
       body_field "content" r = Some (VStr (marked_parse B markdown)) /\
       body_field "excerpt" r = option_map VStr (excerpt p) /\
       body_field "status" r = Some (VStr "publish") /\
       body_field "date" r = Some (VStr isoDate) /\
       body_field "tags" r = Some (VArr tagIds) /\
       body_field "categories" r = Some (VArr categoryIds) /\
       body_field "featured_media" r = None).
Proof.
  intros W B H p w r res Hup. split; intros Hin.
  - destruct (publishPost_payload B H p w r res Hin Hup)
      as (markdown & isoDate & tagIds & categoryIds & R & D & Ht & Hc & Hb).
    exists markdown, isoDate, tagIds, categoryIds.
    destruct (postData_keys _ _ _ _ _ _ Hb)
      as (Hk & F1 & F2 & F3 & F4 & F5 & F6 & F7 & F8 & F9).
    repeat (split; [assumption|]).
    split; [intros; rewrite Hk; apply present_all; assumption|].
    repeat (split; [assumption|]). exact F9.
  - destruct (fetch_publishPost_payload B H p w r res Hin Hup)
      as (markdown & isoDate & tagIds & categoryIds & R & D & Ht & Hc & Hb).
    exists markdown, isoDate, tagIds, categoryIds.
    destruct (postData_keys _ _ _ _ _ _ Hb)
      as (Hk & F1 & F2 & F3 & F4 & F5 & F6 & F7 & F8 & F9).
    repeat (split; [assumption|]).
    split; [intros; rewrite Hk; apply present_all; assumption|].
    repeat (split; [assumption|]). exact F9.
Qed.

Lemma C2_witness :
  (exists r res,
      In (ENet r res)
         (events (Publish.publishPost (Sample.platform [Sample.existing_post])
                    (Sample.site [Sample.existing_post]) Sample.existing_post
                    Sample.untouched)) /\
      r_method r = "PUT" /\
      body_keys r =
        ["title"; "slug"; "content"; "excerpt"; "status"; "date"; "tags"; "categories"]) /\
  (exists r res,
      In (ENet r res)
         (events (Publish.publishPost (Sample.platform [Cases.terse_post])
                    (Sample.site [Cases.terse_post]) Cases.terse_post Sample.untouched)) /\
      r_method r = "POST" /\
      body_keys r = ["slug"; "content"; "status"; "date"; "tags"; "categories"]).
Proof.
  split.
  - assert (E : exists r res,
               In (ENet r res)
                  (events (Publish.publishPost (Sample.platform [Sample.existing_post])
                             (Sample.site [Sample.existing_post])
                             Sample.existing_post Sample.untouched)) /\
               r_method r = "PUT" /\ is_upsert r = true).
    { do 2 eexists. split; [lazy; right; right; left; reflexivity|].
      split; reflexivity. }
    destruct E as (r & res & Hin & Hm & Hup).
    exists r, res. split; [exact Hin|]. split; [exact Hm|].
    destruct (proj1 (C2_every_upsert_carries_the_eight_field_payload (list string)
                       (Sample.platform [Sample.existing_post])
                       (Sample.site [Sample.existing_post])
                       Sample.existing_post Sample.untouched r res Hup) Hin)
      as (markdown & isoDate & tagIds & categoryIds & _ & _ & _ & _ & _ & _ & Hk & _).
    apply Hk; discriminate.
  - assert (E : exists r res,
               In (ENet r res)
                  (events (Publish.publishPost (Sample.platform [Cases.terse_post])
                             (Sample.site [Cases.terse_post])
                             Cases.terse_post Sample.untouched)) /\
               r_method r = "POST" /\ is_upsert r = true).
    { do 2 eexists. split; [lazy; right; right; left; reflexivity|].
      split; reflexivity. }
    destruct E as (r & res & Hin & Hm & Hup).
    exists r, res. split; [exact Hin|]. split; [exact Hm|].
    destruct (proj1 (C2_every_upsert_carries_the_eight_field_payload (list string)
                       (Sample.platform [Cases.terse_post])
                       (Sample.site [Cases.terse_post])
                       Cases.terse_post Sample.untouched r res Hup) Hin)
      as (markdown & isoDate & tagIds & categoryIds & _ & _ & _ & _ & _ & Hk & _).
    exact Hk.
Defined.

(** The sentence of the specification lists featured_media among the
    fields: the update of the sample post carries eight fields, and
    featured_media is not one of them. *)
Lemma C2_counterexample :
  ~ Claimed.full_payload
      (events (Publish.publishPost (Sample.platform [Sample.existing_post])
                 (Sample.site [Sample.existing_post]) Sample.existing_post Sample.untouched)).
Proof.
  intros Hc.
  assert (E : exists r res,
             In (ENet r res)
                (events (Publish.publishPost (Sample.platform [Sample.existing_post])
                           (Sample.site [Sample.existing_post])
                           Sample.existing_post Sample.untouched)) /\
             is_upsert r = true /\
             body_keys r =
               ["title"; "slug"; "content"; "excerpt"; "status"; "date"; "tags";
                "categories"]).
  { do 2 eexists. split; [lazy; right; right; left; reflexivity|].
    split; reflexivity. }
  destruct E as (r & res & Hin & Hup & Hk).
  specialize (Hc r res Hin Hup). rewrite Hk in Hc. discriminate.
Qed.

(* ===================================================================== *)
(** ** The category is resolved for every post (C9) *)
(* ===================================================================== *)

Section Category.
Context {W : Type} (B : Builtins) (H : Host W).

#[local] Abbreviation publishPost := (Publish.publishPost B H).
#[local] Abbreviation main_loop := (Publish.main_loop B H).
#[local] Abbreviation lookups := (count (is_category_lookup B "Blog")).

Lemma footprint_at {A} (P : event -> Prop) (m : M W A) w :
  footprint P m -> Forall P (events (m w)).
Proof. intros Hm. apply Hm. Qed.

Lemma lookups_tags tags acc w :
  lookups (events (Publish.publishPost_tags B H tags acc w)) = 0%nat.
Proof.
  apply count_none.
  eapply Forall_impl; [apply (tags_no_lookup B "Blog") | apply publishPost_tags_traffic].
Qed.

Lemma lookups_upsert p data w :
  lookups (events (Phases.upsert B H p data w)) = 0%nat.
Proof.
  apply count_none. apply footprint_at.
  unfold Phases.upsert, Publish.getExistingPost.
  footprints; apply wpRequest_footprint; intros r res E1 E2 _;
    unfold is_category_lookup; rewrite E1; apply andb_false_iff; right; reflexivity.
Qed.

Lemma lookups_getOrCreateCategory w url :
  URL_parse B (Publish.API_BASE H ++ "/categories?search=" ++ encodeURIComponent B "Blog")
    = Some url ->
  lookups (events (Publish.getOrCreateCategory B H "Blog" w)) = 1%nat.
Proof.
  intros Hurl.
  destruct (wpRequest_sent B H _ "GET" VNull w url Hurl)
    as (r & res & He & Hm & _ & Hev & Hout).
  unfold Publish.getOrCreateCategory. rewrite events_bind, Hev.
  assert (Hone : lookups [ENet r res] = 1%nat).
  { unfold count. cbn [requests flat_map app List.filter fst].
    unfold is_category_lookup. rewrite He, Hm, !String.eqb_refl. reflexivity. }
  destruct (out (Publish.wpRequest B H _ "GET" VNull w)); try exact Hone.
  rewrite count_app, Hone.
  rewrite count_none; [reflexivity|]. apply footprint_at.
  footprints; apply wpRequest_footprint; intros r0 res0 E1 E2 _;
    unfold is_category_lookup; rewrite E2; reflexivity.
Qed.

Lemma lookups_category_step w url :
  URL_parse B (Publish.API_BASE H ++ "/categories?search=" ++ encodeURIComponent B "Blog")
    = Some url ->
  lookups (events (Phases.category_step B H w)) = 1%nat.
Proof.
  intros Hurl. unfold Phases.category_step.
  rewrite events_try, out_bind, events_bind.
  pose proof (lookups_getOrCreateCategory w url Hurl) as Hone.
  destruct (out (Publish.getOrCreateCategory B H "Blog" w)); cbn [ret events out].
  - rewrite app_nil_r. exact Hone.
  - rewrite count_app, Hone. reflexivity.
  - exact Hone.
Qed.

Lemma lookups_publishPost p w url :
  URL_parse B (Publish.API_BASE H ++ "/categories?search=" ++ encodeURIComponent B "Blog")
    = Some url ->
  lookups (events (publishPost p w)) = if Phases.readable B H p then 1%nat else 0%nat.
Proof.
  intros Hurl. unfold Phases.readable.
  destruct (existsSync H (Phases.mdPath B H p)) eqn:E; cbn [andb].
  - destruct (readFileSync H (Phases.mdPath B H p)) as [e|markdown] eqn:R.
    + rewrite (publishPost_unreadable B H p w e E R). reflexivity.
    + destruct (publishPost_read B H p w markdown E R)
        as (tagIds & categoryIds & _ & _ & Heq).
      rewrite Heq. cbv zeta.
      destruct (Date_toISOString B (date p)); cbn [events];
        rewrite !count_app, lookups_tags, (lookups_category_step _ url Hurl);
        rewrite ?lookups_upsert; reflexivity.
  - rewrite (publishPost_skipped B H p w E). reflexivity.
Qed.

Lemma lookups_main_loop posts url : forall a b w,
  URL_parse B (Publish.API_BASE H ++ "/categories?search=" ++ encodeURIComponent B "Blog")
    = Some url ->
  lookups (events (main_loop posts a b w))
  = List.length (List.filter (Phases.readable B H) posts).
Proof.
  induction posts as [|p rest IH]; intros a b w Hurl; [reflexivity|].
  cbn [List.filter].
  pose proof (lookups_publishPost p w url Hurl) as Hp.
  destruct (out (publishPost p w)) as [[]|e|c] eqn:E.
  - rewrite (main_loop_ok B H p rest a b w E). cbn [events].
    rewrite !count_app, Hp, (IH _ _ _ Hurl).
    destruct (Phases.readable B H p); cbn; lia.
  - rewrite (main_loop_failed B H p rest a b w e E). cbn [events].
    rewrite !count_app, Hp, (IH _ _ _ Hurl).
    destruct (Phases.readable B H p); cbn; lia.
  - exfalso. exact (publishPost_no_exit B H p w c E).
Qed.

End Category.

(** C9, as the script has it.  The category [Blog] is not resolved once
    per run: there is no cache, and [publishPost] looks the category up
    again for every post whose markdown file it has read.  Over an index
    the number of lookups is the number of those posts. *)
Theorem C9_category_is_looked_up_for_every_post_read :
  forall (W : Type) (B : Builtins) (H : Host W) (posts : list PostIndexEntry)
         (a b : nat) (w : W) (url : URL),
    URL_parse B (Publish.API_BASE H ++ "/categories?search=" ++ encodeURIComponent B "Blog")
      = Some url ->
    count (is_category_lookup B "Blog") (events (Publish.main_loop B H posts a b w))
    = List.length (List.filter (Phases.readable B H) posts).
Proof. intros. eapply lookups_main_loop. eassumption. Qed.

Lemma C9_witness :
  count (is_category_lookup (Sample.platform [Sample.existing_post; Sample.fresh_post]) "Blog")
    (events (Publish.main_loop (Sample.platform [Sample.existing_post; Sample.fresh_post])
               (Sample.site [Sample.existing_post; Sample.fresh_post])
               [Sample.existing_post; Sample.nofile_post; Sample.fresh_post] 0 0 Sample.untouched))
  = 2%nat.
Proof.
  exact (C9_category_is_looked_up_for_every_post_read (list string)
           (Sample.platform [Sample.existing_post; Sample.fresh_post])
           (Sample.site [Sample.existing_post; Sample.fresh_post])
           [Sample.existing_post; Sample.nofile_post; Sample.fresh_post] 0%nat 0%nat Sample.untouched
           (mkURL "blog.example.com" "/wp-json/wp/v2/categories" "?search=Blog")
           eq_refl).
Defined.

(** A run over two posts resolves the category twice. *)
Lemma C9_counterexample :
  ~ Claimed.resolved_once (Sample.platform [Sample.existing_post; Sample.fresh_post])
      (events (Publish.script (Sample.platform [Sample.existing_post; Sample.fresh_post])
                 (Sample.site [Sample.existing_post; Sample.fresh_post]) Sample.untouched)).
Proof.
  unfold Claimed.resolved_once.
  assert (E : count (is_category_lookup
                       (Sample.platform [Sample.existing_post; Sample.fresh_post]) "Blog")
                (events (Publish.script
                           (Sample.platform [Sample.existing_post; Sample.fresh_post])
                           (Sample.site [Sample.existing_post; Sample.fresh_post]) Sample.untouched))
              = 2%nat) by (vm_compute; reflexivity).
  rewrite E. lia.
Qed.

(* ===================================================================== *)
(** ** A date that does not parse (C10) *)
(* ===================================================================== *)

Section BadDate.
Context {W : Type} (B : Builtins) (H : Host W).

Lemma no_upsert_tags tags acc w :
  count is_upsert (events (Publish.publishPost_tags B H tags acc w)) = 0%nat.
Proof.
  apply count_none.
  eapply Forall_impl; [|apply publishPost_tags_traffic].
  intros ev. apply resource_no_upsert. discriminate.
Qed.

Lemma no_upsert_category w :
  count is_upsert (events (Phases.category_step B H w)) = 0%nat.
Proof.
  apply count_none.
  eapply Forall_impl; [|apply category_step_traffic].
  intros ev. apply resource_no_upsert. discriminate.
Qed.

Lemma publishPost_bad_date p w markdown :
  existsSync H (Phases.mdPath B H p) = true ->
  readFileSync H (Phases.mdPath B H p) = inr markdown ->
  Date_toISOString B (date p) = None ->
  out (Publish.publishPost B H p w) = Throw (RangeError "Invalid time value") /\
  posts_requests (events (Publish.publishPost B H p w)) = [] /\
  count is_upsert (events (Publish.publishPost B H p w)) = 0%nat.
Proof.
  intros E R D.
  destruct (publishPost_read B H p w markdown E R)
    as (tagIds & categoryIds & _ & _ & Heq).
  rewrite Heq, D. cbv zeta. cbn [out events]. split; [reflexivity|]. split.
  - rewrite posts_requests_app, posts_requests_tags, posts_requests_category.
    reflexivity.
  - rewrite count_app, no_upsert_tags, no_upsert_category. reflexivity.
Qed.

End BadDate.

(** C10, as the script has it.  For a post whose markdown file is present
    and read and whose date does not parse, the conversion to ISO throws
    after the tags and the category have been resolved and before the
    existence check: [publishPost] throws, no request touches the posts
    resource, and the loop logs the post and counts it as failed.  (A post
    whose markdown file is absent is skipped before its date is looked
    at.) *)
Theorem C10_unparseable_date_fails_the_post_before_the_upsert :
  forall (W : Type) (B : Builtins) (H : Host W) (p : PostIndexEntry) (markdown : string),
    existsSync H (Phases.mdPath B H p) = true ->
    readFileSync H (Phases.mdPath B H p) = inr markdown ->
    Date_toISOString B (date p) = None ->
    forall w,
      out (Publish.publishPost B H p w) = Throw (RangeError "Invalid time value") /\
      posts_requests (events (Publish.publishPost B H p w)) = [] /\
      count is_upsert (events (Publish.publishPost B H p w)) = 0%nat /\
      forall rest a b,
        out (Publish.main_loop B H (p :: rest) a b w) =
        out (Publish.main_loop B H rest a (S b) (final (Publish.publishPost B H p w))) /\
        In (EConsole Err ("  Failed: " ++ dq ++ template (title p) ++ dq ++ " - Invalid time value"))
           (events (Publish.main_loop B H (p :: rest) a b w)).
Proof.
  intros W B H p markdown E R D w.
  destruct (publishPost_bad_date B H p w markdown E R D) as (Hout & Hreq & Hup).
  repeat (split; [assumption|]).
  intros rest a b.
  rewrite (main_loop_failed B H p rest a b w _ Hout). cbn [out events message].
  split; [reflexivity|].
  apply in_or_app. left. apply in_or_app. right. left. reflexivity.
Qed.

Lemma C10_witness :
  out (Publish.publishPost (Sample.platform [Sample.undated_post])
         (Sample.site [Sample.undated_post]) Sample.undated_post Sample.untouched)
  = Throw (RangeError "Invalid time value") /\
  posts_requests
    (events (Publish.publishPost (Sample.platform [Sample.undated_post])
               (Sample.site [Sample.undated_post]) Sample.undated_post Sample.untouched)) = [].
Proof.
  destruct (C10_unparseable_date_fails_the_post_before_the_upsert (list string)
              (Sample.platform [Sample.undated_post])
              (Sample.site [Sample.undated_post]) Sample.undated_post "Hello"
              eq_refl eq_refl eq_refl Sample.untouched) as (Hout & Hreq & _).
  split; [exact Hout | exact Hreq].
Defined.

(** The entry [nofile] has a date that does not parse and no markdown
    file: it is skipped, and [publishPost] returns. *)
Lemma C10_counterexample :
  ~ Claimed.bad_date_fails (Sample.platform [Sample.nofile_post])
      (Sample.site [Sample.nofile_post]) Sample.nofile_post Sample.untouched.
Proof.
  intros Hc. destruct (Hc eq_refl) as [e He].
  vm_compute in He. discriminate.
Qed.

(* ===================================================================== *)
(** ** A tag that cannot be resolved (C4) *)
(* ===================================================================== *)

Section Tags.
Context {W : Type} (B : Builtins) (H : Host W).

#[local] Abbreviation getOrCreateTag := (Publish.getOrCreateTag B H).
#[local] Abbreviation publishPost_tags := (Publish.publishPost_tags B H).

(** One turn of the tag loop, for a tag that is resolved. *)
Lemma tags_step_ok t rest acc w id :
  out (getOrCreateTag t w) = Ret id ->
  publishPost_tags (t :: rest) acc w =
  let r := publishPost_tags rest (acc ++ [id]) (final (getOrCreateTag t w)) in
  mkResult (out r) (final r) ((events (getOrCreateTag t w) ++ [EDelay 200]) ++ events r).
Proof.
  intros E. cbn [Publish.publishPost_tags].
  unfold bind at 1. unfold try_catch.
  rewrite (bind_Ret _ _ _ _ E). cbn. reflexivity.
Qed.

(** One turn of the tag loop, for a tag whose resolution throws. *)
Lemma tags_step_failed t rest acc w e :
  out (getOrCreateTag t w) = Throw e ->
  publishPost_tags (t :: rest) acc w =
  let r := publishPost_tags rest acc (final (getOrCreateTag t w)) in
  mkResult (out r) (final r)
    ((events (getOrCreateTag t w)
      ++ [EConsole Warn ("  Warning: Could not create tag " ++ dq ++ t ++ dq ++ ": "
                         ++ message e)])
     ++ events r).
Proof.
  intros E. cbn [Publish.publishPost_tags].
  unfold bind at 1. unfold try_catch.
  rewrite (bind_Throw _ _ _ _ E). cbn. reflexivity.
Qed.

End Tags.

(** C4.  The tag loop never fails: whatever the remote answers, it
    returns a list of ids.  A tag whose resolution throws is logged and
    left out, and the loop goes on with the remaining tags from the ids
    gathered so far; a tag that is resolved has its id appended, in the
    order of the index.  The outcome of a post whose file is read is that
    of its date conversion and of its upsert, with the ids of the tags
    that were resolved in the payload: no failure of a tag makes
    [publishPost] throw. *)
Theorem C4_unresolved_tag_is_left_out_and_the_post_is_published :
  forall (W : Type) (B : Builtins) (H : Host W),
    (forall tags acc w,
        exists ids, out (Publish.publishPost_tags B H tags acc w) = Ret ids) /\
    (forall t rest acc w e,
        out (Publish.getOrCreateTag B H t w) = Throw e ->
        out (Publish.publishPost_tags B H (t :: rest) acc w) =
        out (Publish.publishPost_tags B H rest acc
               (final (Publish.getOrCreateTag B H t w))) /\
        In (EConsole Warn ("  Warning: Could not create tag " ++ dq ++ t ++ dq ++ ": "
                           ++ message e))
           (events (Publish.publishPost_tags B H (t :: rest) acc w))) /\
    (forall t rest acc w id,
        out (Publish.getOrCreateTag B H t w) = Ret id ->
        out (Publish.publishPost_tags B H (t :: rest) acc w) =
        out (Publish.publishPost_tags B H rest (acc ++ [id])
               (final (Publish.getOrCreateTag B H t w)))) /\
    (forall p w markdown,
        existsSync H (Phases.mdPath B H p) = true ->
        readFileSync H (Phases.mdPath B H p) = inr markdown ->
        exists tagIds categoryIds,
          out (Publish.publishPost_tags B H (Phases.tag_names p) [] w) = Ret tagIds /\
          out (Publish.publishPost B H p w) =
          match Date_toISOString B (date p) with
          | None => Throw (RangeError "Invalid time value")
          | Some isoDate =>
              out (Phases.upsert B H p
                     (Phases.postData p (marked_parse B markdown) isoDate
                        tagIds categoryIds)
                     (final (Phases.category_step B H
                               (final (Publish.publishPost_tags B H
                                         (Phases.tag_names p) [] w)))))
          end).
Proof.
  intros W B H. split; [intros; apply publishPost_tags_returns|].
  split; [|split].
  - intros t rest acc w e E. rewrite (tags_step_failed B H t rest acc w e E).
    cbn [out events]. split; [reflexivity|].
    apply in_or_app. left. apply in_or_app. right. left. reflexivity.
  - intros t rest acc w id E. rewrite (tags_step_ok B H t rest acc w id E).
    reflexivity.
  - intros p w markdown E R.
    destruct (publishPost_read B H p w markdown E R)
      as (tagIds & categoryIds & Ht & _ & Heq).
    exists tagIds, categoryIds. split; [exact Ht|].
    rewrite Heq. cbv zeta. destruct (Date_toISOString B (date p)); reflexivity.
Qed.

Lemma C4_witness :
  out (Publish.publishPost_tags (Sample.platform [Sample.tagged_post])
         (Sample.site [Sample.tagged_post]) ["Valid"; "#Invalid#"] [] Sample.untouched)
  = Ret [VNum 11] /\
  out (Publish.publishPost (Sample.platform [Sample.tagged_post])
         (Sample.site [Sample.tagged_post]) Sample.tagged_post Sample.untouched) = Ret tt /\
  exists r res,
    In (ENet r res)
       (events (Publish.publishPost (Sample.platform [Sample.tagged_post])
                  (Sample.site [Sample.tagged_post]) Sample.tagged_post Sample.untouched)) /\
    is_create r = true /\
    body_field "tags" r = Some (VArr [VNum 11]).
Proof.
  destruct (C4_unresolved_tag_is_left_out_and_the_post_is_published (list string)
              (Sample.platform [Sample.tagged_post])
              (Sample.site [Sample.tagged_post])) as (_ & Hfail & Hok & Hpost).
  split; [|split].
  - etransitivity.
    { apply (Hok "Valid" ["#Invalid#"] [] Sample.untouched (VNum 11)).
      vm_compute. reflexivity. }
    etransitivity.
    { refine (proj1 (Hfail "#Invalid#" [] _ _
                       (Error "API 400 on GET /tags?search=%23Invalid%23: invalid tag") _)).
      vm_compute. reflexivity. }
    vm_compute. reflexivity.
  - destruct (Hpost Sample.tagged_post Sample.untouched "Hello" eq_refl eq_refl)
      as (tagIds & categoryIds & _ & Hout).
    rewrite Hout. vm_compute. reflexivity.
  - do 2 eexists. split; [lazy; do 6 right; left; reflexivity|].
    split; reflexivity.
Defined.

(* ===================================================================== *)
(** ** The base URL (C8) *)
(* ===================================================================== *)

Lemma strip_app_slash (s : string) : strip_trailing_slash (s ++ "/") = s.
Proof.
  induction s as [|c s IH]; [reflexivity|].
  cbn [String.append]. destruct s as [|c' s'].
  - reflexivity.
  - cbn [String.append] in *.
    change (strip_trailing_slash (String c (String c' (s' ++ "/"))))
      with (String c (strip_trailing_slash (String c' (s' ++ "/")))).
    rewrite IH. reflexivity.
Qed.

Lemma strip_without_slash (s : string) :
  ends_with_slash s = false -> strip_trailing_slash s = s.
Proof.
  induction s as [|c s IH]; [reflexivity|].
  destruct s as [|c' s'].
  - cbn. intros E. rewrite E. reflexivity.
  - intros E.
    change (strip_trailing_slash (String c (String c' s')))
      with (String c (strip_trailing_slash (String c' s'))).
    rewrite IH; [reflexivity | exact E].
Qed.

(** C8, as the scripts have it.  The base URL is normalized before use:
    one trailing slash is stripped.  [scripts/publish.js] and the variant
    on [fetch] use the result as it is and add no scheme; the variant
    with featured images trims the value first and puts [https://] in
    front when what is left does not start with [http]. *)
Theorem C8_base_url_has_one_trailing_slash_stripped :
  forall (W : Type) (B : Builtins) (H : Host W) (raw : string),
    env_WP_URL H = Some raw ->
    Publish.WP_URL H = Some (strip_trailing_slash raw) /\
    Publish.API_BASE H = strip_trailing_slash raw ++ "/wp-json/wp/v2" /\
    PublishFetch.WP_URL H = Some (strip_trailing_slash raw) /\
    PublishMedia.WP_URL B H =
      (if startsWith "http" (strip_trailing_slash (trim B raw))
       then strip_trailing_slash (trim B raw)
       else "https://" ++ strip_trailing_slash (trim B raw)) /\
    (forall s, raw = s ++ "/" -> strip_trailing_slash raw = s) /\
    (ends_with_slash raw = false -> strip_trailing_slash raw = raw).
Proof.
  intros W B H raw E.
  unfold Publish.API_BASE, Publish.WP_URL, PublishFetch.WP_URL, PublishMedia.WP_URL,
    PublishMedia.WP_URL_env.
  rewrite E. cbn [option_map template].
  split; [reflexivity|]. split; [reflexivity|]. split; [reflexivity|]. split.
  - destruct (startsWith "http" (strip_trailing_slash (trim B raw))); reflexivity.
  - split; [intros s ->; apply strip_app_slash | apply strip_without_slash].
Qed.

Lemma C8_witness :
  Publish.WP_URL (Sample.site [Sample.fresh_post]) = Some "https://blog.example.com" /\
  Publish.API_BASE (Sample.site [Sample.fresh_post])
  = "https://blog.example.com/wp-json/wp/v2".
Proof.
  destruct (C8_base_url_has_one_trailing_slash_stripped (list string)
              (Sample.platform [Sample.fresh_post]) (Sample.site [Sample.fresh_post])
              "https://blog.example.com/" eq_refl) as (H1 & H2 & _).
  split; [exact H1 | exact H2].
Defined.

(** With [WP_URL] set to [blog.example.com/], [scripts/publish.js] works
    with [blog.example.com]: the slash is gone and no scheme has been
    added. *)
Lemma C8_counterexample :
  Publish.WP_URL (Sample.host (Some "blog.example.com/") (Some "editor")
                    (Some "app password") [Sample.fresh_post] Sample.files)
  <> Some (Claimed.normalize "blog.example.com/").
Proof. vm_compute. discriminate. Qed.

(* ===================================================================== *)
(** ** Facts about the variant with featured images (C5) *)
(* ===================================================================== *)

Section MediaFacts.
Context {W : Type} (B : Builtins) (H : Host W).

#[local] Abbreviation wpRequest := (PublishMedia.wpRequest B H).
#[local] Abbreviation setFeaturedImage := (PublishMedia.setFeaturedImage B H).
#[local] Abbreviation publishPost_tags := (PublishMedia.publishPost_tags B H).
#[local] Abbreviation publishPost := (PublishMedia.publishPost B H).

Lemma media_wpRequest_no_exit e m b : no_exit (wpRequest e m b).
Proof. unfold PublishMedia.wpRequest. noexit. Qed.

Lemma media_getOrCreateTag_no_exit t : no_exit (PublishMedia.getOrCreateTag B H t).
Proof.
  unfold PublishMedia.getOrCreateTag. noexit; apply media_wpRequest_no_exit.
Qed.

Lemma media_getOrCreateCategory_no_exit n :
  no_exit (PublishMedia.getOrCreateCategory B H n).
Proof.
  unfold PublishMedia.getOrCreateCategory. noexit; apply media_wpRequest_no_exit.
Qed.

Lemma media_tags_returns tags acc : returns (publishPost_tags tags acc).
Proof.
  revert acc. induction tags as [|t rest IH]; intros acc;
    cbn [PublishMedia.publishPost_tags].
  - apply returns_ret.
  - apply returns_bind; [|intros a; apply IH].
    apply returns_try.
    + noexit. apply media_getOrCreateTag_no_exit.
    + intros e. apply returns_ret.
Qed.

Lemma media_category_step_returns : returns (MediaPhases.category_step B H).
Proof.
  unfold MediaPhases.category_step. apply returns_try.
  - noexit. apply media_getOrCreateCategory_no_exit.
  - intros e. apply returns_ret.
Qed.

(** *** [setFeaturedImage] *)

Lemma setFeaturedImage_absent slug imageUrl w :
  missing imageUrl = true ->
  setFeaturedImage slug imageUrl w = mkResult (Ret VNull) w [].
Proof. intros E. unfold PublishMedia.setFeaturedImage. rewrite E. reflexivity. Qed.

(** A search that throws is passed over: the image is downloaded and
    uploaded from the world the search has left. *)
Lemma setFeaturedImage_search_failed slug url w e :
  missing (Some url) = false ->
  out (MediaPhases.media_search B H slug w) = Throw e ->
  setFeaturedImage slug (Some url) w =
  let rs := MediaPhases.media_search B H slug w in
  let r := MediaPhases.download_and_upload B H slug url (final rs) in
  mkResult (out r) (final r) (events rs ++ events r).
Proof.
  intros Hm Hs. unfold MediaPhases.media_search in *.
  unfold PublishMedia.setFeaturedImage. rewrite Hm. cbv zeta.
  match goal with |- ?l = _ => rewrite (result_eta l) end.
  rewrite out_bind, final_bind, events_bind.
  rewrite out_try, final_try, events_try.
  rewrite out_bind, final_bind, events_bind, Hs.
  cbn [ret out final events template]. rewrite app_nil_r. reflexivity.
Qed.

(** The first answer to the download is a 404. *)
Lemma downloadImage_404 url w location contentType buffer w' :
  http_get H url w = (GetResponse 404 location contentType buffer, w') ->
  out (PublishMedia.downloadImage H url w) = Throw (Error "Image download failed: 404").
Proof.
  intros E. unfold PublishMedia.downloadImage. cbn [PublishMedia.doRequest].
  rewrite out_bind. unfold get. rewrite E. cbn [out final]. reflexivity.
Qed.

(** A download or an upload that throws makes the whole step throw. *)
Lemma download_failed slug url w e :
  out (PublishMedia.downloadImage H url w) = Throw e ->
  out (MediaPhases.download_and_upload B H slug url w) = Throw e.
Proof.
  intros E. unfold MediaPhases.download_and_upload.
  rewrite out_bind. cbn [console_log emit out final].
  rewrite out_bind, E. reflexivity.
Qed.

Lemma upload_failed slug url w image e :
  out (PublishMedia.downloadImage H url w) = Ret image ->
  out (PublishMedia.uploadMedia B H (fst image) (slug ++ "-featured.jpg") (snd image)
         (final (PublishMedia.downloadImage H url w))) = Throw e ->
  out (MediaPhases.download_and_upload B H slug url w) = Throw e.
Proof.
  intros E U. unfold MediaPhases.download_and_upload.
  rewrite out_bind. cbn [console_log emit out final].
  rewrite out_bind, E.
  rewrite out_bind. cbn [console_log emit out final].
  rewrite out_bind, U. reflexivity.
Qed.

(** *** The image step and the post *)

Lemma image_step_caught p w e :
  out (setFeaturedImage (template (slug p)) (featuredImage p) w) = Throw e ->
  MediaPhases.image_step B H p w =
  mkResult (Ret VNull) (final (setFeaturedImage (template (slug p)) (featuredImage p) w))
    (events (setFeaturedImage (template (slug p)) (featuredImage p) w)
     ++ [EConsole Warn ("    Image failed: " ++ message e)]).
Proof.
  intros E. unfold MediaPhases.image_step.
  rewrite (try_Throw _ _ _ _ E). reflexivity.
Qed.

Lemma media_publishPost_phases p w :
  publishPost p w =
  (if negb (existsSync H (Phases.mdPath B H p)) then
     console_warn ("  Skipping " ++ dq ++ template (slug p) ++ dq ++ " - file not found")
   else
     bind (lift (readFileSync H (Phases.mdPath B H p))) (fun markdown =>
     bind (publishPost_tags (Phases.tag_names p) []) (fun tagIds =>
     bind (MediaPhases.category_step B H) (fun categoryIds =>
     bind (MediaPhases.image_step B H p) (fun featuredMediaId =>
     bind (match Date_toISOString B (date p) with
           | Some d => ret d
           | None => throw (RangeError "Invalid time value")
           end) (fun isoDate =>
     MediaPhases.upsert B H p
       (MediaPhases.postData p (marked_parse B markdown) isoDate tagIds categoryIds
          featuredMediaId)))))))
    w.
Proof. reflexivity. Qed.

Lemma media_publishPost_read p w markdown :
  existsSync H (Phases.mdPath B H p) = true ->
  readFileSync H (Phases.mdPath B H p) = inr markdown ->
  exists tagIds categoryIds,
    out (publishPost_tags (Phases.tag_names p) [] w) = Ret tagIds /\
    out (MediaPhases.category_step B H
           (final (publishPost_tags (Phases.tag_names p) [] w))) = Ret categoryIds /\
    forall featuredMediaId,
      out (MediaPhases.image_step B H p
             (final (MediaPhases.category_step B H
                       (final (publishPost_tags (Phases.tag_names p) [] w)))))
        = Ret featuredMediaId ->
      publishPost p w =
      let rt := publishPost_tags (Phases.tag_names p) [] w in
      let rc := MediaPhases.category_step B H (final rt) in
      let ri := MediaPhases.image_step B H p (final rc) in
      match Date_toISOString B (date p) with
      | None =>
          mkResult (Throw (RangeError "Invalid time value")) (final ri)
                   (events rt ++ events rc ++ events ri)
      | Some isoDate =>
          let ru := MediaPhases.upsert B H p
                      (MediaPhases.postData p (marked_parse B markdown) isoDate
                         tagIds categoryIds featuredMediaId) (final ri) in
          mkResult (out ru) (final ru) (events rt ++ events rc ++ events ri ++ events ru)
      end.
Proof.
  intros E R.
  destruct (media_tags_returns (Phases.tag_names p) [] w) as [tagIds Ht].
  destruct (media_category_step_returns
              (final (publishPost_tags (Phases.tag_names p) [] w))) as [categoryIds Hc].
  exists tagIds, categoryIds. split; [exact Ht|]. split; [exact Hc|].
  intros featuredMediaId Hi.
  rewrite media_publishPost_phases, E, R. cbn [negb lift]. cbv zeta.
  match goal with |- ?l = _ => rewrite (result_eta l) end.
  rewrite out_bind, final_bind, events_bind.
  cbn [ret out final events app].
  rewrite out_bind, final_bind, events_bind, Ht.
  rewrite out_bind, final_bind, events_bind, Hc.
  rewrite out_bind, final_bind, events_bind, Hi.
  rewrite out_bind, final_bind, events_bind.
  destruct (Date_toISOString B (date p)) as [isoDate|];
    cbn [ret throw out final events app]; rewrite ?app_nil_r; reflexivity.
Qed.

Lemma postData_without_media p html iso tagIds categoryIds :
  lookup "featured_media"
    (stringified
       (match MediaPhases.postData p html iso tagIds categoryIds VNull with
        | VObj props => props
        | _ => []
        end)) = None.
Proof.
  unfold MediaPhases.postData.
  destruct (title p), (slug p), (excerpt p),
    (0 <? List.length tagIds)%nat, (0 <? List.length categoryIds)%nat;
    reflexivity.
Qed.

End MediaFacts.

Section MediaTraffic.
Context {W : Type} (B : Builtins) (H : Host W).

Lemma media_wpRequest_footprint (P : event -> Prop) e m b :
  (forall r res,
      r_endpoint r = e -> r_method r = m ->
      r_body r = (if truthy b then Some (JsonText b) else None) ->
      P (ENet r res)) ->
  footprint P (PublishMedia.wpRequest B H e m b).
Proof.
  intros HP. unfold PublishMedia.wpRequest.
  destruct (URL_parse B (PublishMedia.API_BASE B H ++ e)) as [url|].
  - apply footprint_bind; [|intros; apply footprint_lift].
    apply footprint_send. intros res. apply HP; reflexivity.
  - apply footprint_throw.
Qed.

Ltac media_no_upsert :=
  footprints; apply media_wpRequest_footprint; intros r res E1 E2 _;
  cbn [no_upsert]; unfold is_upsert, is_create, is_update; rewrite E1, E2;
  reflexivity.

Lemma media_tags_no_upsert tags acc :
  footprint no_upsert (PublishMedia.publishPost_tags B H tags acc).
Proof.
  revert acc. induction tags as [|t rest IH]; intros acc;
    cbn [PublishMedia.publishPost_tags].
  - apply footprint_ret.
  - unfold PublishMedia.getOrCreateTag.
    footprints; try apply IH;
      apply media_wpRequest_footprint; intros r res E1 E2 _;
      cbn [no_upsert]; unfold is_upsert, is_create, is_update; rewrite E1, E2;
      reflexivity.
Qed.

Lemma media_category_no_upsert :
  footprint no_upsert (MediaPhases.category_step B H).
Proof.
  unfold MediaPhases.category_step, PublishMedia.getOrCreateCategory. media_no_upsert.
Qed.

Lemma doRequest_no_upsert n : forall url,
  footprint no_upsert (PublishMedia.doRequest H n url).
Proof.
  induction n as [|n IH]; intros url; cbn [PublishMedia.doRequest].
  - apply footprint_throw.
  - apply footprint_bind; [apply footprint_get; intros; exact I|].
    intros res. footprints. apply IH.
Qed.

Lemma uploadMedia_no_upsert buffer filename contentType :
  footprint no_upsert (PublishMedia.uploadMedia B H buffer filename contentType).
Proof.
  unfold PublishMedia.uploadMedia.
  destruct (URL_parse B (PublishMedia.API_BASE B H ++ "/media")) as [url|];
    [|apply footprint_throw].
  apply footprint_bind; [apply footprint_send; intros; reflexivity|].
  intros res. footprints.
Qed.

Lemma setFeaturedImage_no_upsert slug imageUrl :
  footprint no_upsert (PublishMedia.setFeaturedImage B H slug imageUrl).
Proof.
  unfold PublishMedia.setFeaturedImage, PublishMedia.downloadImage.
  footprints;
    first [ apply doRequest_no_upsert
          | apply uploadMedia_no_upsert
          | apply media_wpRequest_footprint; intros r res E1 E2 _;
            cbn [no_upsert]; unfold is_upsert, is_create, is_update; rewrite E1, E2;
            reflexivity ].
Qed.

Lemma image_step_no_upsert p : footprint no_upsert (MediaPhases.image_step B H p).
Proof.
  unfold MediaPhases.image_step. footprints. apply setFeaturedImage_no_upsert.
Qed.

Lemma media_upsert_carries p data :
  truthy data = true -> footprint (carries data) (MediaPhases.upsert B H p data).
Proof.
  intros Hd. unfold MediaPhases.upsert, PublishMedia.getExistingPost.
  footprints; apply media_wpRequest_footprint; intros r res E1 E2 E3;
    cbn [carries]; unfold is_upsert, is_create, is_update; rewrite ?E2;
    try (cbn; discriminate); intros _; rewrite E3, Hd; reflexivity.
Qed.

End MediaTraffic.

Section MediaClaim.
Context {W : Type} (B : Builtins) (H : Host W).

(** A post whose image step has thrown: the warning is logged, the post
    goes on to its date and its upsert, and no upsert request carries a
    field featured_media. *)
Lemma image_failure_is_absorbed p w markdown e :
  existsSync H (Phases.mdPath B H p) = true ->
  readFileSync H (Phases.mdPath B H p) = inr markdown ->
  out (PublishMedia.setFeaturedImage B H (template (slug p)) (featuredImage p)
         (final (MediaPhases.category_step B H
                   (final (PublishMedia.publishPost_tags B H (Phases.tag_names p) [] w)))))
    = Throw e ->
  In (EConsole Warn ("    Image failed: " ++ message e))
     (events (PublishMedia.publishPost B H p w)) /\
  (exists tagIds categoryIds,
      out (PublishMedia.publishPost B H p w) =
      match Date_toISOString B (date p) with
      | None => Throw (RangeError "Invalid time value")
      | Some isoDate =>
          out (MediaPhases.upsert B H p
                 (MediaPhases.postData p (marked_parse B markdown) isoDate
                    tagIds categoryIds VNull)
                 (final (PublishMedia.setFeaturedImage B H (template (slug p)) (featuredImage p)
                           (final (MediaPhases.category_step B H
                                     (final (PublishMedia.publishPost_tags B H
                                               (Phases.tag_names p) [] w)))))))
      end) /\
  (forall r res,
      In (ENet r res) (events (PublishMedia.publishPost B H p w)) ->
      is_upsert r = true ->
      body_field "featured_media" r = None).
Proof.
  intros E R Himg.
  destruct (media_publishPost_read B H p w markdown E R)
    as (tagIds & categoryIds & Ht & Hc & Heq).
  pose proof (image_step_caught B H p _ e Himg) as Hstep.
  specialize (Heq VNull ltac:(rewrite Hstep; reflexivity)).
  rewrite Heq. cbv zeta. rewrite Hstep. cbn [out final events].
  split; [|split].
  - destruct (Date_toISOString B (date p)); cbn [events];
      apply in_or_app; right; apply in_or_app; right.
    + apply in_or_app. left. apply in_or_app. right. left. reflexivity.
    + apply in_or_app. right. left. reflexivity.
  - exists tagIds, categoryIds.
    destruct (Date_toISOString B (date p)); reflexivity.
  - intros r res Hin Hup.
    assert (Hno : forall A (m : M W A) w', footprint no_upsert m ->
                  In (ENet r res) (events (m w')) -> False).
    { intros A m w' Hf Hi. specialize (Hf w'). rewrite Forall_forall in Hf.
      specialize (Hf _ Hi). cbn in Hf. congruence. }
    pose proof (fun w' => Hno _ _ w' (setFeaturedImage_no_upsert B H (template (slug p))
                                         (featuredImage p))) as Himgno.
    destruct (Date_toISOString B (date p)) as [isoDate|]; cbn [events] in Hin;
      apply in_app_or in Hin; destruct Hin as [Hi|Hi];
      try (exfalso; exact (Hno _ _ _ (media_tags_no_upsert B H _ _) Hi));
      apply in_app_or in Hi; destruct Hi as [Hi|Hi];
      try (exfalso; exact (Hno _ _ _ (media_category_no_upsert B H) Hi)).
    + apply in_app_or in Hi. destruct Hi as [Hi|Hi].
      * apply in_app_or in Hi. destruct Hi as [Hi|[Hi|[]]];
          [exfalso; exact (Himgno _ Hi) | discriminate].
      * eapply Forall_forall in Hi; [|apply media_upsert_carries; reflexivity].
        unfold body_field. rewrite (Hi Hup). apply postData_without_media.
    + apply in_app_or in Hi. destruct Hi as [Hi|[Hi|[]]];
        [exfalso; exact (Himgno _ Hi) | discriminate].
Qed.

End MediaClaim.

(** C5, as the variant with featured images has it.  [setFeaturedImage]
    returns null when the entry has no image URL.  A search of the media
    library that fails is passed over, and the image is downloaded and
    uploaded all the same.  A download that ends in a 404, like any
    download or upload that throws, makes [setFeaturedImage] throw; the
    image step of [publishPost] catches it and logs a warning, the post
    goes on to its upsert, and no upsert request of that post carries a
    field featured_media. *)
Theorem C5_image_failure_is_logged_and_the_post_goes_on_without_media :
  forall (W : Type) (B : Builtins) (H : Host W),
    (forall slug imageUrl w,
        missing imageUrl = true ->
        PublishMedia.setFeaturedImage B H slug imageUrl w = mkResult (Ret VNull) w []) /\
    (forall slug url w e,
        missing (Some url) = false ->
        out (MediaPhases.media_search B H slug w) = Throw e ->
        out (PublishMedia.setFeaturedImage B H slug (Some url) w) =
        out (MediaPhases.download_and_upload B H slug url
               (final (MediaPhases.media_search B H slug w)))) /\
    (forall slug url w location contentType buffer w',
        http_get H url w = (GetResponse 404 location contentType buffer, w') ->
        out (MediaPhases.download_and_upload B H slug url w) =
        Throw (Error "Image download failed: 404")) /\
    (forall p w markdown e,
        existsSync H (Phases.mdPath B H p) = true ->
        readFileSync H (Phases.mdPath B H p) = inr markdown ->
        out (PublishMedia.setFeaturedImage B H (template (slug p)) (featuredImage p)
               (final (MediaPhases.category_step B H
                         (final (PublishMedia.publishPost_tags B H
                                   (Phases.tag_names p) [] w)))))
          = Throw e ->
        In (EConsole Warn ("    Image failed: " ++ message e))
           (events (PublishMedia.publishPost B H p w)) /\
        (exists tagIds categoryIds,
            out (PublishMedia.publishPost B H p w) =
            match Date_toISOString B (date p) with
            | None => Throw (RangeError "Invalid time value")
            | Some isoDate =>
                out (MediaPhases.upsert B H p
                       (MediaPhases.postData p (marked_parse B markdown) isoDate
                          tagIds categoryIds VNull)
                       (final (PublishMedia.setFeaturedImage B H (template (slug p))
                                 (featuredImage p)
                                 (final (MediaPhases.category_step B H
                                           (final (PublishMedia.publishPost_tags B H
                                                     (Phases.tag_names p) [] w)))))))
            end) /\
        (forall r res,
            In (ENet r res) (events (PublishMedia.publishPost B H p w)) ->
            is_upsert r = true ->
            body_field "featured_media" r = None)).
Proof.
  intros W B H. split; [intros; apply setFeaturedImage_absent; assumption|].
  split; [|split].
  - intros slug url w e Hm Hs.
    rewrite (setFeaturedImage_search_failed B H slug url w e Hm Hs). reflexivity.
  - intros slug url w location contentType buffer w' E.
    apply download_failed. eapply downloadImage_404. exact E.
  - intros p w markdown e E R Himg.
    exact (image_failure_is_absorbed B H p w markdown e E R Himg).
Qed.

Lemma C5_witness :
  In (EConsole Warn "    Image failed: Image download failed: 404")
     (events (PublishMedia.publishPost (Sample.platform [Sample.x_post])
                (Sample.site [Sample.x_post]) Sample.x_post Sample.untouched)) /\
  out (PublishMedia.publishPost (Sample.platform [Sample.x_post])
         (Sample.site [Sample.x_post]) Sample.x_post Sample.untouched) = Ret tt.
Proof.
  destruct (C5_image_failure_is_logged_and_the_post_goes_on_without_media (list string)
              (Sample.platform [Sample.x_post]) (Sample.site [Sample.x_post]))
    as (_ & _ & _ & Hpost).
  destruct (Hpost Sample.x_post Sample.untouched "Hello" (Error "Image download failed: 404")
              eq_refl eq_refl ltac:(vm_compute; reflexivity))
    as (Hwarn & (tagIds & categoryIds & Hout) & _).
  split; [exact Hwarn|]. vm_compute. reflexivity.
Defined.

(** For the sample post [y] the search of the media library fails with
    a 500, and [setFeaturedImage] goes on to download and upload the
    image: it returns the id of the new media, 99, not null. *)
Lemma C5_counterexample :
  ~ Claimed.null_when_search_fails (Sample.platform [Sample.y_post])
      (Sample.site [Sample.y_post]) "y" (Some "https://example.com/ok.jpg") Sample.untouched.
Proof.
  intros Hc.
  assert (Hs : exists e,
             out (PublishMedia.wpRequest (Sample.platform [Sample.y_post])
                    (Sample.site [Sample.y_post])
                    ("/media?search="
                     ++ encodeURIComponent (Sample.platform [Sample.y_post]) "y"
                     ++ "&per_page=5") "GET" VNull Sample.untouched) = Throw e).
  { eexists. vm_compute. reflexivity. }
  specialize (Hc Hs). vm_compute in Hc. discriminate.
Qed.

(* ===================================================================== *)
(** ** Further properties of [src/scripts/publish.js] *)
(* ===================================================================== *)

(** *** Counting over a trace *)

Lemma pauses_app ms (a b : list event) :
  pauses ms (a ++ b) = (pauses ms a + pauses ms b)%nat.
Proof. unfold pauses. rewrite filter_app, length_app. reflexivity. Qed.

Lemma lines_app s (a b : list event) :
  lines s (a ++ b) = (lines s a + lines s b)%nat.
Proof. unfold lines, console. rewrite flat_map_app, length_app. reflexivity. Qed.

Lemma sent_app (a b : list event) : sent (a ++ b) = (sent a + sent b)%nat.
Proof. unfold sent. rewrite requests_app, length_app. reflexivity. Qed.

Lemma downloads_app (a b : list event) :
  downloads (a ++ b) = (downloads a + downloads b)%nat.
Proof. unfold downloads. rewrite filter_app, length_app. reflexivity. Qed.

Lemma pauses_none ms (evs : list event) :
  Forall (fun ev => is_pause ms ev = false) evs -> pauses ms evs = 0%nat.
Proof.
  induction 1 as [|ev evs Hev _ IH]; [reflexivity|].
  unfold pauses in *. cbn [List.filter]. rewrite Hev. exact IH.
Qed.

Lemma lines_none s (evs : list event) :
  Forall (fun ev => match ev with EConsole _ _ => False | _ => True end) evs ->
  lines s evs = 0%nat.
Proof.
  induction 1 as [|ev evs Hev _ IH]; [reflexivity|].
  change (ev :: evs) with ([ev] ++ evs)%list. rewrite lines_app, IH.
  destruct ev; try reflexivity. destruct Hev.
Qed.

Section Pacing.
Context {W : Type} (B : Builtins) (H : Host W).

Lemma wpRequest_only_requests e m b :
  footprint (fun ev => match ev with ENet _ _ => True | _ => False end)
            (Publish.wpRequest B H e m b).
Proof. apply wpRequest_footprint. intros. exact I. Qed.

Lemma wpRequest_term e m b : footprint term_event (Publish.wpRequest B H e m b).
Proof. apply wpRequest_footprint. intros. exact I. Qed.

Lemma getOrCreateTag_term t : footprint term_event (Publish.getOrCreateTag B H t).
Proof.
  unfold Publish.getOrCreateTag.
  footprints; first [apply wpRequest_term | apply footprint_emit; reflexivity].
Qed.










End Pacing.


(** *** How a run ends *)

Section RunEnds.
Context {W : Type} (B : Builtins) (H : Host W).

Lemma bind_Exit {A C} (m : M W A) (k : A -> M W C) w c :
  out (m w) = Exit c -> bind m k w = mkResult (Exit c) (final (m w)) (events (m w)).
Proof. intros E. unfold bind. rewrite E. reflexivity. Qed.

Lemma probe_failed_step w e :
  out (Phases.probe B H w) = Throw e ->
  try_catch
    (bind (Publish.wpRequest B H "/posts?per_page=1" "GET" VNull)
          (fun _ => console_log ("API connection OK" ++ nl)))
    (fun e =>
       bind (console_error ("Cannot reach WordPress API: " ++ message e)) (fun _ =>
       bind (console_error
               "Check WP_URL, WP_USERNAME, and WP_APP_PASSWORD secrets are correct.")
            (fun _ => exit 1))) w =
  mkResult (Exit 1) (final (Phases.probe B H w))
    (events (Phases.probe B H w)
     ++ [EConsole Err ("Cannot reach WordPress API: " ++ message e);
         EConsole Err
           "Check WP_URL, WP_USERNAME, and WP_APP_PASSWORD secrets are correct."]).
Proof.
  intros Hprobe. unfold Phases.probe in *.
  assert (E : bind (Publish.wpRequest B H "/posts?per_page=1" "GET" VNull)
                (fun _ => console_log ("API connection OK" ++ nl)) w =
              mkResult (Throw e)
                (final (Publish.wpRequest B H "/posts?per_page=1" "GET" VNull w))
                (events (Publish.wpRequest B H "/posts?per_page=1" "GET" VNull w))).
  { rewrite (bind_Throw _ _ _ _ Hprobe). reflexivity. }
  unfold try_catch. rewrite E. reflexivity.
Qed.

Lemma main_probe_failed w e :
  out (Phases.probe B H w) = Throw e ->
  Publish.main B H w =
  mkResult (Exit 1) (final (Phases.probe B H w))
    ([EConsole Log (nl ++ "Publishing to: " ++ template (Publish.WP_URL H));
      EConsole Log "Testing API connectivity..."]
     ++ events (Phases.probe B H w)
     ++ [EConsole Err ("Cannot reach WordPress API: " ++ message e);
         EConsole Err
           "Check WP_URL, WP_USERNAME, and WP_APP_PASSWORD secrets are correct."]).
Proof.
  intros Hprobe. unfold Publish.main.
  rewrite bind_Ret with (a := tt) by reflexivity.
  cbn [console_log emit out final events app].
  rewrite bind_Ret with (a := tt) by reflexivity.
  cbn [console_log emit out final events app].
  rewrite bind_Exit with (c := 1%Z) by (rewrite (probe_failed_step w e Hprobe); reflexivity).
  rewrite (probe_failed_step w e Hprobe).
  cbn [out final events app]. reflexivity.
Qed.

Lemma main_index_failed w v e :
  out (Phases.probe B H w) = Ret v ->
  index_fails B H e ->
  Publish.main B H w =
  mkResult (Throw e) (final (Phases.probe B H w))
    ([EConsole Log (nl ++ "Publishing to: " ++ template (Publish.WP_URL H));
      EConsole Log "Testing API connectivity..."]
     ++ events (Phases.probe B H w)
     ++ [EConsole Log ("API connection OK" ++ nl)]).
Proof.
  intros Hprobe Hidx. unfold Publish.main.
  rewrite bind_Ret with (a := tt) by reflexivity.
  cbn [console_log emit out final events app].
  rewrite bind_Ret with (a := tt) by reflexivity.
  cbn [console_log emit out final events app].
  rewrite bind_Ret with (a := tt) by (rewrite (probe_step B H w v Hprobe); reflexivity).
  rewrite (probe_step B H w v Hprobe).
  cbn [out final events].
  destruct Hidx as [Hread|(text & Hread & Hparse)].
  - rewrite Hread. rewrite bind_Throw with (e := e) by reflexivity.
    cbn [lift throw out final events]. rewrite app_nil_r. reflexivity.
  - rewrite Hread. rewrite bind_Ret with (a := text) by reflexivity.
    cbn [lift ret out final events app].
    rewrite Hparse. rewrite bind_Throw with (e := e) by reflexivity.
    cbn [lift throw out final events]. rewrite !app_nil_r. reflexivity.
Qed.

Lemma script_configured w :
  Phases.configured H ->
  Publish.script B H w =
  try_catch (Publish.main B H)
    (fun e => bind (console_error ("Fatal error: " ++ message e)) (fun _ => exit 1)) w.
Proof.
  intros (H1 & H2 & H3). unfold Publish.script. rewrite H1, H2, H3. reflexivity.
Qed.

Lemma script_unconfigured w :
  ~ Phases.configured H ->
  Publish.script B H w =
  mkResult (Exit 1) w
    [EConsole Err "Missing environment variables: WP_URL, WP_USERNAME, WP_APP_PASSWORD"].
Proof.
  intros Hn. unfold Publish.script, Phases.configured in *.
  destruct (missing (Publish.WP_URL H)); [reflexivity|].
  destruct (missing (Publish.WP_USERNAME H)); [reflexivity|].
  destruct (missing (Publish.WP_APP_PASSWORD H)); [reflexivity|].
  exfalso. apply Hn. auto.
Qed.

Lemma configured_dec : Phases.configured H \/ ~ Phases.configured H.
Proof.
  unfold Phases.configured.
  destruct (missing (Publish.WP_URL H)); [right; intros (E & _); discriminate|].
  destruct (missing (Publish.WP_USERNAME H)); [right; intros (_ & E & _); discriminate|].
  destruct (missing (Publish.WP_APP_PASSWORD H)); [right; intros (_ & _ & E); discriminate|].
  left. auto.
Qed.

Lemma index_cases :
  (exists e, index_fails B H e) \/
  (exists length e, index_not_iterable B H length e) \/
  (exists posts, Phases.index_is B H posts).
Proof.
  unfold index_fails, index_not_iterable, Phases.index_is.
  destruct (readFileSync H (path_join B [dirname H; ".."; "blogs.json"])) as [e|text] eqn:E.
  - left. exists e. left. reflexivity.
  - destruct (parse_index B text) as [e|[posts|length e]] eqn:E'.
    + left. exists e. right. exists text. auto.
    + right. right. exists posts, text. auto.
    + right. left. exists length, e, text. auto.
Qed.

Lemma index_is_functional posts posts' :
  Phases.index_is B H posts -> Phases.index_is B H posts' -> posts = posts'.
Proof.
  intros (t & E1 & E2) (t' & E1' & E2'). congruence.
Qed.

Lemma index_fails_not_is e posts :
  index_fails B H e -> Phases.index_is B H posts -> False.
Proof.
  intros [E|(t & E1 & E2)] (t' & E1' & E2'); congruence.
Qed.

Lemma index_not_iterable_not_is length e posts :
  index_not_iterable B H length e -> Phases.index_is B H posts -> False.
Proof.
  intros (t & E1 & E2) (t' & E1' & E2'). congruence.
Qed.

Lemma main_not_iterable w v length e :
  out (Phases.probe B H w) = Ret v ->
  index_not_iterable B H length e ->
  Publish.main B H w =
  mkResult (Throw e) (final (Phases.probe B H w))
    ([EConsole Log (nl ++ "Publishing to: " ++ template (Publish.WP_URL H));
      EConsole Log "Testing API connectivity..."]
     ++ events (Phases.probe B H w)
     ++ [EConsole Log ("API connection OK" ++ nl);
         EConsole Log ("Found " ++ ToString length ++ " posts in blogs.json" ++ nl)]).
Proof.
  intros Hprobe (text & Hread & Hparse). unfold Publish.main.
  rewrite bind_Ret with (a := tt) by reflexivity.
  cbn [console_log emit out final events app].
  rewrite bind_Ret with (a := tt) by reflexivity.
  cbn [console_log emit out final events app].
  rewrite bind_Ret with (a := tt) by (rewrite (probe_step B H w v Hprobe); reflexivity).
  rewrite (probe_step B H w v Hprobe).
  cbn [out final events].
  rewrite Hread. rewrite bind_Ret with (a := text) by reflexivity.
  cbn [lift ret out final events app].
  rewrite Hparse. rewrite bind_Ret with (a := NotIterable length e) by reflexivity.
  cbn [lift ret out final events app].
  rewrite bind_Ret with (a := tt) by reflexivity.
  cbn [console_log emit throw out final events app].
  rewrite <- !app_assoc. reflexivity.
Qed.

Lemma script_exit_code w :
  (exit_code (Publish.script B H w) = 0%Z \/ exit_code (Publish.script B H w) = 1%Z) /\
  (exit_code (Publish.script B H w) = 0%Z <->
   Phases.configured H /\
   (exists v, out (Phases.probe B H w) = Ret v) /\
   (exists posts ok,
       Phases.index_is B H posts /\
       out (Publish.main_loop B H posts 0 0 (final (Phases.probe B H w))) = Ret (ok, 0%nat))).
Proof.
  destruct configured_dec as [Hc|Hc].
  2:{ rewrite (script_unconfigured w Hc). unfold exit_code. cbn [out].
      split; [auto|]. split; [discriminate|]. intros (Hc' & _). contradiction. }
  destruct (out (Phases.probe B H w)) as [v|e|c] eqn:Hprobe.
  - destruct index_cases as [(e & Hidx)|[(length & e & Hidx)|(posts & Hidx)]].
    + rewrite (script_configured w Hc). unfold exit_code.
      rewrite out_try, (main_index_failed w v e Hprobe Hidx). cbn [out].
      split; [auto|]. split; [discriminate|].
      intros (_ & _ & posts & ok & Hidx' & _).
      exfalso. exact (index_fails_not_is e posts Hidx Hidx').
    + rewrite (script_configured w Hc). unfold exit_code.
      rewrite out_try, (main_not_iterable w v length e Hprobe Hidx). cbn [out].
      split; [auto|]. split; [discriminate|].
      intros (_ & _ & posts & ok & Hidx' & _).
      exfalso. exact (index_not_iterable_not_is length e posts Hidx Hidx').
    + destruct (main_loop_total B H posts 0 0 (final (Phases.probe B H w)))
        as (ok & failed & Hloop & _).
      cbn [Nat.add] in Hloop.
      destruct (script_reaches_loop B H w v posts ok failed Hc Hprobe Hidx Hloop)
        as [Hcode _].
      rewrite Hcode.
      destruct failed as [|failed]; cbn [Nat.ltb Nat.leb].
      * split; [auto|]. split; [|reflexivity]. intros _.
        split; [exact Hc|]. split; [eauto|]. eauto.
      * split; [auto|]. split; [discriminate|].
        intros (_ & _ & posts' & ok' & Hidx' & Hloop').
        rewrite <- (index_is_functional _ _ Hidx Hidx') in Hloop'.
        rewrite Hloop in Hloop'. discriminate.
  - rewrite (script_configured w Hc). unfold exit_code.
    rewrite out_try, (main_probe_failed w e Hprobe). cbn [out].
    split; [auto|]. split; [discriminate|].
    intros (_ & (v & Hv) & _). discriminate.
  - exfalso. exact (wpRequest_no_exit B H _ _ _ w c Hprobe).
Qed.

Lemma script_probe_failed w e :
  Phases.configured H ->
  out (Phases.probe B H w) = Throw e ->
  Publish.script B H w =
  mkResult (Exit 1) (final (Phases.probe B H w))
    ([EConsole Log (nl ++ "Publishing to: " ++ template (Publish.WP_URL H));
      EConsole Log "Testing API connectivity..."]
     ++ events (Phases.probe B H w)
     ++ [EConsole Err ("Cannot reach WordPress API: " ++ message e);
         EConsole Err
           "Check WP_URL, WP_USERNAME, and WP_APP_PASSWORD secrets are correct."]).
Proof.
  intros Hc Hprobe. rewrite (script_configured w Hc).
  unfold try_catch. rewrite (main_probe_failed w e Hprobe). reflexivity.
Qed.

Lemma script_index_failed w v e :
  Phases.configured H ->
  out (Phases.probe B H w) = Ret v ->
  index_fails B H e ->
  Publish.script B H w =
  mkResult (Exit 1) (final (Phases.probe B H w))
    ([EConsole Log (nl ++ "Publishing to: " ++ template (Publish.WP_URL H));
      EConsole Log "Testing API connectivity..."]
     ++ events (Phases.probe B H w)
     ++ [EConsole Log ("API connection OK" ++ nl);
         EConsole Err ("Fatal error: " ++ message e)]).
Proof.
  intros Hc Hprobe Hidx. rewrite (script_configured w Hc).
  unfold try_catch. rewrite (main_index_failed w v e Hprobe Hidx).
  cbn [out final events bind console_error emit exit app].
  rewrite <- !app_assoc. reflexivity.
Qed.

Lemma script_not_iterable w v length e :
  Phases.configured H ->
  out (Phases.probe B H w) = Ret v ->
  index_not_iterable B H length e ->
  Publish.script B H w =
  mkResult (Exit 1) (final (Phases.probe B H w))
    ([EConsole Log (nl ++ "Publishing to: " ++ template (Publish.WP_URL H));
      EConsole Log "Testing API connectivity..."]
     ++ events (Phases.probe B H w)
     ++ [EConsole Log ("API connection OK" ++ nl);
         EConsole Log ("Found " ++ ToString length ++ " posts in blogs.json" ++ nl);
         EConsole Err ("Fatal error: " ++ message e)]).
Proof.
  intros Hc Hprobe Hidx. rewrite (script_configured w Hc).
  unfold try_catch. rewrite (main_not_iterable w v length e Hprobe Hidx).
  cbn [out final events bind console_error emit exit app].
  rewrite <- !app_assoc. reflexivity.
Qed.

End RunEnds.

(** X2.  The exit code of a run of [scripts/publish.js] is 0 or 1, and
    it is 0 exactly when the three environment variables are set, the
    connectivity probe returns, the index is read and parsed, and the
    loop over its posts ends with no failure counted. *)
Theorem script_exit_code_is_zero_iff_no_post_failed :
  forall (W : Type) (B : Builtins) (H : Host W) (w : W),
    (exit_code (Publish.script B H w) = 0%Z \/ exit_code (Publish.script B H w) = 1%Z) /\
    (exit_code (Publish.script B H w) = 0%Z <->
     Phases.configured H /\
     (exists v, out (Phases.probe B H w) = Ret v) /\
     (exists posts ok,
         Phases.index_is B H posts /\
         out (Publish.main_loop B H posts 0 0 (final (Phases.probe B H w)))
           = Ret (ok, 0%nat))).
Proof. intros. apply script_exit_code. Qed.

(** X3.  When the connectivity probe of [main] throws, the run ends
    there with exit code 1: after the two opening lines and the probe it
    writes the two error lines, the first with the message of the probe's
    error, and nothing else; the index is not read and no post is
    processed. *)
Theorem failed_probe_ends_the_run_before_the_index :
  forall (W : Type) (B : Builtins) (H : Host W) (w : W) (e : exn),
    Phases.configured H ->
    out (Phases.probe B H w) = Throw e ->
    Publish.script B H w =
    mkResult (Exit 1) (final (Phases.probe B H w))
      ([EConsole Log (nl ++ "Publishing to: " ++ template (Publish.WP_URL H));
        EConsole Log "Testing API connectivity..."]
       ++ events (Phases.probe B H w)
       ++ [EConsole Err ("Cannot reach WordPress API: " ++ message e);
           EConsole Err
             "Check WP_URL, WP_USERNAME, and WP_APP_PASSWORD secrets are correct."]).
Proof. intros. apply script_probe_failed; assumption. Qed.

(** X4.  When the base URL makes no valid URL (a [WP_URL] without a
    scheme, for one), the run sends no request at all: the probe throws
    at the construction of the URL, the run reports that the API cannot
    be reached and exits with code 1, the remote world untouched. *)
Theorem invalid_base_url_ends_the_run_without_a_request :
  forall (W : Type) (B : Builtins) (H : Host W) (w : W),
    Phases.configured H ->
    URL_parse B (Publish.API_BASE H ++ "/posts?per_page=1") = None ->
    Publish.script B H w =
    mkResult (Exit 1) w
      [EConsole Log (nl ++ "Publishing to: " ++ template (Publish.WP_URL H));
       EConsole Log "Testing API connectivity...";
       EConsole Err "Cannot reach WordPress API: Invalid URL";
       EConsole Err
         "Check WP_URL, WP_USERNAME, and WP_APP_PASSWORD secrets are correct."].
Proof.
  intros W B H w Hc Hurl.
  pose proof (wpRequest_unsent B H "/posts?per_page=1" "GET" VNull w Hurl) as E.
  rewrite (script_probe_failed B H w (TypeError "Invalid URL") Hc)
    by (unfold Phases.probe; rewrite E; reflexivity).
  unfold Phases.probe. rewrite E. reflexivity.
Qed.

(** X5.  When the probe has returned and reading [blogs.json], parsing
    it or reading the length of its [posts] throws (the file cannot be
    read, its text is not JSON, it holds no [posts]), [main] rejects with
    that error and the handler at the bottom of the script turns it into
    one line [Fatal error: ...] on the error console and exit code 1.
    When [posts] is there and cannot be iterated (a number, an object),
    the [Found] line is written first, with the length it prints, and the
    run ends the same way.  In both cases no post is processed. *)
Theorem unreadable_index_is_a_fatal_error :
  forall (W : Type) (B : Builtins) (H : Host W) (w : W) (v : value) (e : exn),
    Phases.configured H ->
    out (Phases.probe B H w) = Ret v ->
    (index_fails B H e ->
     Publish.script B H w =
     mkResult (Exit 1) (final (Phases.probe B H w))
       ([EConsole Log (nl ++ "Publishing to: " ++ template (Publish.WP_URL H));
         EConsole Log "Testing API connectivity..."]
        ++ events (Phases.probe B H w)
        ++ [EConsole Log ("API connection OK" ++ nl);
            EConsole Err ("Fatal error: " ++ message e)])) /\
    (forall length,
        index_not_iterable B H length e ->
        Publish.script B H w =
        mkResult (Exit 1) (final (Phases.probe B H w))
          ([EConsole Log (nl ++ "Publishing to: " ++ template (Publish.WP_URL H));
            EConsole Log "Testing API connectivity..."]
           ++ events (Phases.probe B H w)
           ++ [EConsole Log ("API connection OK" ++ nl);
               EConsole Log ("Found " ++ ToString length ++ " posts in blogs.json" ++ nl);
               EConsole Err ("Fatal error: " ++ message e)])).
Proof.
  intros W B H w v e Hc Hprobe. split.
  - intros Hidx. exact (script_index_failed B H w v e Hc Hprobe Hidx).
  - intros length Hidx. exact (script_not_iterable B H w v length e Hc Hprobe Hidx).
Qed.

Lemma failed_probe_ends_the_run_before_the_index_witness :
  Publish.script (Sample.platform [Sample.fresh_post]) (Cases.refusing [Sample.fresh_post])
    Sample.untouched =
  mkResult (Exit 1)
    (final (Phases.probe (Sample.platform [Sample.fresh_post])
              (Cases.refusing [Sample.fresh_post]) Sample.untouched))
    ([EConsole Log (nl ++ "Publishing to: "
                    ++ template (Publish.WP_URL (Cases.refusing [Sample.fresh_post])));
      EConsole Log "Testing API connectivity..."]
     ++ events (Phases.probe (Sample.platform [Sample.fresh_post])
                  (Cases.refusing [Sample.fresh_post]) Sample.untouched)
     ++ [EConsole Err ("Cannot reach WordPress API: "
                       ++ message (Error ("Network error on GET /posts?per_page=1: "
                                          ++ "connect ECONNREFUSED 203.0.113.7:443")));
         EConsole Err
           "Check WP_URL, WP_USERNAME, and WP_APP_PASSWORD secrets are correct."]).
Proof.
  apply (failed_probe_ends_the_run_before_the_index (list string)
           (Sample.platform [Sample.fresh_post]) (Cases.refusing [Sample.fresh_post])
           Sample.untouched).
  - repeat split.
  - vm_compute. reflexivity.
Defined.

Lemma invalid_base_url_ends_the_run_without_a_request_witness :
  Publish.script (Sample.platform [Sample.fresh_post]) (Cases.schemeless [Sample.fresh_post])
    Sample.untouched =
  mkResult (Exit 1) Sample.untouched
    [EConsole Log (nl ++ "Publishing to: "
                   ++ template (Publish.WP_URL (Cases.schemeless [Sample.fresh_post])));
     EConsole Log "Testing API connectivity...";
     EConsole Err "Cannot reach WordPress API: Invalid URL";
     EConsole Err
       "Check WP_URL, WP_USERNAME, and WP_APP_PASSWORD secrets are correct."].
Proof.
  apply (invalid_base_url_ends_the_run_without_a_request (list string)
           (Sample.platform [Sample.fresh_post]) (Cases.schemeless [Sample.fresh_post])
           Sample.untouched).
  - repeat split.
  - vm_compute. reflexivity.
Defined.

Lemma unreadable_index_is_a_fatal_error_witness :
  Publish.script (Sample.platform []) Cases.garbled Sample.untouched =
  mkResult (Exit 1) Sample.untouched
    [EConsole Log (nl ++ "Publishing to: https://blog.example.com");
     EConsole Log "Testing API connectivity...";
     ENet (options (Sample.platform []) Cases.garbled "/posts?per_page=1" "GET" VNull
             (mkURL "blog.example.com" "/wp-json/wp/v2/posts" "?per_page=1"))
          (Sample.ok (Sample.post_list "existing"));
     EConsole Log ("API connection OK" ++ nl);
     EConsole Err "Fatal error: Unexpected token in JSON"] /\
  Publish.script (Sample.platform []) Cases.numbered Sample.untouched =
  mkResult (Exit 1) Sample.untouched
    [EConsole Log (nl ++ "Publishing to: https://blog.example.com");
     EConsole Log "Testing API connectivity...";
     ENet (options (Sample.platform []) Cases.numbered "/posts?per_page=1" "GET" VNull
             (mkURL "blog.example.com" "/wp-json/wp/v2/posts" "?per_page=1"))
          (Sample.ok (Sample.post_list "existing"));
     EConsole Log ("API connection OK" ++ nl);
     EConsole Log ("Found undefined posts in blogs.json" ++ nl);
     EConsole Err "Fatal error: posts is not iterable"].
Proof.
  split.
  - rewrite (proj1 (unreadable_index_is_a_fatal_error (list string)
                      (Sample.platform []) Cases.garbled Sample.untouched
                      (Sample.post_list "existing")
                      (SyntaxError "Unexpected token in JSON")
                      ltac:(repeat split) ltac:(vm_compute; reflexivity))).
    + vm_compute. reflexivity.
    + right. eexists. split; vm_compute; reflexivity.
  - rewrite (proj2 (unreadable_index_is_a_fatal_error (list string)
                      (Sample.platform []) Cases.numbered Sample.untouched
                      (Sample.post_list "existing")
                      (TypeError "posts is not iterable")
                      ltac:(repeat split) ltac:(vm_compute; reflexivity)) VUndef).
    + vm_compute. reflexivity.
    + eexists. split; vm_compute; reflexivity.
Defined.

(** *** The taxonomy *)

Section Taxonomy.
Context {W : Type} (B : Builtins) (H : Host W).

Lemma term_no_pause_200 ev : term_event ev -> is_pause 200 ev = false.
Proof. destruct ev as [| | |ms]; cbn; auto; try contradiction. intros ->. reflexivity. Qed.

Lemma term_no_line ev :
  term_event ev -> match ev with EConsole _ _ => False | _ => True end.
Proof. destruct ev; cbn; auto. Qed.

Lemma publishPost_tags_accounting tags : forall acc w,
  exists added,
    out (Publish.publishPost_tags B H tags acc w) = Ret (acc ++ added)%list /\
    List.length added = pauses 200 (events (Publish.publishPost_tags B H tags acc w)) /\
    (List.length added + lines Warn (events (Publish.publishPost_tags B H tags acc w))
     = List.length tags)%nat.
Proof.
  induction tags as [|t rest IH]; intros acc w.
  - exists []. cbn. rewrite app_nil_r. auto.
  - pose proof (getOrCreateTag_term B H t w) as Ht.
    assert (Ht2 : pauses 200 (events (Publish.getOrCreateTag B H t w)) = 0%nat).
    { apply pauses_none. eapply Forall_impl; [apply term_no_pause_200 | exact Ht]. }
    assert (Htw : lines Warn (events (Publish.getOrCreateTag B H t w)) = 0%nat).
    { apply lines_none. eapply Forall_impl; [apply term_no_line | exact Ht]. }
    destruct (out (Publish.getOrCreateTag B H t w)) as [id|e|c] eqn:E.
    + rewrite (tags_step_ok B H t rest acc w id E). cbn [out events].
      destruct (IH (acc ++ [id])%list (final (Publish.getOrCreateTag B H t w)))
        as (added & E1 & E2 & E3).
      exists (id :: added). rewrite E1, <- app_assoc.
      rewrite !pauses_app, !lines_app, Ht2, Htw, <- E2.
      repeat split; cbn in *; lia.
    + rewrite (tags_step_failed B H t rest acc w e E). cbn [out events].
      destruct (IH acc (final (Publish.getOrCreateTag B H t w)))
        as (added & E1 & E2 & E3).
      exists added. rewrite E1.
      rewrite !pauses_app, !lines_app, Ht2, Htw, <- E2.
      repeat split; cbn in *; lia.
    + exfalso. exact (getOrCreateTag_no_exit B H t w c E).
Qed.

Lemma find_first_hit (p : value -> exn + bool) before x after :
  Forall (fun y => p y = inr false) before ->
  p x = inr true ->
  find_first p (before ++ x :: after) = inr x.
Proof.
  induction 1 as [|y before Hy _ IH]; intros Hx; cbn [app find_first].
  - rewrite Hx. reflexivity.
  - rewrite Hy. auto.
Qed.

Lemma find_first_miss (p : value -> exn + bool) items :
  Forall (fun y => p y = inr false) items ->
  find_first p items = inr VUndef.
Proof.
  induction 1 as [|y items Hy _ IH]; cbn [find_first]; [reflexivity|].
  rewrite Hy. exact IH.
Qed.

Lemma name_matches_object name x :
  name_matches B name x = inr true ->
  truthy x = true /\ exists id, prop x "id" = inr id.
Proof.
  unfold name_matches.
  destruct x as [| |b|n|s|items|props]; cbn [prop]; try discriminate.
  intros _. split; [reflexivity|]. eauto.
Qed.

Lemma wpRequest_returned e m b w v :
  out (Publish.wpRequest B H e m b w) = Ret v ->
  sent (events (Publish.wpRequest B H e m b w)) = 1%nat.
Proof.
  intros E.
  destruct (URL_parse B (Publish.API_BASE H ++ e)) as [url|] eqn:Hurl.
  - destruct (wpRequest_sent B H e m b w url Hurl) as (r & res & _ & _ & _ & Hev & _).
    rewrite Hev. reflexivity.
  - rewrite (wpRequest_unsent B H e m b w Hurl) in E. discriminate.
Qed.

Lemma getOrCreateTag_hit name w before x after :
  Forall (fun y => name_matches B name y = inr false) before ->
  name_matches B name x = inr true ->
  out (Publish.wpRequest B H ("/tags?search=" ++ encodeURIComponent B name) "GET" VNull w)
    = Ret (VArr (before ++ x :: after)) ->
  exists id,
    prop x "id" = inr id /\
    Publish.getOrCreateTag B H name w =
    mkResult (Ret id)
      (final (Publish.wpRequest B H ("/tags?search=" ++ encodeURIComponent B name)
                "GET" VNull w))
      (events (Publish.wpRequest B H ("/tags?search=" ++ encodeURIComponent B name)
                 "GET" VNull w)).
Proof.
  intros Hb Hx Hs.
  destruct (name_matches_object name x Hx) as (Ht & id & Hid).
  exists id. split; [exact Hid|].
  unfold Publish.getOrCreateTag.
  rewrite (bind_Ret _ _ _ _ Hs).
  cbn [find]. rewrite (find_first_hit _ before x after Hb Hx).
  rewrite bind_Ret with (a := x) by reflexivity.
  cbn [lift ret out final events]. rewrite Ht, Hid.
  cbn [lift ret out final events]. rewrite !app_nil_r. reflexivity.
Qed.

Lemma getOrCreateCategory_hit name w before x after :
  Forall (fun y => name_matches B name y = inr false) before ->
  name_matches B name x = inr true ->
  out (Publish.wpRequest B H ("/categories?search=" ++ encodeURIComponent B name)
         "GET" VNull w)
    = Ret (VArr (before ++ x :: after)) ->
  exists id,
    prop x "id" = inr id /\
    Publish.getOrCreateCategory B H name w =
    mkResult (Ret id)
      (final (Publish.wpRequest B H ("/categories?search=" ++ encodeURIComponent B name)
                "GET" VNull w))
      (events (Publish.wpRequest B H ("/categories?search=" ++ encodeURIComponent B name)
                 "GET" VNull w)).
Proof.
  intros Hb Hx Hs.
  destruct (name_matches_object name x Hx) as (Ht & id & Hid).
  exists id. split; [exact Hid|].
  unfold Publish.getOrCreateCategory.
  rewrite (bind_Ret _ _ _ _ Hs).
  cbn [find]. rewrite (find_first_hit _ before x after Hb Hx).
  rewrite bind_Ret with (a := x) by reflexivity.
  cbn [lift ret out final events]. rewrite Ht, Hid.
  cbn [lift ret out final events]. rewrite !app_nil_r. reflexivity.
Qed.

Lemma getOrCreateTag_miss name w items :
  Forall (fun y => name_matches B name y = inr false) items ->
  out (Publish.wpRequest B H ("/tags?search=" ++ encodeURIComponent B name) "GET" VNull w)
    = Ret (VArr items) ->
  Publish.getOrCreateTag B H name w =
  let rs := Publish.wpRequest B H ("/tags?search=" ++ encodeURIComponent B name)
              "GET" VNull w in
  let rc := Publish.wpRequest B H "/tags" "POST" (VObj [("name", VStr name)]) (final rs) in
  mkResult
    (match out rc with
     | Ret tag => settled (prop tag "id")
     | Throw e => Throw e
     | Exit c => Exit c
     end)
    (final rc) (events rs ++ EDelay 300 :: events rc).
Proof.
  intros Hb Hs. cbv zeta.
  unfold Publish.getOrCreateTag.
  rewrite (bind_Ret _ _ _ _ Hs).
  cbn [find]. rewrite (find_first_miss _ items Hb).
  rewrite bind_Ret with (a := VUndef) by reflexivity.
  cbn [lift ret out final events truthy app].
  rewrite bind_Ret with (a := tt) by reflexivity.
  cbn [delay emit out final events app].
  set (rc := Publish.wpRequest B H "/tags" "POST" (VObj [("name", VStr name)]) _).
  rewrite (result_eta (bind _ _ _)).
  rewrite out_bind, final_bind, events_bind. fold rc.
  destruct (out rc) as [tag|e|c]; cbn [out final events].
  - destruct (prop tag "id"); cbn [lift throw ret settled out final events];
      rewrite !app_nil_r; reflexivity.
  - reflexivity.
  - reflexivity.
Qed.

Lemma getOrCreateCategory_miss name w items :
  Forall (fun y => name_matches B name y = inr false) items ->
  out (Publish.wpRequest B H ("/categories?search=" ++ encodeURIComponent B name)
         "GET" VNull w)
    = Ret (VArr items) ->
  Publish.getOrCreateCategory B H name w =
  let rs := Publish.wpRequest B H ("/categories?search=" ++ encodeURIComponent B name)
              "GET" VNull w in
  let rc := Publish.wpRequest B H "/categories" "POST" (VObj [("name", VStr name)])
              (final rs) in
  mkResult
    (match out rc with
     | Ret cat => settled (prop cat "id")
     | Throw e => Throw e
     | Exit c => Exit c
     end)
    (final rc) (events rs ++ EDelay 300 :: events rc).
Proof.
  intros Hb Hs. cbv zeta.
  unfold Publish.getOrCreateCategory.
  rewrite (bind_Ret _ _ _ _ Hs).
  cbn [find]. rewrite (find_first_miss _ items Hb).
  rewrite bind_Ret with (a := VUndef) by reflexivity.
  cbn [lift ret out final events truthy app].
  rewrite bind_Ret with (a := tt) by reflexivity.
  cbn [delay emit out final events app].
  set (rc := Publish.wpRequest B H "/categories" "POST" (VObj [("name", VStr name)]) _).
  rewrite (result_eta (bind _ _ _)).
  rewrite out_bind, final_bind, events_bind. fold rc.
  destruct (out rc) as [tag|e|c]; cbn [out final events].
  - destruct (prop tag "id"); cbn [lift throw ret settled out final events];
      rewrite !app_nil_r; reflexivity.
  - reflexivity.
  - reflexivity.
Qed.

End Taxonomy.

(** X6.  The tag loop of [publishPost] accounts for every tag exactly
    once: it returns the ids it was given followed by the ids it added,
    it pauses 200 ms once for every id added, and it writes one warning
    for every tag that added none. *)
Theorem every_tag_adds_an_id_or_a_warning :
  forall (W : Type) (B : Builtins) (H : Host W) (tags : list string)
         (acc : list value) (w : W),
    exists added,
      out (Publish.publishPost_tags B H tags acc w) = Ret (acc ++ added)%list /\
      List.length added = pauses 200 (events (Publish.publishPost_tags B H tags acc w)) /\
      (List.length added + lines Warn (events (Publish.publishPost_tags B H tags acc w))
       = List.length tags)%nat.
Proof. intros. apply publishPost_tags_accounting. Qed.

(** X7.  [getOrCreateTag] and [getOrCreateCategory] reuse the first
    term of the search result whose name equals the wanted name up to
    letter case: when the terms before it do not match, its id is
    returned after the search alone, with one request sent, no pause and
    nothing created. *)
Theorem first_term_of_that_name_is_reused :
  forall (W : Type) (B : Builtins) (H : Host W) (name : string) (w : W)
         (before : list value) (x : value) (after : list value),
    Forall (fun y => name_matches B name y = inr false) before ->
    name_matches B name x = inr true ->
    (out (Publish.wpRequest B H ("/tags?search=" ++ encodeURIComponent B name)
            "GET" VNull w) = Ret (VArr (before ++ x :: after)) ->
     exists id,
       prop x "id" = inr id /\
       out (Publish.getOrCreateTag B H name w) = Ret id /\
       sent (events (Publish.getOrCreateTag B H name w)) = 1%nat /\
       pauses 300 (events (Publish.getOrCreateTag B H name w)) = 0%nat /\
       count (fun r => String.eqb (r_method r) "POST")
             (events (Publish.getOrCreateTag B H name w)) = 0%nat) /\
    (out (Publish.wpRequest B H ("/categories?search=" ++ encodeURIComponent B name)
            "GET" VNull w) = Ret (VArr (before ++ x :: after)) ->
     exists id,
       prop x "id" = inr id /\
       out (Publish.getOrCreateCategory B H name w) = Ret id /\
       sent (events (Publish.getOrCreateCategory B H name w)) = 1%nat /\
       pauses 300 (events (Publish.getOrCreateCategory B H name w)) = 0%nat /\
       count (fun r => String.eqb (r_method r) "POST")
             (events (Publish.getOrCreateCategory B H name w)) = 0%nat).
Proof.
  intros W B H name w before x after Hb Hx. split; intros Hs.
  - destruct (getOrCreateTag_hit B H name w before x after Hb Hx Hs) as (id & Hid & E).
    exists id. rewrite E. cbn [out events].
    split; [exact Hid|]. split; [reflexivity|].
    destruct (URL_parse B (Publish.API_BASE H ++ "/tags?search=" ++ encodeURIComponent B name))
      as [url|] eqn:Hurl.
    + destruct (wpRequest_sent B H _ "GET" VNull w url Hurl)
        as (r & res & _ & Hm & _ & Hev & _).
      rewrite Hev. unfold count. cbn. rewrite Hm. cbn. auto.
    + rewrite (wpRequest_unsent B H _ "GET" VNull w Hurl) in Hs. discriminate.
  - destruct (getOrCreateCategory_hit B H name w before x after Hb Hx Hs) as (id & Hid & E).
    exists id. rewrite E. cbn [out events].
    split; [exact Hid|]. split; [reflexivity|].
    destruct (URL_parse B (Publish.API_BASE H ++ "/categories?search="
                           ++ encodeURIComponent B name))
      as [url|] eqn:Hurl.
    + destruct (wpRequest_sent B H _ "GET" VNull w url Hurl)
        as (r & res & _ & Hm & _ & Hev & _).
      rewrite Hev. unfold count. cbn. rewrite Hm. cbn. auto.
    + rewrite (wpRequest_unsent B H _ "GET" VNull w Hurl) in Hs. discriminate.
Qed.

(** X8.  When no term of the search result has the wanted name,
    [getOrCreateTag] pauses 300 ms and creates the term: the run is the
    search, the pause and one POST on [/tags] whose body is the object
    with the one field [name]; the outcome is the [id] of what the POST
    answers, or the error of the POST.  [getOrCreateCategory] does the
    same on [/categories]. *)
Theorem missing_term_is_created_after_a_pause :
  forall (W : Type) (B : Builtins) (H : Host W) (name : string) (w : W)
         (items : list value),
    Forall (fun y => name_matches B name y = inr false) items ->
    (out (Publish.wpRequest B H ("/tags?search=" ++ encodeURIComponent B name)
            "GET" VNull w) = Ret (VArr items) ->
     Publish.getOrCreateTag B H name w =
     let rs := Publish.wpRequest B H ("/tags?search=" ++ encodeURIComponent B name)
                 "GET" VNull w in
     let rc := Publish.wpRequest B H "/tags" "POST" (VObj [("name", VStr name)])
                 (final rs) in
     mkResult
       (match out rc with
        | Ret tag => settled (prop tag "id")
        | Throw e => Throw e
        | Exit c => Exit c
        end)
       (final rc) (events rs ++ EDelay 300 :: events rc)) /\
    (out (Publish.wpRequest B H ("/categories?search=" ++ encodeURIComponent B name)
            "GET" VNull w) = Ret (VArr items) ->
     Publish.getOrCreateCategory B H name w =
     let rs := Publish.wpRequest B H ("/categories?search=" ++ encodeURIComponent B name)
                 "GET" VNull w in
     let rc := Publish.wpRequest B H "/categories" "POST" (VObj [("name", VStr name)])
                 (final rs) in
     mkResult
       (match out rc with
        | Ret cat => settled (prop cat "id")
        | Throw e => Throw e
        | Exit c => Exit c
        end)
       (final rc) (events rs ++ EDelay 300 :: events rc)).
Proof.
  intros W B H name w items Hb. split; intros Hs.
  - exact (getOrCreateTag_miss B H name w items Hb Hs).
  - exact (getOrCreateCategory_miss B H name w items Hb Hs).
Qed.

Lemma first_term_of_that_name_is_reused_witness :
  exists id,
    prop (VObj [("id", VNum 11); ("name", VStr "Valid")]) "id" = inr id /\
    out (Publish.getOrCreateTag (Sample.platform []) (Cases.lenient []) "VALID"
           Sample.untouched) = Ret id /\
    sent (events (Publish.getOrCreateTag (Sample.platform []) (Cases.lenient []) "VALID"
                    Sample.untouched)) = 1%nat /\
    pauses 300 (events (Publish.getOrCreateTag (Sample.platform []) (Cases.lenient [])
                          "VALID" Sample.untouched)) = 0%nat /\
    count (fun r => String.eqb (r_method r) "POST")
          (events (Publish.getOrCreateTag (Sample.platform []) (Cases.lenient []) "VALID"
                     Sample.untouched)) = 0%nat.
Proof.
  refine (proj1 (first_term_of_that_name_is_reused (list string)
                   (Sample.platform []) (Cases.lenient []) "VALID" Sample.untouched
                   [] (VObj [("id", VNum 11); ("name", VStr "Valid")]) [] _ _) _).
  - constructor.
  - vm_compute. reflexivity.
  - vm_compute. reflexivity.
Defined.

Lemma missing_term_is_created_after_a_pause_witness :
  Publish.getOrCreateTag (Sample.platform []) (Cases.lenient []) "Other" Sample.untouched =
  let rs := Publish.wpRequest (Sample.platform []) (Cases.lenient [])
              ("/tags?search=" ++ encodeURIComponent (Sample.platform []) "Other")
              "GET" VNull Sample.untouched in
  let rc := Publish.wpRequest (Sample.platform []) (Cases.lenient []) "/tags" "POST"
              (VObj [("name", VStr "Other")]) (final rs) in
  mkResult
    (match out rc with
     | Ret tag => settled (prop tag "id")
     | Throw e => Throw e
     | Exit c => Exit c
     end)
    (final rc) (events rs ++ EDelay 300 :: events rc).
Proof.
  refine (proj1 (missing_term_is_created_after_a_pause (list string)
                   (Sample.platform []) (Cases.lenient []) "Other" Sample.untouched
                   [VObj [("id", VNum 11); ("name", VStr "Valid")]] _) _).
  - repeat constructor.
  - vm_compute. reflexivity.
Defined.

(** *** What a post and a run may send *)

Section Bounds.
Context {W : Type} (B : Builtins) (H : Host W).

Lemma at_most_ret {A} (a : A) : at_most (W:=W) 0 (ret a).
Proof. intros w. cbn. lia. Qed.

Lemma at_most_throw {A} e : at_most (W:=W) (A:=A) 0 (throw e).
Proof. intros w. cbn. lia. Qed.

Lemma at_most_exit {A} c : at_most (W:=W) (A:=A) 0 (exit c).
Proof. intros w. cbn. lia. Qed.

Lemma at_most_lift {A} (r : exn + A) : at_most (W:=W) 0 (lift r).
Proof. destruct r; [apply at_most_throw | apply at_most_ret]. Qed.

Lemma at_most_console s m : at_most (W:=W) 0 (emit (EConsole s m)).
Proof. intros w. cbn. lia. Qed.

Lemma at_most_delay ms : at_most (W:=W) 0 (delay ms).
Proof. intros w. cbn. lia. Qed.

Lemma at_most_bind {A C} a b (m : M W A) (k : A -> M W C) :
  at_most a m -> (forall x, at_most b (k x)) -> at_most (a + b) (bind m k).
Proof.
  intros Hm Hk w. rewrite events_bind. specialize (Hm w).
  destruct (out (m w)) as [x|e|c]; [|lia|lia].
  rewrite sent_app. specialize (Hk x (final (m w))). lia.
Qed.

Lemma at_most_try {A} a b (m : M W A) h :
  at_most a m -> (forall e, at_most b (h e)) -> at_most (a + b) (try_catch m h).
Proof.
  intros Hm Hh w. rewrite events_try. specialize (Hm w).
  destruct (out (m w)) as [x|e|c]; [lia| |lia].
  rewrite sent_app. specialize (Hh e (final (m w))). lia.
Qed.

Lemma at_most_weaken {A} a b (m : M W A) : (a <= b)%nat -> at_most a m -> at_most b m.
Proof. intros Hab Hm w. specialize (Hm w). lia. Qed.

Lemma wpRequest_at_most e m b : at_most 1 (Publish.wpRequest B H e m b).
Proof.
  intros w.
  destruct (URL_parse B (Publish.API_BASE H ++ e)) as [url|] eqn:Hurl.
  - destruct (wpRequest_sent B H e m b w url Hurl) as (r & res & _ & _ & _ & Hev & _).
    rewrite Hev. cbn. lia.
  - rewrite (wpRequest_unsent B H e m b w Hurl). cbn. lia.
Qed.

Lemma getOrCreateTag_at_most t : at_most 2 (Publish.getOrCreateTag B H t).
Proof.
  unfold Publish.getOrCreateTag.
  apply (at_most_bind 1 1); [apply wpRequest_at_most|]. intros existing.
  apply (at_most_bind 0 1); [apply at_most_lift|]. intros m.
  destruct (truthy m); [apply (at_most_weaken 0); [lia | apply at_most_lift]|].
  apply (at_most_bind 0 1); [apply at_most_delay|]. intros _.
  apply (at_most_bind 1 0); [apply wpRequest_at_most|]. intros tag.
  apply at_most_lift.
Qed.

Lemma getOrCreateCategory_at_most n : at_most 2 (Publish.getOrCreateCategory B H n).
Proof.
  unfold Publish.getOrCreateCategory.
  apply (at_most_bind 1 1); [apply wpRequest_at_most|]. intros existing.
  apply (at_most_bind 0 1); [apply at_most_lift|]. intros m.
  destruct (truthy m); [apply (at_most_weaken 0); [lia | apply at_most_lift]|].
  apply (at_most_bind 0 1); [apply at_most_delay|]. intros _.
  apply (at_most_bind 1 0); [apply wpRequest_at_most|]. intros tag.
  apply at_most_lift.
Qed.

Lemma publishPost_tags_at_most tags : forall acc,
  at_most (2 * List.length tags) (Publish.publishPost_tags B H tags acc).
Proof.
  induction tags as [|t rest IH]; intros acc; cbn [Publish.publishPost_tags].
  - apply at_most_ret.
  - apply (at_most_weaken (2 + 2 * List.length rest)); [cbn [List.length]; lia|].
    apply at_most_bind; [|intros x; apply IH].
    apply (at_most_try 2 0).
    + apply (at_most_bind 2 0); [apply getOrCreateTag_at_most|]. intros id.
      apply (at_most_bind 0 0); [apply at_most_delay|]. intros _. apply at_most_ret.
    + intros e. apply (at_most_bind 0 0); [apply at_most_console|]. intros _.
      apply at_most_ret.
Qed.

Lemma category_step_at_most : at_most 2 (Phases.category_step B H).
Proof.
  unfold Phases.category_step. apply (at_most_try 2 0).
  - apply (at_most_bind 2 0); [apply getOrCreateCategory_at_most|]. intros id.
    apply at_most_ret.
  - intros e. apply (at_most_bind 0 0); [apply at_most_console|]. intros _.
    apply at_most_ret.
Qed.

Lemma upsert_at_most p data : at_most 2 (Phases.upsert B H p data).
Proof.
  unfold Phases.upsert, Publish.getExistingPost.
  apply (at_most_bind 1 1).
  - apply (at_most_bind 1 0); [apply wpRequest_at_most|]. intros posts.
    apply (at_most_bind 0 0); [apply at_most_lift|]. intros len. apply at_most_ret.
  - intros existing. destruct (truthy existing).
    + apply (at_most_bind 0 1); [apply at_most_lift|]. intros id.
      apply (at_most_bind 1 0); [apply wpRequest_at_most|]. intros _.
      apply at_most_console.
    + apply (at_most_bind 1 0); [apply wpRequest_at_most|]. intros _.
      apply at_most_console.
Qed.

Lemma publishPost_at_most p : at_most (budget p) (Publish.publishPost B H p).
Proof.
  intros w. rewrite publishPost_phases. revert w.
  change (at_most (budget p)
    (if negb (existsSync H (Phases.mdPath B H p)) then
     console_warn ("  Skipping " ++ dq ++ template (slug p) ++ dq ++ " - markdown file not found")
   else
     bind (lift (readFileSync H (Phases.mdPath B H p))) (fun markdown =>
     bind (Publish.publishPost_tags B H (Phases.tag_names p) []) (fun tagIds =>
     bind (Phases.category_step B H) (fun categoryIds =>
     bind (match Date_toISOString B (date p) with
           | Some d => ret d
           | None => throw (RangeError "Invalid time value")
           end) (fun isoDate =>
     Phases.upsert B H p
       (Phases.postData p (marked_parse B markdown) isoDate tagIds categoryIds))))))).
  destruct (negb (existsSync H (Phases.mdPath B H p))).
  - apply (at_most_weaken 0); [lia | apply at_most_console].
  - unfold budget.
    apply (at_most_bind 0 _); [apply at_most_lift|]. intros markdown.
    apply (at_most_bind _ 4); [apply publishPost_tags_at_most|]. intros tagIds.
    apply (at_most_bind 2 2); [apply category_step_at_most|]. intros categoryIds.
    apply (at_most_bind 0 2).
    + destruct (Date_toISOString B (date p)); [apply at_most_ret | apply at_most_throw].
    + intros isoDate. apply upsert_at_most.
Qed.

Lemma main_loop_at_most posts : forall a b,
  at_most (list_sum (List.map budget posts)) (Publish.main_loop B H posts a b).
Proof.
  induction posts as [|p rest IH]; intros a b; cbn [Publish.main_loop List.map list_sum].
  - apply at_most_ret.
  - apply at_most_bind; [|intros x; apply IH].
    apply (at_most_weaken (budget p + 0)); [lia|]. apply at_most_try.
    + apply (at_most_weaken (budget p + 0)); [lia|].
      apply at_most_bind; [apply publishPost_at_most|]. intros _.
      apply (at_most_bind 0 0); [apply at_most_delay|]. intros _. apply at_most_ret.
    + intros e. apply (at_most_bind 0 0); [apply at_most_console|]. intros _.
      apply at_most_ret.
Qed.

Lemma at_most_bind_lift {A C} n (r : exn + A) (k : A -> M W C) :
  (forall a, r = inr a -> at_most n (k a)) -> at_most n (bind (lift r) k).
Proof.
  intros Hk. destruct r as [e|a].
  - intros w. cbn. lia.
  - intros w. rewrite bind_Ret with (a := a) by reflexivity.
    cbn [lift ret out final events app]. apply (Hk a eq_refl).
Qed.

Lemma main_at_most posts :
  Phases.index_is B H posts ->
  at_most (1 + list_sum (List.map budget posts)) (Publish.main B H).
Proof.
  intros (text & Hread & Hparse). unfold Publish.main.
  set (N := list_sum (List.map budget posts)).
  apply (at_most_bind 0 (1 + N)); [apply at_most_console|]. intros _.
  apply (at_most_bind 0 (1 + N)); [apply at_most_console|]. intros _.
  apply (at_most_bind 1 N).
  - apply (at_most_try 1 0).
    + apply (at_most_bind 1 0); [apply wpRequest_at_most|]. intros _.
      apply at_most_console.
    + intros e. apply (at_most_bind 0 0); [apply at_most_console|]. intros _.
      apply (at_most_bind 0 0); [apply at_most_console|]. intros _. apply at_most_exit.
  - intros _. apply at_most_bind_lift. intros text' Ht.
    apply at_most_bind_lift. intros index Hp.
    assert (index = Posts posts) by congruence. subst index.
    apply (at_most_bind 0 N); [apply at_most_console|]. intros _.
    apply (at_most_weaken (N + 0)); [lia|].
    apply at_most_bind; [apply main_loop_at_most|]. intros counts.
    apply (at_most_bind 0 0); [apply at_most_console|]. intros _.
    destruct (0 <? snd counts)%nat; [apply at_most_exit | apply at_most_ret].
Qed.

Lemma script_at_most posts :
  Phases.index_is B H posts ->
  at_most (1 + list_sum (List.map budget posts)) (Publish.script B H).
Proof.
  intros Hidx. unfold Publish.script.
  destruct (missing (Publish.WP_URL H) || missing (Publish.WP_USERNAME H)
            || missing (Publish.WP_APP_PASSWORD H)).
  - apply (at_most_weaken 0); [lia|].
    apply (at_most_bind 0 0); [apply at_most_console|]. intros _. apply at_most_exit.
  - apply (at_most_weaken (1 + list_sum (List.map budget posts) + 0)); [lia|].
    apply at_most_try; [apply main_at_most; exact Hidx|].
    intros e. apply (at_most_bind 0 0); [apply at_most_console|]. intros _.
    apply at_most_exit.
Qed.

End Bounds.

(** X9.  A run sends a bounded number of requests: the probe, and for
    each entry of the index at most two for each of its tags (a search
    and a creation), two for the category and two for the upsert (the
    existence check and the write).  Nothing is retried. *)
Theorem a_run_sends_at_most_its_budget_of_requests :
  forall (W : Type) (B : Builtins) (H : Host W) (posts : list PostIndexEntry) (w : W),
    Phases.index_is B H posts ->
    (sent (events (Publish.script B H w))
     <= 1 + list_sum (List.map (fun p => 2 * List.length (Phases.tag_names p) + 4) posts))%nat.
Proof. intros W B H posts w Hidx. exact (script_at_most B H posts Hidx w). Qed.

Lemma a_run_sends_at_most_its_budget_of_requests_witness :
  (sent (events (Publish.script (Sample.platform Sample.four_posts)
                   (Sample.site Sample.four_posts) Sample.untouched))
   <= 1 + list_sum (List.map (fun p => 2 * List.length (Phases.tag_names p) + 4)
                      Sample.four_posts))%nat.
Proof.
  apply (a_run_sends_at_most_its_budget_of_requests (list string)
           (Sample.platform Sample.four_posts) (Sample.site Sample.four_posts)
           Sample.four_posts Sample.untouched).
  eexists. split; vm_compute; reflexivity.
Defined.

(** *** Where the requests of a run go *)

Section Within.
Context {W : Type} (B : Builtins) (H : Host W) (P : event -> Prop).
Hypothesis Hreq : forall e m b, footprint P (Publish.wpRequest B H e m b).
Hypothesis Hcon : forall s m, P (EConsole s m).
Hypothesis Hdel : forall ms, P (EDelay ms).

Ltac within :=
  footprints;
  first [ apply Hreq
        | apply footprint_emit; first [apply Hcon | apply Hdel] ].

Lemma getOrCreateTag_within t : footprint P (Publish.getOrCreateTag B H t).
Proof. unfold Publish.getOrCreateTag. within. Qed.

Lemma getOrCreateCategory_within n : footprint P (Publish.getOrCreateCategory B H n).
Proof. unfold Publish.getOrCreateCategory. within. Qed.

Lemma publishPost_tags_within tags : forall acc,
  footprint P (Publish.publishPost_tags B H tags acc).
Proof.
  induction tags as [|t rest IH]; intros acc; cbn [Publish.publishPost_tags].
  - apply footprint_ret.
  - footprints;
      first [ apply IH | apply getOrCreateTag_within
            | apply footprint_emit; first [apply Hcon | apply Hdel] ].
Qed.

Lemma publishPost_within p : footprint P (Publish.publishPost B H p).
Proof.
  intros w. rewrite publishPost_phases. revert w.
  change (footprint P
    (if negb (existsSync H (Phases.mdPath B H p)) then
     console_warn ("  Skipping " ++ dq ++ template (slug p) ++ dq ++ " - markdown file not found")
   else
     bind (lift (readFileSync H (Phases.mdPath B H p))) (fun markdown =>
     bind (Publish.publishPost_tags B H (Phases.tag_names p) []) (fun tagIds =>
     bind (Phases.category_step B H) (fun categoryIds =>
     bind (match Date_toISOString B (date p) with
           | Some d => ret d
           | None => throw (RangeError "Invalid time value")
           end) (fun isoDate =>
     Phases.upsert B H p
       (Phases.postData p (marked_parse B markdown) isoDate tagIds categoryIds))))))).
  unfold Phases.category_step, Phases.upsert, Publish.getExistingPost.
  footprints;
    first [ apply publishPost_tags_within | apply getOrCreateCategory_within
          | apply Hreq
          | apply footprint_emit; first [apply Hcon | apply Hdel] ].
Qed.

Lemma main_loop_within posts : forall a b,
  footprint P (Publish.main_loop B H posts a b).
Proof.
  induction posts as [|p rest IH]; intros a b; cbn [Publish.main_loop].
  - apply footprint_ret.
  - footprints;
      first [ apply IH | apply publishPost_within
            | apply footprint_emit; first [apply Hcon | apply Hdel] ].
Qed.

Lemma script_within : footprint P (Publish.script B H).
Proof.
  unfold Publish.script, Publish.main.
  footprints;
    first [ apply main_loop_within | apply Hreq
          | apply footprint_emit; first [apply Hcon | apply Hdel] ].
Qed.

End Within.

Section Requests.
Context {W : Type} (B : Builtins) (H : Host W).

Lemma wpRequest_run e m b w url :
  URL_parse B (Publish.API_BASE H ++ e) = Some url ->
  Publish.wpRequest B H e m b w =
  mkResult (settled (Publish.settle B e m (fst (network H (options B H e m b url) w))))
           (snd (network H (options B H e m b url) w))
           [ENet (options B H e m b url) (fst (network H (options B H e m b url) w))].
Proof.
  intros Hurl. unfold Publish.wpRequest. rewrite Hurl.
  fold (options B H e m b url).
  unfold bind, send.
  destruct (network H (options B H e m b url) w) as [res w'].
  cbn [out final events fst snd].
  destruct (Publish.settle B e m res); reflexivity.
Qed.

Lemma wpRequest_authorized e m b :
  footprint (authorized B H) (Publish.wpRequest B H e m b).
Proof.
  intros w.
  destruct (URL_parse B (Publish.API_BASE H ++ e)) as [url|] eqn:Hurl.
  - rewrite (wpRequest_run e m b w url Hurl). cbn [events].
    constructor; [|constructor].
    cbn [authorized options r_endpoint r_target r_headers]. split.
    + left. reflexivity.
    + exists url. auto.
  - rewrite (wpRequest_unsent B H e m b w Hurl). constructor.
Qed.

End Requests.

(** X10.  Every request of a run carries the [Authorization] header
    made from the user name and the application password, and goes to
    port 443 of the host of the URL built from the base and its endpoint,
    whatever scheme and port [WP_URL] names; a run makes no other
    network access. *)
Theorem every_request_is_authorized_and_goes_to_port_443 :
  forall (W : Type) (B : Builtins) (H : Host W) (w : W),
    Forall (authorized B H) (events (Publish.script B H w)).
Proof.
  intros W B H w. apply script_within.
  - apply wpRequest_authorized.
  - intros. exact I.
  - intros. exact I.
Qed.

(** *** The environment check *)

Lemma strip_to_nothing (s : string) :
  strip_trailing_slash s = EmptyString <-> s = EmptyString \/ s = "/".
Proof.
  destruct s as [|c [|c' r]].
  - cbn. split; auto.
  - cbn [strip_trailing_slash]. destruct (Ascii.eqb c "/") eqn:E.
    + apply Ascii.eqb_eq in E. subst c. split; auto.
    + split; [discriminate|]. intros [E'|E']; [discriminate|].
      injection E' as ->. rewrite Ascii.eqb_refl in E. discriminate.
  - change (strip_trailing_slash (String c (String c' r)))
      with (String c (strip_trailing_slash (String c' r))).
    split; [discriminate|]. intros [E|E]; discriminate.
Qed.

Lemma missing_WP_URL {W : Type} (H : Host W) :
  missing (Publish.WP_URL H) = true <->
  env_WP_URL H = None \/ env_WP_URL H = Some EmptyString \/ env_WP_URL H = Some "/".
Proof.
  unfold Publish.WP_URL. destruct (env_WP_URL H) as [s|]; cbn [option_map missing].
  - rewrite String.eqb_eq, strip_to_nothing. split.
    + intros [->| ->]; auto.
    + intros [E|[E|E]]; [discriminate| |]; injection E as ->; auto.
  - split; auto.
Qed.

Lemma script_opens_with_a_log_line {W : Type} (B : Builtins) (H : Host W) w :
  Phases.configured H ->
  exists line tail, events (Publish.script B H w) = EConsole Log line :: tail.
Proof.
  intros Hc. rewrite (script_configured B H w Hc).
  assert (E : exists line tail, events (Publish.main B H w) = EConsole Log line :: tail).
  { unfold Publish.main. rewrite events_bind. cbn [console_log emit out events final app].
    eauto. }
  destruct E as (line & tail & E).
  rewrite events_try, E. destruct (out (Publish.main B H w)); cbn [app]; eauto.
Qed.

(** X11.  The run stops at the environment check, with the one line
    [Missing environment variables: ...] and exit code 1, exactly when
    [WP_URL] is unset, empty or the single slash (which the stripping
    leaves empty), or [WP_USERNAME] or [WP_APP_PASSWORD] is unset or
    empty. *)
Theorem environment_check_stops_the_run_exactly_when_a_variable_is_void :
  forall (W : Type) (B : Builtins) (H : Host W) (w : W),
    Publish.script B H w =
    mkResult (Exit 1) w
      [EConsole Err "Missing environment variables: WP_URL, WP_USERNAME, WP_APP_PASSWORD"]
    <->
    (env_WP_URL H = None \/ env_WP_URL H = Some EmptyString \/ env_WP_URL H = Some "/")
    \/ missing (env_WP_USERNAME H) = true
    \/ missing (env_WP_APP_PASSWORD H) = true.
Proof.
  intros W B H w. rewrite <- missing_WP_URL.
  change (env_WP_USERNAME H) with (Publish.WP_USERNAME H).
  change (env_WP_APP_PASSWORD H) with (Publish.WP_APP_PASSWORD H).
  destruct (configured_dec H) as [Hc|Hc].
  - split.
    + intros E. destruct (script_opens_with_a_log_line B H w Hc) as (line & tail & E').
      rewrite E in E'. discriminate.
    + destruct Hc as (H1 & H2 & H3). rewrite H1, H2, H3.
      intros [E|[E|E]]; discriminate.
  - split; [|intros _; apply script_unconfigured; exact Hc].
    intros _. unfold Phases.configured in Hc.
    destruct (missing (Publish.WP_URL H)); [auto|].
    destruct (missing (Publish.WP_USERNAME H)); [auto|].
    destruct (missing (Publish.WP_APP_PASSWORD H)); [auto|].
    exfalso. apply Hc. auto.
Qed.

(** *** A post whose file cannot be read *)

(** X12.  A post whose markdown file is absent or cannot be read
    leaves the remote alone: [publishPost] ends without a request, a
    download or a pause, the world as it found it; when the file exists
    and reading it throws, that error is the outcome of the post. *)
Theorem unreadable_post_sends_nothing :
  forall (W : Type) (B : Builtins) (H : Host W) (p : PostIndexEntry) (w : W),
    Phases.readable B H p = false ->
    final (Publish.publishPost B H p w) = w /\
    List.filter is_network (events (Publish.publishPost B H p w)) = [] /\
    (existsSync H (Phases.mdPath B H p) = true ->
     exists e,
       readFileSync H (Phases.mdPath B H p) = inl e /\
       Publish.publishPost B H p w = mkResult (Throw e) w []).
Proof.
  intros W B H p w Hr. unfold Phases.readable in Hr.
  destruct (existsSync H (Phases.mdPath B H p)) eqn:Hex.
  - destruct (readFileSync H (Phases.mdPath B H p)) as [e|md] eqn:Hread;
      [|discriminate].
    rewrite (publishPost_unreadable B H p w e Hex Hread). cbn. eauto.
  - rewrite (publishPost_skipped B H p w Hex). cbn.
    repeat split. discriminate.
Qed.

Lemma unreadable_post_sends_nothing_witness :
  final (Publish.publishPost (Sample.platform [Sample.fresh_post])
           (Cases.locked [Sample.fresh_post]) Sample.fresh_post Sample.untouched)
    = Sample.untouched /\
  List.filter is_network
    (events (Publish.publishPost (Sample.platform [Sample.fresh_post])
               (Cases.locked [Sample.fresh_post]) Sample.fresh_post Sample.untouched)) = [] /\
  (existsSync (Cases.locked [Sample.fresh_post])
     (Phases.mdPath (Sample.platform [Sample.fresh_post])
        (Cases.locked [Sample.fresh_post]) Sample.fresh_post) = true ->
   exists e,
     readFileSync (Cases.locked [Sample.fresh_post])
       (Phases.mdPath (Sample.platform [Sample.fresh_post])
          (Cases.locked [Sample.fresh_post]) Sample.fresh_post) = inl e /\
     Publish.publishPost (Sample.platform [Sample.fresh_post])
       (Cases.locked [Sample.fresh_post]) Sample.fresh_post Sample.untouched
     = mkResult (Throw e) Sample.untouched []).
Proof.
  apply (unreadable_post_sends_nothing (list string)
           (Sample.platform [Sample.fresh_post]) (Cases.locked [Sample.fresh_post])
           Sample.fresh_post Sample.untouched).
  vm_compute. reflexivity.
Defined.

(** *** An answer to the existence check that is no JSON *)

Section PageForPost.
Context {W : Type} (B : Builtins) (H : Host W).

Lemma getExistingPost_page s w url status c rest :
  URL_parse B (Publish.API_BASE H ++ Phases.check_endpoint s) = Some url ->
  fst (network H (options B H (Phases.check_endpoint s) "GET" VNull url) w)
    = Response status (String c rest) ->
  (200 <= status < 300)%Z ->
  JSON_parse B (String c rest) = None ->
  Publish.getExistingPost B H s w =
  mkResult (Ret (VStr (String c EmptyString)))
    (snd (network H (options B H (Phases.check_endpoint s) "GET" VNull url) w))
    [ENet (options B H (Phases.check_endpoint s) "GET" VNull url)
          (Response status (String c rest))].
Proof.
  intros Hurl Hres Hst Hjson.
  unfold Publish.getExistingPost. fold (Phases.check_endpoint s).
  pose proof (wpRequest_run B H (Phases.check_endpoint s) "GET" VNull w url Hurl) as E.
  rewrite Hres in E.
  assert (Es : Publish.settle B (Phases.check_endpoint s) "GET"
                 (Response status (String c rest)) = inr (VStr (String c rest))).
  { unfold Publish.settle.
    replace ((200 <=? status) && (status <? 300))%Z with true
      by (symmetry; apply andb_true_iff; split; [apply Z.leb_le | apply Z.ltb_lt]; lia).
    rewrite Hjson. reflexivity. }
  rewrite Es in E. cbn [settled] in E.
  rewrite bind_Ret with (a := VStr (String c rest)) by (rewrite E; reflexivity).
  rewrite E. cbn [out final events].
  change (prop (VStr (String c rest)) "length")
    with (@inr exn value (VNum (Z.of_nat (String.length (String c rest))))).
  rewrite bind_Ret with (a := VNum (Z.of_nat (String.length (String c rest))))
    by reflexivity.
  cbn [lift ret out final events app gt0 index0 String.length].
  replace (0 <? Z.of_nat (S (String.length rest)))%Z with true
    by (symmetry; apply Z.ltb_lt; lia).
  reflexivity.
Qed.

Lemma upsert_page p data w url status c rest :
  URL_parse B (Publish.API_BASE H ++ Phases.check_endpoint (template (slug p))) = Some url ->
  fst (network H (options B H (Phases.check_endpoint (template (slug p))) "GET" VNull url) w)
    = Response status (String c rest) ->
  (200 <= status < 300)%Z ->
  JSON_parse B (String c rest) = None ->
  Phases.upsert B H p data w =
  let chk := options B H (Phases.check_endpoint (template (slug p))) "GET" VNull url in
  let r := bind (Publish.wpRequest B H "/posts/undefined" "PUT" data)
                (fun _ => console_log ("  Updated: " ++ dq ++ template (title p) ++ dq))
                (snd (network H chk w)) in
  mkResult (out r) (final r) (ENet chk (Response status (String c rest)) :: events r).
Proof.
  intros Hurl Hres Hst Hjson. cbv zeta.
  pose proof (getExistingPost_page (template (slug p)) w url status c rest Hurl Hres Hst Hjson) as E.
  unfold Phases.upsert.
  rewrite bind_Ret with (a := VStr (String c EmptyString)) by (rewrite E; reflexivity).
  rewrite E. cbn [out final events app].
  change (truthy (VStr (String c EmptyString))) with true. cbv iota.
  change (prop (VStr (String c EmptyString)) "id") with (@inr exn value VUndef).
  rewrite bind_Ret with (a := VUndef) by reflexivity.
  cbn [lift ret out final events app ToString].
  reflexivity.
Qed.

End PageForPost.

(** X13.  When the existence check is answered with a success status
    and a body that is no JSON (a page of HTML, say), [wpRequest] hands
    the text back, [getExistingPost] takes its first character for the
    post found, and the upsert goes on to update a post that does not
    exist: after the check it sends nothing but a PUT on
    [/posts/undefined], and never a create. *)
Theorem page_in_answer_to_the_check_is_taken_for_a_post :
  forall (W : Type) (B : Builtins) (H : Host W) (p : PostIndexEntry) (data : value)
         (w : W) (url : URL) (status : Z) (c : ascii) (rest : string),
    URL_parse B (Publish.API_BASE H ++ Phases.check_endpoint (template (slug p))) = Some url ->
    fst (network H (options B H (Phases.check_endpoint (template (slug p))) "GET" VNull url) w)
      = Response status (String c rest) ->
    (200 <= status < 300)%Z ->
    JSON_parse B (String c rest) = None ->
    out (Publish.getExistingPost B H (template (slug p)) w) = Ret (VStr (String c EmptyString)) /\
    exists tail,
      events (Phases.upsert B H p data w) =
        ENet (options B H (Phases.check_endpoint (template (slug p))) "GET" VNull url)
             (Response status (String c rest)) :: tail /\
      count is_create tail = 0%nat /\
      (forall r res, In (ENet r res) tail ->
                     r_method r = "PUT" /\ r_endpoint r = "/posts/undefined") /\
      (forall url', URL_parse B (Publish.API_BASE H ++ "/posts/undefined") = Some url' ->
                    exists res tail',
                      tail = ENet (options B H "/posts/undefined" "PUT" data url') res
                               :: tail').
Proof.
  intros W B H p data w url status c rest Hurl Hres Hst Hjson.
  split.
  { rewrite (getExistingPost_page B H (template (slug p)) w url status c rest Hurl Hres Hst Hjson).
    reflexivity. }
  rewrite (upsert_page B H p data w url status c rest Hurl Hres Hst Hjson).
  cbv zeta. cbn [events].
  eexists. split; [reflexivity|].
  set (w' := snd (network H _ w)).
  assert (F : Forall (fun ev => match ev with
                                | ENet r _ => r_method r = "PUT" /\
                                              r_endpoint r = "/posts/undefined"
                                | _ => True
                                end)
                (events (bind (Publish.wpRequest B H "/posts/undefined" "PUT" data)
                           (fun _ => console_log ("  Updated: " ++ dq ++ template (title p) ++ dq))
                           w'))).
  { apply footprint_at. footprints. apply wpRequest_footprint. intros r res E1 E2 _. auto. }
  split; [|split].
  - unfold count. 
    induction F as [|ev evs Hev _ IH]; [reflexivity|].
    destruct ev as [r res| | |]; cbn [requests flat_map app List.filter fst] in *;
      try exact IH.
    destruct Hev as [Hm He]. unfold is_create at 1. rewrite Hm, He. cbn. exact IH.
  - intros r res Hin. rewrite Forall_forall in F. exact (F _ Hin).
  - intros url' Hurl'. rewrite events_bind.
    rewrite (wpRequest_run B H "/posts/undefined" "PUT" data w' url' Hurl').
    cbn [out events final].
    destruct (settled _); cbn [app]; eauto.
Qed.

Lemma page_in_answer_to_the_check_is_taken_for_a_post_witness :
  out (Publish.getExistingPost (Sample.platform [Sample.fresh_post])
         (Cases.behind_a_page [Sample.fresh_post]) (template (slug Sample.fresh_post))
         Sample.untouched) = Ret (VStr "<").
Proof.
  refine (proj1 (page_in_answer_to_the_check_is_taken_for_a_post (list string)
                   (Sample.platform [Sample.fresh_post])
                   (Cases.behind_a_page [Sample.fresh_post])
                   Sample.fresh_post VNull Sample.untouched
                   (mkURL "blog.example.com" "/wp-json/wp/v2/posts"
                          "?slug=fresh&status=publish,draft,pending")
                   200 "<"%char "html>maintenance</html>" _ _ _ _)).
  - vm_compute. reflexivity.
  - vm_compute. reflexivity.
  - lia.
  - vm_compute. reflexivity.
Defined.

(* ===================================================================== *)
(** ** Further properties of the variant on [fetch] ([src/unnamed/part_007]) *)
(* ===================================================================== *)

Section FetchFacts.
Context {W : Type} (B : Builtins) (H : Host W).

Lemma wpFetch_quiet e m b : footprint fetch_event (PublishFetch.wpFetch B H e m b).
Proof. apply wpFetch_footprint. intros. exact I. Qed.

Lemma fetch_tags_quiet tags : forall acc,
  footprint fetch_event (PublishFetch.publishPost_tags B H tags acc).
Proof.
  induction tags as [|t rest IH]; intros acc; cbn [PublishFetch.publishPost_tags].
  - apply footprint_ret.
  - unfold PublishFetch.getOrCreateTag.
    footprints; first [apply IH | apply wpFetch_quiet].
Qed.

Lemma fetch_publishPost_quiet p : footprint fetch_event (PublishFetch.publishPost B H p).
Proof.
  unfold PublishFetch.publishPost, PublishFetch.getOrCreateCategory,
    PublishFetch.getExistingPost. cbv zeta.
  footprints; first [apply fetch_tags_quiet | apply wpFetch_quiet].
Qed.

Lemma fetch_main_loop_quiet posts : forall a b,
  footprint fetch_event (PublishFetch.main_loop B H posts a b).
Proof.
  induction posts as [|p rest IH]; intros a b; cbn [PublishFetch.main_loop].
  - apply footprint_ret.
  - footprints; first [apply IH | apply fetch_publishPost_quiet].
Qed.

Lemma fetch_script_quiet : footprint fetch_event (PublishFetch.script B H).
Proof.
  unfold PublishFetch.script, PublishFetch.main.
  footprints. apply fetch_main_loop_quiet.
Qed.

Lemma fetch_no_pause ms ev : fetch_event ev -> is_pause ms ev = false.
Proof. destruct ev; cbn; auto. contradiction. Qed.

Lemma wpFetch_run e m b w url :
  URL_parse B (PublishFetch.API_BASE H ++ e) = Some url ->
  forall r,
    r = {| r_endpoint := e;
           r_method := m;
           r_target := FullURL (PublishFetch.API_BASE H ++ e);
           r_headers :=
             [("Authorization", PublishFetch.AUTH_HEADER B H);
              ("Content-Type", "application/json")];
           r_body := option_map JsonText b |} ->
    out (PublishFetch.wpFetch B H e m b w) =
    match fst (network H r w) with
    | Response status data =>
        if negb ((200 <=? status) && (status <? 300))%Z then
          Throw (Error ("WordPress API error " ++ Number_toString status ++ ": " ++ data))
        else
          match JSON_parse B data with
          | Some v => Ret v
          | None => Throw (SyntaxError "Unexpected token in JSON")
          end
    | NetworkError _ _ | Timeout => Throw (TypeError "fetch failed")
    end.
Proof.
  intros Hurl r ->. unfold PublishFetch.wpFetch. cbv zeta. rewrite Hurl.
  rewrite out_bind. unfold send.
  destruct (network H _ w) as [res w']. cbn [out final fst].
  destruct res as [status data| |]; try reflexivity.
  destruct (negb _); [reflexivity|].
  destruct (JSON_parse B data); reflexivity.
Qed.

End FetchFacts.

(** X14.  The variant on [fetch] never pauses: a run of it produces
    requests and console lines only, with no delay after a tag, before a
    creation or between two posts, and no download. *)
Theorem fetch_variant_never_pauses :
  forall (W : Type) (B : Builtins) (H : Host W) (w : W) (ms : Z),
    Forall fetch_event (events (PublishFetch.script B H w)) /\
    pauses ms (events (PublishFetch.script B H w)) = 0%nat /\
    downloads (events (PublishFetch.script B H w)) = 0%nat.
Proof.
  intros W B H w ms. pose proof (fetch_script_quiet B H w) as F.
  split; [exact F|]. split.
  - apply pauses_none. eapply Forall_impl; [apply fetch_no_pause | exact F].
  - unfold downloads. induction F as [|ev evs Hev _ IH]; [reflexivity|].
    destruct ev; cbn in *; auto. contradiction.
Qed.

(** X15.  On a success status with a body that is no JSON the two
    request functions part ways: [wpRequest] of [scripts/publish.js]
    returns the text of the body, [wpFetch] of the variant on [fetch]
    throws the [SyntaxError] of [res.json()]. *)
Theorem text_answer_is_returned_by_wpRequest_and_thrown_by_wpFetch :
  forall (W : Type) (B : Builtins) (H : Host W) (e m : string) (b : value)
         (b' : option value) (w : W) (url : URL) (status : Z) (data : string),
    URL_parse B (Publish.API_BASE H ++ e) = Some url ->
    (forall r, r_endpoint r = e -> fst (network H r w) = Response status data) ->
    (200 <= status < 300)%Z ->
    JSON_parse B data = None ->
    out (Publish.wpRequest B H e m b w) = Ret (VStr data) /\
    exists msg, out (PublishFetch.wpFetch B H e m b' w) = Throw (SyntaxError msg).
Proof.
  intros W B H e m b b' w url status data Hurl Hnet Hst Hjson.
  assert (Hok : ((200 <=? status) && (status <? 300))%Z = true)
    by (apply andb_true_iff; split; [apply Z.leb_le | apply Z.ltb_lt]; lia).
  split.
  - rewrite (wpRequest_run B H e m b w url Hurl). cbn [out].
    rewrite (Hnet (options B H e m b url) eq_refl).
    unfold Publish.settle. rewrite Hok, Hjson. reflexivity.
  - rewrite (wpFetch_run B H e m b' w url Hurl _ eq_refl).
    rewrite Hnet by reflexivity. rewrite Hok, Hjson. cbn [negb]. eauto.
Qed.

Lemma text_answer_is_returned_by_wpRequest_and_thrown_by_wpFetch_witness :
  out (Publish.wpRequest (Sample.platform []) (Cases.behind_a_page [])
         "/posts?slug=fresh" "GET" VNull Sample.untouched) = Ret (VStr Cases.html_page) /\
  exists msg,
    out (PublishFetch.wpFetch (Sample.platform []) (Cases.behind_a_page [])
           "/posts?slug=fresh" "GET" None Sample.untouched) = Throw (SyntaxError msg).
Proof.
  apply (text_answer_is_returned_by_wpRequest_and_thrown_by_wpFetch (list string)
           (Sample.platform []) (Cases.behind_a_page [])
           "/posts?slug=fresh" "GET" VNull None Sample.untouched
           (mkURL "blog.example.com" "/wp-json/wp/v2/posts" "?slug=fresh") 200).
  - vm_compute. reflexivity.
  - intros r E. unfold Cases.behind_a_page, Cases.with_network. cbn [network].
    rewrite E. reflexivity.
  - lia.
  - vm_compute. reflexivity.
Defined.

(* ===================================================================== *)
(** ** Further properties of the variant with featured images
       ([src/unnamed/part_006]) *)
(* ===================================================================== *)

Section MediaMore.
Context {W : Type} (B : Builtins) (H : Host W).

Lemma get_run url w :
  get H url w =
  mkResult (Ret (fst (http_get H url w))) (snd (http_get H url w))
           [EGet url (fst (http_get H url w))].
Proof. unfold get. destruct (http_get H url w). reflexivity. Qed.

Lemma doRequest_downloads n : forall url w,
  (downloads (events (PublishMedia.doRequest H n url w)) <= n)%nat /\
  sent (events (PublishMedia.doRequest H n url w)) = 0%nat.
Proof.
  induction n as [|n IH]; intros url w; cbn [PublishMedia.doRequest].
  - cbn. split; [lia | reflexivity].
  - rewrite events_bind, get_run. cbn [out final events].
    rewrite downloads_app, sent_app.
    change (downloads [EGet url (fst (http_get H url w))]) with 1%nat.
    change (sent [EGet url (fst (http_get H url w))]) with 0%nat.
    destruct (fst (http_get H url w)) as [status location contentType buffer|e|e].
    + destruct (((300 <=? status) && (status <? 400))%Z && negb (missing location)).
      * destruct (IH (template location) (snd (http_get H url w))) as [I1 I2].
        split; [lia | exact I2].
      * destruct (negb (status =? 200)%Z); cbn; split; lia.
    + cbn. split; lia.
    + destruct (S n =? 6)%nat; cbn; split; lia.
Qed.

Lemma doRequest_loop n :
  always_redirects H ->
  forall url w,
    out (PublishMedia.doRequest H n url w) = Throw (Error "Too many redirects") /\
    downloads (events (PublishMedia.doRequest H n url w)) = n.
Proof.
  intros Hloop. induction n as [|n IH]; intros url w; cbn [PublishMedia.doRequest].
  - cbn. auto.
  - rewrite out_bind, events_bind, get_run. cbn [out final events].
    rewrite downloads_app.
    change (downloads [EGet url (fst (http_get H url w))]) with 1%nat.
    destruct (Hloop url w) as (status & location & contentType & buffer & E & Hst & Hl).
    rewrite E.
    replace (((300 <=? status) && (status <? 400))%Z && negb (missing (Some location)))
      with true.
    + destruct (IH (template (Some location)) (snd (http_get H url w))) as [I1 I2].
      rewrite I1, I2. auto.
    + symmetry. apply andb_true_iff. split.
      * apply andb_true_iff. split; [apply Z.leb_le | apply Z.ltb_lt]; lia.
      * cbn [missing]. apply negb_true_iff. apply String.eqb_neq. exact Hl.
Qed.

Lemma slug_matches_object slug x :
  PublishMedia.slug_matches slug x = inr true ->
  truthy x = true /\ exists id, prop x "id" = inr id.
Proof.
  unfold PublishMedia.slug_matches.
  destruct x as [| |b|n|s|items|props]; intros E; cbn in E; try discriminate.
  split; [reflexivity|]. cbn [prop]. eauto.
Qed.

Lemma setFeaturedImage_hit slug url w before x after :
  missing (Some url) = false ->
  Forall (fun m => PublishMedia.slug_matches slug m = inr false) before ->
  PublishMedia.slug_matches slug x = inr true ->
  out (MediaPhases.media_search B H slug w) = Ret (VArr (before ++ x :: after)) ->
  exists id,
    prop x "id" = inr id /\
    PublishMedia.setFeaturedImage B H slug (Some url) w =
    mkResult (Ret id) (final (MediaPhases.media_search B H slug w))
             (events (MediaPhases.media_search B H slug w)).
Proof.
  intros Hm Hb Hx Hs.
  destruct (slug_matches_object slug x Hx) as (Ht & id & Hid).
  exists id. split; [exact Hid|].
  unfold MediaPhases.media_search in *.
  unfold PublishMedia.setFeaturedImage. rewrite Hm. cbv zeta.
  match goal with |- ?l = _ => rewrite (result_eta l) end.
  rewrite out_bind, final_bind, events_bind.
  rewrite out_try, final_try, events_try.
  rewrite out_bind, final_bind, events_bind, Hs.
  cbn [find]. rewrite (find_first_hit _ before x after Hb Hx).
  rewrite out_bind, final_bind, events_bind.
  cbn [lift ret out final events]. rewrite Ht, Hid.
  rewrite out_bind, final_bind, events_bind.
  cbn [lift ret out final events]. rewrite !app_nil_r. reflexivity.
Qed.

Lemma setFeaturedImage_not_found slug url w :
  missing (Some url) = false ->
  no_media_found B H slug w ->
  PublishMedia.setFeaturedImage B H slug (Some url) w =
  let rs := MediaPhases.media_search B H slug w in
  let r := MediaPhases.download_and_upload B H slug url (final rs) in
  mkResult (out r) (final r) (events rs ++ events r).
Proof.
  intros Hm [(e & Hs)|(items & Hs & Hb)].
  - exact (setFeaturedImage_search_failed B H slug url w e Hm Hs).
  - unfold MediaPhases.media_search in *.
    unfold PublishMedia.setFeaturedImage. rewrite Hm. cbv zeta.
    match goal with |- ?l = _ => rewrite (result_eta l) end.
    rewrite out_bind, final_bind, events_bind.
    rewrite out_try, final_try, events_try.
    rewrite out_bind, final_bind, events_bind, Hs.
    cbn [find]. rewrite (find_first_miss _ items Hb).
    rewrite out_bind, final_bind, events_bind.
    cbn [lift ret out final events truthy template]. rewrite !app_nil_r. reflexivity.
Qed.

Lemma uploadMedia_run buffer filename contentType w url :
  URL_parse B (PublishMedia.API_BASE B H ++ "/media") = Some url ->
  events (PublishMedia.uploadMedia B H buffer filename contentType w) =
  [ENet (upload_options B H buffer filename contentType url)
        (fst (network H (upload_options B H buffer filename contentType url) w))].
Proof.
  intros Hurl. unfold PublishMedia.uploadMedia. rewrite Hurl.
  fold (upload_options B H buffer filename contentType url).
  rewrite events_bind. unfold send.
  destruct (network H (upload_options B H buffer filename contentType url) w)
    as [res w'].
  cbn [out final events fst app].
  destruct res as [status data| |]; try reflexivity.
  destruct ((200 <=? status) && (status <? 300))%Z; [|reflexivity].
  destruct (JSON_parse B data); reflexivity.
Qed.

Lemma download_and_upload_events slug imageUrl w buffer contentType url :
  out (PublishMedia.downloadImage H imageUrl w) = Ret (buffer, contentType) ->
  URL_parse B (PublishMedia.API_BASE B H ++ "/media") = Some url ->
  exists res,
    events (MediaPhases.download_and_upload B H slug imageUrl w) =
    (EConsole Log ("    Downloading image for " ++ slug ++ "...")
     :: events (PublishMedia.downloadImage H imageUrl w)
     ++ [EConsole Log ("    Uploading to WordPress ("
                       ++ Number_toString ((Z.of_nat (String.length buffer) + 512) / 1024)
                       ++ "KB)...");
         ENet (upload_options B H buffer (slug ++ "-featured.jpg") contentType url) res])%list.
Proof.
  intros Hd Hurl. unfold MediaPhases.download_and_upload.
  eexists.
  rewrite events_bind. cbn [console_log emit out final events app].
  rewrite events_bind, Hd. cbn [fst snd].
  rewrite events_bind. cbn [console_log emit out final events app].
  rewrite events_bind.
  rewrite (uploadMedia_run buffer (slug ++ "-featured.jpg") contentType _ url Hurl).
  destruct (out (PublishMedia.uploadMedia B H buffer (slug ++ "-featured.jpg") contentType
                   (final (PublishMedia.downloadImage H imageUrl w)))) as [media|e|c].
  - destruct (prop media "id"); cbn [lift throw ret events]; rewrite ?app_nil_r;
      reflexivity.
  - reflexivity.
  - reflexivity.
Qed.

End MediaMore.

(** X16.  [downloadImage] makes at most six GETs, the first and five
    redirects followed, and sends no request to the API. *)
Theorem downloadImage_makes_at_most_six_requests :
  forall (W : Type) (H : Host W) (imageUrl : string) (w : W),
    (downloads (events (PublishMedia.downloadImage H imageUrl w)) <= 6)%nat /\
    sent (events (PublishMedia.downloadImage H imageUrl w)) = 0%nat.
Proof. intros. apply doRequest_downloads. Qed.

(** X17.  Against a server that answers every GET with a redirect,
    [downloadImage] follows five of them and rejects with
    [Too many redirects] at the sixth answer: it terminates after exactly
    six GETs. *)
Theorem endless_redirects_end_after_six_requests :
  forall (W : Type) (H : Host W) (imageUrl : string) (w : W),
    always_redirects H ->
    out (PublishMedia.downloadImage H imageUrl w) = Throw (Error "Too many redirects") /\
    downloads (events (PublishMedia.downloadImage H imageUrl w)) = 6%nat.
Proof. intros W H imageUrl w Hloop. exact (doRequest_loop H 6 Hloop imageUrl w). Qed.

Lemma endless_redirects_end_after_six_requests_witness :
  out (PublishMedia.downloadImage (Cases.looping []) "https://example.com/a.jpg"
         Sample.untouched) = Throw (Error "Too many redirects") /\
  downloads (events (PublishMedia.downloadImage (Cases.looping [])
                       "https://example.com/a.jpg" Sample.untouched)) = 6%nat.
Proof.
  apply (endless_redirects_end_after_six_requests (list string) (Cases.looping [])
           "https://example.com/a.jpg" Sample.untouched).
  intros url w. exists 302%Z, "https://example.com/a.jpg", None, EmptyString.
  split; [reflexivity|]. split; [lia | discriminate].
Defined.

(** X18.  An image already in the media library is not uploaded again:
    when the first item of the media search whose slug contains the
    post's slug is found, [setFeaturedImage] returns its id after the
    search alone, with no download and no upload. *)
Theorem image_in_the_library_is_reused :
  forall (W : Type) (B : Builtins) (H : Host W) (slug imageUrl : string) (w : W)
         (before : list value) (x : value) (after : list value),
    missing (Some imageUrl) = false ->
    Forall (fun m => PublishMedia.slug_matches slug m = inr false) before ->
    PublishMedia.slug_matches slug x = inr true ->
    out (MediaPhases.media_search B H slug w) = Ret (VArr (before ++ x :: after)) ->
    exists id,
      prop x "id" = inr id /\
      out (PublishMedia.setFeaturedImage B H slug (Some imageUrl) w) = Ret id /\
      events (PublishMedia.setFeaturedImage B H slug (Some imageUrl) w)
        = events (MediaPhases.media_search B H slug w) /\
      downloads (events (PublishMedia.setFeaturedImage B H slug (Some imageUrl) w)) = 0%nat /\
      count (fun r => String.eqb (r_method r) "POST")
            (events (PublishMedia.setFeaturedImage B H slug (Some imageUrl) w)) = 0%nat.
Proof.
  intros W B H slug imageUrl w before x after Hm Hb Hx Hs.
  destruct (setFeaturedImage_hit B H slug imageUrl w before x after Hm Hb Hx Hs)
    as (id & Hid & E).
  exists id. rewrite E. cbn [out events].
  split; [exact Hid|]. split; [reflexivity|]. split; [reflexivity|].
  pose proof (media_wpRequest_footprint B H
                (fun ev => match ev with
                           | ENet r _ => r_method r = "GET"
                           | _ => False
                           end)
                ("/media?search=" ++ encodeURIComponent B slug ++ "&per_page=5")
                "GET" VNull (fun r res _ Hmeth _ => Hmeth) w) as F.
  unfold MediaPhases.media_search.
  induction F as [|ev evs Hev _ IH]; [split; reflexivity|].
  destruct ev as [r res| | |]; try contradiction.
  destruct IH as [I1 I2]. split; [exact I1|].
  unfold count in *. cbn [requests flat_map app List.filter fst].
  rewrite Hev. cbn. exact I2.
Qed.

(** X19.  What [setFeaturedImage] uploads is what it downloaded: when
    the search has delivered no id and the download returns a buffer
    with a content type, the run of [setFeaturedImage] is the search, the
    download and one POST on [/media] whose body is that buffer, whose
    [Content-Type] is that content type and whose file name is the slug
    followed by [-featured.jpg]. *)
Theorem uploaded_image_is_the_downloaded_one :
  forall (W : Type) (B : Builtins) (H : Host W) (slug imageUrl : string) (w : W)
         (buffer contentType : string) (url : URL),
    missing (Some imageUrl) = false ->
    no_media_found B H slug w ->
    out (PublishMedia.downloadImage H imageUrl
           (final (MediaPhases.media_search B H slug w))) = Ret (buffer, contentType) ->
    URL_parse B (PublishMedia.API_BASE B H ++ "/media") = Some url ->
    exists res,
      events (PublishMedia.setFeaturedImage B H slug (Some imageUrl) w) =
      (events (MediaPhases.media_search B H slug w)
       ++ EConsole Log ("    Downloading image for " ++ slug ++ "...")
       :: events (PublishMedia.downloadImage H imageUrl
                    (final (MediaPhases.media_search B H slug w)))
       ++ [EConsole Log ("    Uploading to WordPress ("
                         ++ Number_toString
                              ((Z.of_nat (String.length buffer) + 512) / 1024)
                         ++ "KB)...");
           ENet (upload_options B H buffer (slug ++ "-featured.jpg") contentType url)
                res])%list.
Proof.
  intros W B H slug imageUrl w buffer contentType url Hm Hn Hd Hurl.
  rewrite (setFeaturedImage_not_found B H slug imageUrl w Hm Hn). cbv zeta. cbn [events].
  destruct (download_and_upload_events B H slug imageUrl _ buffer contentType url Hd Hurl)
    as (res & E).
  exists res. rewrite E. reflexivity.
Qed.

Lemma image_in_the_library_is_reused_witness :
  exists id,
    prop (VObj [("id", VNum 42); ("slug", VStr "y-featured")]) "id" = inr id /\
    out (PublishMedia.setFeaturedImage Cases.platform (Cases.with_library []) "y"
           (Some "https://example.com/ok.jpg") Sample.untouched) = Ret id /\
    events (PublishMedia.setFeaturedImage Cases.platform (Cases.with_library []) "y"
              (Some "https://example.com/ok.jpg") Sample.untouched)
      = events (MediaPhases.media_search Cases.platform (Cases.with_library []) "y"
                  Sample.untouched) /\
    downloads (events (PublishMedia.setFeaturedImage Cases.platform (Cases.with_library [])
                         "y" (Some "https://example.com/ok.jpg") Sample.untouched)) = 0%nat /\
    count (fun r => String.eqb (r_method r) "POST")
          (events (PublishMedia.setFeaturedImage Cases.platform (Cases.with_library [])
                     "y" (Some "https://example.com/ok.jpg") Sample.untouched)) = 0%nat.
Proof.
  apply (image_in_the_library_is_reused (list string) Cases.platform (Cases.with_library [])
           "y" "https://example.com/ok.jpg" Sample.untouched
           [VObj [("id", VNum 41); ("slug", VStr "other-featured")]]
           (VObj [("id", VNum 42); ("slug", VStr "y-featured")]) []).
  - reflexivity.
  - repeat constructor.
  - vm_compute. reflexivity.
  - vm_compute. reflexivity.
Defined.

Lemma uploaded_image_is_the_downloaded_one_witness :
  exists res,
    events (PublishMedia.setFeaturedImage (Sample.platform []) (Sample.site []) "y"
              (Some "https://example.com/ok.jpg") Sample.untouched) =
    (events (MediaPhases.media_search (Sample.platform []) (Sample.site []) "y"
               Sample.untouched)
     ++ EConsole Log ("    Downloading image for " ++ "y" ++ "...")
     :: events (PublishMedia.downloadImage (Sample.site []) "https://example.com/ok.jpg"
                  (final (MediaPhases.media_search (Sample.platform []) (Sample.site [])
                            "y" Sample.untouched)))
     ++ [EConsole Log ("    Uploading to WordPress ("
                       ++ Number_toString ((Z.of_nat (String.length "PNGDATA") + 512) / 1024)
                       ++ "KB)...");
         ENet (upload_options (Sample.platform []) (Sample.site []) "PNGDATA"
                 ("y" ++ "-featured.jpg") "image/png"
                 (mkURL "blog.example.com" "/wp-json/wp/v2/media" EmptyString))
              res])%list.
Proof.
  apply (uploaded_image_is_the_downloaded_one (list string) (Sample.platform [])
           (Sample.site []) "y" "https://example.com/ok.jpg" Sample.untouched
           "PNGDATA" "image/png"
           (mkURL "blog.example.com" "/wp-json/wp/v2/media" EmptyString)).
  - reflexivity.
  - left. eexists. vm_compute. reflexivity.
  - vm_compute. reflexivity.
  - vm_compute. reflexivity.
Defined.

Section MediaPayload.
Context {W : Type} (B : Builtins) (H : Host W).

Lemma media_postData_fields p html iso tagIds categoryIds mediaId r :
  r_body r = Some (JsonText (MediaPhases.postData p html iso tagIds categoryIds mediaId)) ->
  body_keys r =
    (present "title" (title p) ++ present "slug" (slug p) ++ ["content"]
     ++ present "excerpt" (excerpt p) ++ ["status"; "date"]
     ++ (if (0 <? List.length tagIds)%nat then ["tags"] else [])
     ++ (if (0 <? List.length categoryIds)%nat then ["categories"] else [])
     ++ (if truthy mediaId then ["featured_media"] else []))%list /\
  body_field "title" r = option_map VStr (title p) /\
  body_field "slug" r = option_map VStr (slug p) /\
  body_field "excerpt" r = option_map VStr (excerpt p) /\
  body_field "status" r = Some (VStr "publish") /\
  body_field "tags" r
    = (if (0 <? List.length tagIds)%nat then Some (VArr tagIds) else None) /\
  body_field "categories" r
    = (if (0 <? List.length categoryIds)%nat then Some (VArr categoryIds) else None) /\
  body_field "featured_media" r = (if truthy mediaId then Some mediaId else None).
Proof.
  intros E. unfold body_keys, body_field. rewrite E. unfold MediaPhases.postData.
  assert (Hm : truthy mediaId = true ->
               match mediaId with VUndef => false | _ => true end = true)
    by (destruct mediaId; cbn; congruence).
  destruct (title p), (slug p), (excerpt p),
    (0 <? List.length tagIds)%nat, (0 <? List.length categoryIds)%nat,
    (truthy mediaId);
    cbn [app stringified List.filter snd str_or_undef present List.map fst lookup
         String.eqb Ascii.eqb Bool.eqb option_map];
    rewrite ?Hm by reflexivity; cbn; repeat split.
Qed.

Lemma media_publishPost_payload p w r res :
  In (ENet r res) (events (PublishMedia.publishPost B H p w)) ->
  is_upsert r = true ->
  exists html iso tagIds categoryIds mediaId,
    r_body r = Some (JsonText (MediaPhases.postData p html iso tagIds categoryIds mediaId)).
Proof.
  intros Hin Hup.
  set (P := fun ev => match ev with
                      | ENet r _ =>
                          is_upsert r = true ->
                          exists html iso tagIds categoryIds mediaId,
                            r_body r =
                              Some (JsonText (MediaPhases.postData p html iso tagIds
                                                categoryIds mediaId))
                      | _ => True
                      end).
  assert (Hno : forall ev, no_upsert ev -> P ev).
  { intros [r0 res0| | |]; cbn; auto. intros Hn Hu. congruence. }
  assert (Hfp : footprint P (PublishMedia.publishPost B H p)).
  { intros w'. rewrite media_publishPost_phases. revert w'.
    change (footprint P
      (if negb (existsSync H (Phases.mdPath B H p)) then
         console_warn ("  Skipping " ++ dq ++ template (slug p) ++ dq ++ " - file not found")
       else
         bind (lift (readFileSync H (Phases.mdPath B H p))) (fun markdown =>
         bind (PublishMedia.publishPost_tags B H (Phases.tag_names p) []) (fun tagIds =>
         bind (MediaPhases.category_step B H) (fun categoryIds =>
         bind (MediaPhases.image_step B H p) (fun featuredMediaId =>
         bind (match Date_toISOString B (date p) with
               | Some d => ret d
               | None => throw (RangeError "Invalid time value")
               end) (fun isoDate =>
         MediaPhases.upsert B H p
           (MediaPhases.postData p (marked_parse B markdown) isoDate tagIds categoryIds
              featuredMediaId)))))))).
    apply footprint_if; [apply footprint_emit; exact I|].
    apply footprint_bind; [apply footprint_lift|]. intros markdown.
    apply footprint_bind;
      [apply (footprint_weaken _ _ _ Hno), media_tags_no_upsert | intros tagIds].
    apply footprint_bind;
      [apply (footprint_weaken _ _ _ Hno), media_category_no_upsert | intros categoryIds].
    apply footprint_bind;
      [apply (footprint_weaken _ _ _ Hno), image_step_no_upsert | intros mediaId].
    apply footprint_bind;
      [destruct (Date_toISOString B (date p));
         [apply footprint_ret | apply footprint_throw] | intros iso].
    eapply footprint_weaken; [|apply (media_upsert_carries B H p); reflexivity].
    intros [r0 res0| | |]; cbn; auto. intros Hc Hu.
    exists (marked_parse B markdown), iso, tagIds, categoryIds, mediaId. exact (Hc Hu). }
  specialize (Hfp w). rewrite Forall_forall in Hfp.
  exact (Hfp _ Hin Hup).
Qed.

Lemma media_tags_silent tags : forall acc,
  footprint (fun ev => match ev with EConsole _ _ => False | _ => True end)
            (PublishMedia.publishPost_tags B H tags acc).
Proof.
  induction tags as [|t rest IH]; intros acc; cbn [PublishMedia.publishPost_tags].
  - apply footprint_ret.
  - unfold PublishMedia.getOrCreateTag.
    footprints;
      first [apply IH | apply media_wpRequest_footprint; intros; exact I].
Qed.

Lemma media_category_silent :
  footprint (fun ev => match ev with EConsole _ _ => False | _ => True end)
            (MediaPhases.category_step B H).
Proof.
  unfold MediaPhases.category_step, PublishMedia.getOrCreateCategory.
  footprints; apply media_wpRequest_footprint; intros; exact I.
Qed.

End MediaPayload.

(** X20.  In the variant with featured images every create and update
    carries title, slug, content, excerpt, status (set to [publish]) and
    date, in this order, followed by [tags], [categories] and
    [featured_media] only where there is something to send: a title,
    slug or excerpt that the entry lacks is undefined and left out of the
    JSON text, so the six are all there when the entry has the three; an
    empty list of tags or of categories is never sent, and
    [featured_media] is sent only with an id that is not null. *)
Theorem media_payload_leaves_out_what_is_empty :
  forall (W : Type) (B : Builtins) (H : Host W) (p : PostIndexEntry) (w : W)
         (r : request) (res : net_result),
    In (ENet r res) (events (PublishMedia.publishPost B H p w)) ->
    is_upsert r = true ->
    body_keys r =
      (present "title" (title p) ++ present "slug" (slug p) ++ ["content"]
       ++ present "excerpt" (excerpt p) ++ ["status"; "date"]
       ++ (match body_field "tags" r with Some _ => ["tags"] | None => [] end)
       ++ (match body_field "categories" r with Some _ => ["categories"] | None => [] end)
       ++ (match body_field "featured_media" r with
           | Some _ => ["featured_media"]
           | None => []
           end))%list /\
    (title p <> None -> slug p <> None -> excerpt p <> None ->
     body_keys r =
       (fixed_keys
        ++ (match body_field "tags" r with Some _ => ["tags"] | None => [] end)
        ++ (match body_field "categories" r with
            | Some _ => ["categories"]
            | None => []
            end)
        ++ (match body_field "featured_media" r with
            | Some _ => ["featured_media"]
            | None => []
            end))%list) /\
    body_field "title" r = option_map VStr (title p) /\
    body_field "slug" r = option_map VStr (slug p) /\
    body_field "excerpt" r = option_map VStr (excerpt p) /\
    body_field "status" r = Some (VStr "publish") /\
    body_field "tags" r <> Some (VArr []) /\
    body_field "categories" r <> Some (VArr []) /\
    (forall v, body_field "featured_media" r = Some v -> truthy v = true).
Proof.
  intros W B H p w r res Hin Hup.
  destruct (media_publishPost_payload B H p w r res Hin Hup)
    as (html & iso & tagIds & categoryIds & mediaId & Hbody).
  destruct (media_postData_fields p html iso tagIds categoryIds mediaId r Hbody)
    as (Hk & F1 & F2 & F3 & Hs & Ht & Hc & Hm).
  rewrite Hk, Ht, Hc, Hm.
  split; [|split; [|repeat (split; [assumption|])]].
  - destruct tagIds, categoryIds, (truthy mediaId); reflexivity.
  - intros T S E. destruct (title p), (slug p), (excerpt p); try contradiction.
    destruct tagIds, categoryIds, (truthy mediaId); reflexivity.
  - split; [|split].
    + destruct tagIds; cbn; discriminate.
    + destruct categoryIds; cbn; discriminate.
    + intros v. destruct (truthy mediaId) eqn:E; [|discriminate].
      intros [= <-]. exact E.
Qed.

Lemma media_payload_leaves_out_what_is_empty_witness :
  exists r res,
    In (ENet r res)
       (events (PublishMedia.publishPost (Sample.platform [Sample.x_post])
                  (Sample.site [Sample.x_post]) Sample.x_post Sample.untouched)) /\
    is_upsert r = true /\
    body_keys r = ["title"; "slug"; "content"; "excerpt"; "status"; "date"; "categories"].
Proof.
  assert (E : exists r res,
             In (ENet r res)
                (events (PublishMedia.publishPost (Sample.platform [Sample.x_post])
                           (Sample.site [Sample.x_post]) Sample.x_post Sample.untouched)) /\
             is_upsert r = true /\
             body_field "tags" r = None /\
             body_field "categories" r = Some (VArr [VNum 3]) /\
             body_field "featured_media" r = None).
  { do 2 eexists. split; [lazy; do 6 right; left; reflexivity|].
    repeat split. }
  destruct E as (r & res & Hin & Hup & Ht & Hc & Hm).
  exists r, res. split; [exact Hin|]. split; [exact Hup|].
  destruct (media_payload_leaves_out_what_is_empty (list string)
              (Sample.platform [Sample.x_post]) (Sample.site [Sample.x_post])
              Sample.x_post Sample.untouched r res Hin Hup) as (Hk & _).
  rewrite Hk, Ht, Hc, Hm. reflexivity.
Defined.

(** X21.  In the variant with featured images a tag or the category
    that cannot be resolved is dropped without a word: the tag loop and
    the category step always return, and neither writes a line to the
    console. *)
Theorem media_variant_drops_failed_terms_silently :
  forall (W : Type) (B : Builtins) (H : Host W) (tags : list string)
         (acc : list value) (w : W),
    (exists ids, out (PublishMedia.publishPost_tags B H tags acc w) = Ret ids) /\
    (forall s, lines s (events (PublishMedia.publishPost_tags B H tags acc w)) = 0%nat) /\
    (exists ids, out (MediaPhases.category_step B H w) = Ret ids) /\
    (forall s, lines s (events (MediaPhases.category_step B H w)) = 0%nat).
Proof.
  intros W B H tags acc w.
  split; [apply media_tags_returns|].
  split; [intros s; apply lines_none, media_tags_silent|].
  split; [apply media_category_step_returns|].
  intros s. apply lines_none, media_category_silent.
Qed.

(* ===================================================================== *)
(** ** How [wpRequest] of [src/scripts/publish.js] settles *)
(* ===================================================================== *)

Lemma substring_is_a_prefix (n : nat) : forall s : string,
  String.prefix (String.substring 0 n s) s = true /\
  (String.length (String.substring 0 n s) <= n)%nat.
Proof.
  induction n as [|n IH]; intros s.
  - destruct s; cbn; split; auto.
  - destruct s as [|c s]; cbn [String.substring String.prefix String.length].
    + split; [reflexivity | lia].
    + destruct (IH s) as [I1 I2].
      destruct (ascii_dec c c) as [_|Hne]; [|contradiction].
      split; [exact I1 | lia].
Qed.

(** X22.  [wpRequest] returns exactly on an answer with a status from
    200 to 299, with the parsed body or else its text; everything else
    is thrown as an [Error] whose message names the method and the
    endpoint: a status outside that range with at most the first 200
    characters of the body, a network error with its message, a timeout.
    When the URL cannot be built it throws before anything is sent. *)
Theorem wpRequest_returns_on_success_and_names_the_request_otherwise :
  forall (W : Type) (B : Builtins) (H : Host W) (e m : string) (b : value) (w : W),
    (events (Publish.wpRequest B H e m b w) = [] /\
     out (Publish.wpRequest B H e m b w) = Throw (TypeError "Invalid URL") /\
     URL_parse B (Publish.API_BASE H ++ e) = None) \/
    exists r res,
      events (Publish.wpRequest B H e m b w) = [ENet r res] /\
      match res with
      | Response status data =>
          if ((200 <=? status) && (status <? 300))%Z then
            out (Publish.wpRequest B H e m b w) =
            Ret (match JSON_parse B data with Some v => v | None => VStr data end)
          else
            exists shown,
              out (Publish.wpRequest B H e m b w) =
              Throw (Error ("API " ++ Number_toString status ++ " on " ++ m ++ " " ++ e
                            ++ ": " ++ shown)) /\
              String.prefix shown data = true /\
              (String.length shown <= 200)%nat
      | NetworkError _ msg =>
          out (Publish.wpRequest B H e m b w) =
          Throw (Error ("Network error on " ++ m ++ " " ++ e ++ ": " ++ msg))
      | Timeout =>
          out (Publish.wpRequest B H e m b w) =
          Throw (Error ("Timeout on " ++ m ++ " " ++ e))
      end.
Proof.
  intros W B H e m b w.
  destruct (URL_parse B (Publish.API_BASE H ++ e)) as [url|] eqn:Hurl.
  - right. rewrite (wpRequest_run B H e m b w url Hurl). cbn [out events].
    exists (options B H e m b url), (fst (network H (options B H e m b url) w)).
    split; [reflexivity|].
    destruct (fst (network H (options B H e m b url) w)) as [status data|code msg|];
      cbn [Publish.settle settled]; try reflexivity.
    destruct ((200 <=? status) && (status <? 300))%Z.
    + destruct (JSON_parse B data); reflexivity.
    + exists (String.substring 0 200 data). split; [reflexivity|].
      apply substring_is_a_prefix.
  - left. rewrite (wpRequest_unsent B H e m b w Hurl). auto.
Qed.

(* ===================================================================== *)
(** ** The existence check decides between update and create (C1) *)
(* ===================================================================== *)

Section Check.
Context {W : Type} (B : Builtins) (H : Host W).

Lemma getExistingPost_run s w url :
  URL_parse B (Publish.API_BASE H ++ Phases.check_endpoint s) = Some url ->
  Publish.getExistingPost B H s w =
  mkResult (settled (Remote.counterpart B H s url w))
           (snd (network H (Remote.check_request B H s url) w))
           [ENet (Remote.check_request B H s url)
                 (fst (network H (Remote.check_request B H s url) w))].
Proof.
  intros Hurl. unfold Publish.getExistingPost. fold (Phases.check_endpoint s).
  rewrite (result_eta (bind _ _ _)).
  rewrite out_bind, final_bind, events_bind.
  rewrite (wpRequest_run B H (Phases.check_endpoint s) "GET" VNull w url Hurl).
  fold (Remote.check_request B H s url).
  unfold Remote.counterpart, Phases.found.
  cbn [out final events].
  destruct (Publish.settle B (Phases.check_endpoint s) "GET"
              (fst (network H (Remote.check_request B H s url) w))) as [e|posts];
    cbn [settled out final events]; [reflexivity|].
  rewrite out_bind, final_bind, events_bind.
  destruct (prop posts "length") as [e|len];
    cbn [lift throw ret settled out final events]; rewrite ?app_nil_r; reflexivity.
Qed.

Lemma upsert_check_failed p data w url e :
  URL_parse B (Publish.API_BASE H ++ Phases.check_endpoint (template (slug p))) = Some url ->
  Remote.counterpart B H (template (slug p)) url w = inl e ->
  Phases.upsert B H p data w =
  mkResult (Throw e)
    (snd (network H (Remote.check_request B H (template (slug p)) url) w))
    [ENet (Remote.check_request B H (template (slug p)) url)
          (fst (network H (Remote.check_request B H (template (slug p)) url) w))].
Proof.
  intros Hurl Hc. unfold Phases.upsert.
  pose proof (getExistingPost_run (template (slug p)) w url Hurl) as E.
  rewrite Hc in E. cbn [settled] in E.
  rewrite bind_Throw with (e := e) by (rewrite E; reflexivity).
  rewrite E. reflexivity.
Qed.

Lemma upsert_found p data w url existing id :
  URL_parse B (Publish.API_BASE H ++ Phases.check_endpoint (template (slug p))) = Some url ->
  Remote.counterpart B H (template (slug p)) url w = inr existing ->
  truthy existing = true ->
  prop existing "id" = inr id ->
  Phases.upsert B H p data w =
  let r := bind (Publish.wpRequest B H ("/posts/" ++ ToString id) "PUT" data)
                (fun _ => console_log ("  Updated: " ++ dq ++ template (title p) ++ dq))
                (snd (network H (Remote.check_request B H (template (slug p)) url) w)) in
  mkResult (out r) (final r)
    (ENet (Remote.check_request B H (template (slug p)) url)
          (fst (network H (Remote.check_request B H (template (slug p)) url) w))
     :: events r).
Proof.
  intros Hurl Hc Ht Hid. cbv zeta. unfold Phases.upsert.
  pose proof (getExistingPost_run (template (slug p)) w url Hurl) as E.
  rewrite Hc in E. cbn [settled] in E.
  rewrite bind_Ret with (a := existing) by (rewrite E; reflexivity).
  rewrite E. cbn [out final events app]. rewrite Ht, Hid.
  rewrite bind_Ret with (a := id) by reflexivity.
  cbn [lift ret out final events app]. reflexivity.
Qed.

Lemma upsert_absent p data w url existing :
  URL_parse B (Publish.API_BASE H ++ Phases.check_endpoint (template (slug p))) = Some url ->
  Remote.counterpart B H (template (slug p)) url w = inr existing ->
  truthy existing = false ->
  Phases.upsert B H p data w =
  let r := bind (Publish.wpRequest B H "/posts" "POST" data)
                (fun _ => console_log ("  Published: " ++ dq ++ template (title p) ++ dq))
                (snd (network H (Remote.check_request B H (template (slug p)) url) w)) in
  mkResult (out r) (final r)
    (ENet (Remote.check_request B H (template (slug p)) url)
          (fst (network H (Remote.check_request B H (template (slug p)) url) w))
     :: events r).
Proof.
  intros Hurl Hc Ht. cbv zeta. unfold Phases.upsert.
  pose proof (getExistingPost_run (template (slug p)) w url Hurl) as E.
  rewrite Hc in E. cbn [settled] in E.
  rewrite bind_Ret with (a := existing) by (rewrite E; reflexivity).
  rewrite E. cbn [out final events app]. rewrite Ht. reflexivity.
Qed.

(** A write and its console line: one request when the URL can be
    built, none otherwise. *)
Lemma write_run e m data line w :
  match URL_parse B (Publish.API_BASE H ++ e) with
  | Some url =>
      exists res tail,
        events (bind (Publish.wpRequest B H e m data) (fun _ => console_log line) w)
        = ENet (options B H e m data url) res :: tail /\
        requests tail = []
  | None =>
      events (bind (Publish.wpRequest B H e m data) (fun _ => console_log line) w) = []
  end.
Proof.
  destruct (URL_parse B (Publish.API_BASE H ++ e)) as [url|] eqn:Hurl.
  - rewrite events_bind, (wpRequest_run B H e m data w url Hurl). cbn [out events final].
    eexists. destruct (settled _).
    + exists [EConsole Log line]. split; reflexivity.
    + exists []. split; reflexivity.
    + exists []. split; reflexivity.
  - rewrite events_bind, (wpRequest_unsent B H e m data w Hurl). reflexivity.
Qed.

Lemma check_on_posts s url : 
  String.prefix "/posts" (r_endpoint (Remote.check_request B H s url)) = true.
Proof. reflexivity. Qed.

(** The traffic of an entry on the posts resource is that of its upsert,
    made in the world the tag loop and the category step leave. *)
Lemma publishPost_reaches_upsert p w markdown isoDate :
  existsSync H (Phases.mdPath B H p) = true ->
  readFileSync H (Phases.mdPath B H p) = inr markdown ->
  Date_toISOString B (date p) = Some isoDate ->
  exists tagIds categoryIds,
    posts_requests (events (Publish.publishPost B H p w)) =
    posts_requests
      (events (Phases.upsert B H p
                 (Phases.postData p (marked_parse B markdown) isoDate tagIds categoryIds)
                 (Remote.world_at_check B H p w))) /\
    out (Publish.publishPost B H p w) =
    out (Phases.upsert B H p
           (Phases.postData p (marked_parse B markdown) isoDate tagIds categoryIds)
           (Remote.world_at_check B H p w)).
Proof.
  intros E R D.
  destruct (publishPost_read B H p w markdown E R)
    as (tagIds & categoryIds & _ & _ & Heq).
  exists tagIds, categoryIds. rewrite Heq, D. cbv zeta. cbn [events out].
  rewrite !posts_requests_app, posts_requests_tags, posts_requests_category.
  split; reflexivity.
Qed.

Lemma postData_slug p html iso tagIds categoryIds e m url :
  body_field "slug" (options B H e m (Phases.postData p html iso tagIds categoryIds) url)
  = option_map VStr (slug p).
Proof.
  unfold body_field, options, Phases.postData. cbn [r_body truthy].
  destruct (title p), (slug p), (excerpt p); reflexivity.
Qed.

Lemma entry_found p w markdown isoDate url existing :
  existsSync H (Phases.mdPath B H p) = true ->
  readFileSync H (Phases.mdPath B H p) = inr markdown ->
  Date_toISOString B (date p) = Some isoDate ->
  URL_parse B (Publish.API_BASE H ++ Phases.check_endpoint (template (slug p))) = Some url ->
  Remote.counterpart B H (template (slug p)) url (Remote.world_at_check B H p w)
    = inr existing ->
  truthy existing = true ->
  count is_create (events (Publish.publishPost B H p w)) = 0%nat /\
  exists id,
    prop existing "id" = inr id /\
    match URL_parse B (Publish.API_BASE H ++ "/posts/" ++ ToString id) with
    | Some url' =>
        exists data res',
          posts_requests (events (Publish.publishPost B H p w)) =
          [(Remote.check_request B H (template (slug p)) url,
            fst (network H (Remote.check_request B H (template (slug p)) url)
                   (Remote.world_at_check B H p w)));
           (options B H ("/posts/" ++ ToString id) "PUT" data url', res')] /\
          body_field "slug" (options B H ("/posts/" ++ ToString id) "PUT" data url')
          = option_map VStr (slug p)
    | None =>
        posts_requests (events (Publish.publishPost B H p w)) =
        [(Remote.check_request B H (template (slug p)) url,
          fst (network H (Remote.check_request B H (template (slug p)) url)
                 (Remote.world_at_check B H p w)))]
    end.
Proof.
  intros E R D Hurl Hc Ht.
  destruct (publishPost_reaches_upsert p w markdown isoDate E R D)
    as (tagIds & categoryIds & Heq & _).
  destruct (truthy_prop existing "id" Ht) as [id Hid].
  rewrite count_create_posts, Heq.
  rewrite (upsert_found p _ _ url existing id Hurl Hc Ht Hid). cbv zeta. cbn [events].
  pose proof (write_run ("/posts/" ++ ToString id) "PUT"
                (Phases.postData p (marked_parse B markdown) isoDate tagIds categoryIds)
                ("  Updated: " ++ dq ++ template (title p) ++ dq)
                (snd (network H (Remote.check_request B H (template (slug p)) url)
                        (Remote.world_at_check B H p w)))) as Hw.
  destruct (URL_parse B (Publish.API_BASE H ++ "/posts/" ++ ToString id)) as [url'|] eqn:Hurl'.
  - destruct Hw as (res' & tail & Hev & Hreq). rewrite Hev.
    match goal with |- context [ENet ?c ?r :: ENet ?wr res' :: tail] =>
      change (ENet c r :: ENet wr res' :: tail)
        with ([ENet c r] ++ (ENet wr res' :: tail))%list
    end.
    rewrite posts_requests_app.
    rewrite (posts_requests_one _ _ []); [|apply check_on_posts|reflexivity].
    rewrite (posts_requests_one _ _ tail); [|reflexivity|exact Hreq].
    split; [reflexivity|].
    exists id. split; [exact Hid|]. rewrite Hurl'.
    eexists. exists res'. split; [reflexivity|]. apply postData_slug.
  - rewrite Hw.
    rewrite (posts_requests_one _ _ []); [|apply check_on_posts|reflexivity].
    split; [reflexivity|].
    exists id. split; [exact Hid|]. rewrite Hurl'. reflexivity.
Qed.

Lemma entry_absent p w markdown isoDate url existing url' :
  existsSync H (Phases.mdPath B H p) = true ->
  readFileSync H (Phases.mdPath B H p) = inr markdown ->
  Date_toISOString B (date p) = Some isoDate ->
  URL_parse B (Publish.API_BASE H ++ Phases.check_endpoint (template (slug p))) = Some url ->
  Remote.counterpart B H (template (slug p)) url (Remote.world_at_check B H p w)
    = inr existing ->
  truthy existing = false ->
  URL_parse B (Publish.API_BASE H ++ "/posts") = Some url' ->
  count is_create (events (Publish.publishPost B H p w)) = 1%nat /\
  exists data res',
    posts_requests (events (Publish.publishPost B H p w)) =
    [(Remote.check_request B H (template (slug p)) url,
      fst (network H (Remote.check_request B H (template (slug p)) url)
             (Remote.world_at_check B H p w)));
     (options B H "/posts" "POST" data url', res')] /\
    body_field "slug" (options B H "/posts" "POST" data url') = option_map VStr (slug p).
Proof.
  intros E R D Hurl Hc Ht Hurl'.
  destruct (publishPost_reaches_upsert p w markdown isoDate E R D)
    as (tagIds & categoryIds & Heq & _).
  rewrite count_create_posts, Heq.
  rewrite (upsert_absent p _ _ url existing Hurl Hc Ht). cbv zeta. cbn [events].
  pose proof (write_run "/posts" "POST"
                (Phases.postData p (marked_parse B markdown) isoDate tagIds categoryIds)
                ("  Published: " ++ dq ++ template (title p) ++ dq)
                (snd (network H (Remote.check_request B H (template (slug p)) url)
                        (Remote.world_at_check B H p w)))) as Hw.
  rewrite Hurl' in Hw. destruct Hw as (res' & tail & Hev & Hreq). rewrite Hev.
  match goal with |- context [ENet ?c ?r :: ENet ?wr res' :: tail] =>
    change (ENet c r :: ENet wr res' :: tail)
      with ([ENet c r] ++ (ENet wr res' :: tail))%list
  end.
  rewrite posts_requests_app.
  rewrite (posts_requests_one _ _ []); [|apply check_on_posts|reflexivity].
  rewrite (posts_requests_one _ _ tail); [|reflexivity|exact Hreq].
  split; [reflexivity|].
  eexists. exists res'. split; [reflexivity|]. apply postData_slug.
Qed.

Lemma entry_check_failed p w markdown isoDate url e :
  existsSync H (Phases.mdPath B H p) = true ->
  readFileSync H (Phases.mdPath B H p) = inr markdown ->
  Date_toISOString B (date p) = Some isoDate ->
  URL_parse B (Publish.API_BASE H ++ Phases.check_endpoint (template (slug p))) = Some url ->
  Remote.counterpart B H (template (slug p)) url (Remote.world_at_check B H p w) = inl e ->
  posts_requests (events (Publish.publishPost B H p w)) =
  [(Remote.check_request B H (template (slug p)) url,
    fst (network H (Remote.check_request B H (template (slug p)) url)
           (Remote.world_at_check B H p w)))] /\
  out (Publish.publishPost B H p w) = Throw e.
Proof.
  intros E R D Hurl Hc.
  destruct (publishPost_reaches_upsert p w markdown isoDate E R D)
    as (tagIds & categoryIds & Heq & Hout).
  rewrite Heq, Hout, (upsert_check_failed p _ _ url e Hurl Hc). cbn [events out].
  rewrite (posts_requests_one _ _ []); [|apply check_on_posts|reflexivity].
  split; reflexivity.
Qed.

Lemma entry_without_check p w :
  Phases.readable B H p = false \/
  Date_toISOString B (date p) = None \/
  URL_parse B (Publish.API_BASE H ++ Phases.check_endpoint (template (slug p))) = None ->
  posts_requests (events (Publish.publishPost B H p w)) = [].
Proof.
  intros Hno.
  destruct (existsSync H (Phases.mdPath B H p)) eqn:E.
  2:{ rewrite (publishPost_skipped B H p w E). reflexivity. }
  destruct (readFileSync H (Phases.mdPath B H p)) as [e|markdown] eqn:R.
  { rewrite (publishPost_unreadable B H p w e E R). reflexivity. }
  destruct (publishPost_read B H p w markdown E R)
    as (tagIds & categoryIds & _ & _ & Heq).
  rewrite Heq. cbv zeta.
  destruct (Date_toISOString B (date p)) as [isoDate|] eqn:D; cbn [events];
    rewrite !posts_requests_app, posts_requests_tags, posts_requests_category.
  - destruct Hno as [Hr|[Hd|Hurl]].
    + unfold Phases.readable in Hr. rewrite E, R in Hr. discriminate.
    + discriminate.
    + unfold Phases.upsert.
      rewrite events_bind, (getExistingPost_unsent B H _ _ Hurl). reflexivity.
  - reflexivity.
Qed.

Lemma main_loop_traffic posts : forall a b w,
  posts_requests (events (Publish.main_loop B H posts a b w))
  = Remote.run_traffic B H posts w.
Proof.
  induction posts as [|p rest IH]; intros a b w; [reflexivity|].
  cbn [Remote.run_traffic].
  destruct (out (Publish.publishPost B H p w)) as [[]|e|c] eqn:E.
  - rewrite (main_loop_ok B H p rest a b w E). cbn [events].
    rewrite !posts_requests_app, posts_requests_delay, IH, app_nil_r. reflexivity.
  - rewrite (main_loop_failed B H p rest a b w e E). cbn [events].
    rewrite !posts_requests_app, posts_requests_console, IH, app_nil_r. reflexivity.
  - exfalso. exact (publishPost_no_exit B H p w c E).
Qed.

(** *** What the requests of a run leave of the remote *)

Section Kept.
Variable I : W -> Prop.
Hypothesis Hnet : forall r w, I w -> I (snd (network H r w)).

Lemma preserves_ret {A} (a : A) : Remote.preserves I (ret a).
Proof. intros w Hw. exact Hw. Qed.

Lemma preserves_throw {A} e : Remote.preserves (A:=A) I (throw e).
Proof. intros w Hw. exact Hw. Qed.

Lemma preserves_lift {A} (r : exn + A) : Remote.preserves I (lift r).
Proof. destruct r; intros w Hw; exact Hw. Qed.

Lemma preserves_emit ev : Remote.preserves I (emit ev).
Proof. intros w Hw. exact Hw. Qed.

Lemma preserves_bind {A C} (m : M W A) (k : A -> M W C) :
  Remote.preserves I m -> (forall a, Remote.preserves I (k a)) ->
  Remote.preserves I (bind m k).
Proof.
  intros Hm Hk w Hw. rewrite final_bind. specialize (Hm w Hw).
  destruct (out (m w)); auto. apply Hk. exact Hm.
Qed.

Lemma preserves_try {A} (m : M W A) h :
  Remote.preserves I m -> (forall e, Remote.preserves I (h e)) ->
  Remote.preserves I (try_catch m h).
Proof.
  intros Hm Hh w Hw. rewrite final_try. specialize (Hm w Hw).
  destruct (out (m w)); auto. apply Hh. exact Hm.
Qed.

Lemma preserves_if {A} (c : bool) (m1 m2 : M W A) :
  Remote.preserves I m1 -> Remote.preserves I m2 ->
  Remote.preserves I (if c then m1 else m2).
Proof. destruct c; auto. Qed.

Lemma preserves_send r : Remote.preserves I (send H r).
Proof.
  intros w Hw. unfold send. specialize (Hnet r w Hw).
  destruct (network H r w). exact Hnet.
Qed.

Ltac preserving :=
  repeat match goal with
    | |- forall _, _ => intro
    | |- Remote.preserves _ (bind _ _) => apply preserves_bind
    | |- Remote.preserves _ (try_catch _ _) => apply preserves_try
    | |- Remote.preserves _ (if _ then _ else _) => apply preserves_if
    | |- Remote.preserves _ (ret _) => apply preserves_ret
    | |- Remote.preserves _ (throw _) => apply preserves_throw
    | |- Remote.preserves _ (lift _) => apply preserves_lift
    | |- Remote.preserves _ (console_log _) => apply preserves_emit
    | |- Remote.preserves _ (console_warn _) => apply preserves_emit
    | |- Remote.preserves _ (console_error _) => apply preserves_emit
    | |- Remote.preserves _ (delay _) => apply preserves_emit
    | |- Remote.preserves _ (send _ _) => apply preserves_send
    | |- Remote.preserves _ (match ?x with _ => _ end) => destruct x
    end.

Lemma wpRequest_preserves e m b : Remote.preserves I (Publish.wpRequest B H e m b).
Proof. unfold Publish.wpRequest. preserving. Qed.

Lemma getOrCreateTag_preserves t : Remote.preserves I (Publish.getOrCreateTag B H t).
Proof. unfold Publish.getOrCreateTag. preserving; apply wpRequest_preserves. Qed.

Lemma publishPost_tags_preserves tags : forall acc,
  Remote.preserves I (Publish.publishPost_tags B H tags acc).
Proof.
  induction tags as [|t rest IH]; intros acc; cbn [Publish.publishPost_tags].
  - apply preserves_ret.
  - preserving; first [apply IH | apply getOrCreateTag_preserves].
Qed.

Lemma category_step_preserves : Remote.preserves I (Phases.category_step B H).
Proof.
  unfold Phases.category_step, Publish.getOrCreateCategory.
  preserving; apply wpRequest_preserves.
Qed.

Lemma upsert_preserves p data : Remote.preserves I (Phases.upsert B H p data).
Proof.
  unfold Phases.upsert, Publish.getExistingPost.
  preserving; apply wpRequest_preserves.
Qed.

Lemma publishPost_preserves p : Remote.preserves I (Publish.publishPost B H p).
Proof.
  intros w. rewrite publishPost_phases. revert w.
  change (Remote.preserves I
    (if negb (existsSync H (Phases.mdPath B H p)) then
     console_warn ("  Skipping " ++ dq ++ template (slug p) ++ dq
                   ++ " - markdown file not found")
   else
     bind (lift (readFileSync H (Phases.mdPath B H p))) (fun markdown =>
     bind (Publish.publishPost_tags B H (Phases.tag_names p) []) (fun tagIds =>
     bind (Phases.category_step B H) (fun categoryIds =>
     bind (match Date_toISOString B (date p) with
           | Some d => ret d
           | None => throw (RangeError "Invalid time value")
           end) (fun isoDate =>
     Phases.upsert B H p
       (Phases.postData p (marked_parse B markdown) isoDate tagIds categoryIds))))))).
  preserving;
    first [ apply publishPost_tags_preserves | apply category_step_preserves
          | apply upsert_preserves ].
Qed.

Lemma world_at_check_preserves p w : I w -> I (Remote.world_at_check B H p w).
Proof.
  intros Hw. unfold Remote.world_at_check.
  apply category_step_preserves, publishPost_tags_preserves. exact Hw.
Qed.

End Kept.

Lemma entry_held_is_not_created (holds : W -> string -> Prop) p w :
  Remote.reports B H holds -> Remote.keeps H holds ->
  holds w (template (slug p)) ->
  count is_create (events (Publish.publishPost B H p w)) = 0%nat.
Proof.
  intros Hrep Hkeep Hw.
  destruct (Phases.readable B H p) eqn:Hr.
  2:{ rewrite count_create_posts, (entry_without_check p w); auto. }
  destruct (Date_toISOString B (date p)) as [isoDate|] eqn:D.
  2:{ rewrite count_create_posts, (entry_without_check p w); auto. }
  destruct (URL_parse B (Publish.API_BASE H
                         ++ Phases.check_endpoint (template (slug p)))) as [url|] eqn:Hurl.
  2:{ rewrite count_create_posts, (entry_without_check p w); auto. }
  unfold Phases.readable in Hr. apply andb_true_iff in Hr. destruct Hr as [E R].
  destruct (readFileSync H (Phases.mdPath B H p)) as [e|markdown] eqn:R'; [discriminate|].
  assert (Hw' : holds (Remote.world_at_check B H p w) (template (slug p))).
  { apply (world_at_check_preserves (fun w => holds w (template (slug p)))); [|exact Hw].
    intros r w0. apply Hkeep. }
  destruct (Hrep _ _ url Hw' Hurl) as (existing & Hc & Ht).
  exact (proj1 (entry_found p w markdown isoDate url existing E R' D Hurl Hc Ht)).
Qed.

Lemma run_over_held_posts_creates_nothing (holds : W -> string -> Prop) posts :
  Remote.reports B H holds -> Remote.keeps H holds ->
  forall a b w,
    (forall p, In p posts -> holds w (template (slug p))) ->
    count is_create (events (Publish.main_loop B H posts a b w)) = 0%nat.
Proof.
  intros Hrep Hkeep. induction posts as [|p rest IH]; intros a b w Hall; [reflexivity|].
  assert (Hp : count is_create (events (Publish.publishPost B H p w)) = 0%nat)
    by (apply (entry_held_is_not_created holds); auto; apply Hall; left; reflexivity).
  assert (Hrest : forall q, In q rest ->
                    holds (final (Publish.publishPost B H p w)) (template (slug q))).
  { intros q Hq.
    apply (publishPost_preserves (fun w => holds w (template (slug q)))).
    - intros r w0. apply Hkeep.
    - apply Hall. right. exact Hq. }
  destruct (out (Publish.publishPost B H p w)) as [[]|e|c] eqn:E.
  - rewrite (main_loop_ok B H p rest a b w E). cbn [events].
    rewrite !count_app, Hp, (IH _ _ _ Hrest). reflexivity.
  - rewrite (main_loop_failed B H p rest a b w e E). cbn [events].
    rewrite !count_app, Hp, (IH _ _ _ Hrest). reflexivity.
  - exfalso. exact (publishPost_no_exit B H p w c E).
Qed.

End Check.

(** C1, as the script has it.  An entry reaches its existence check when
    its markdown file is read and its date converts; the check is made
    in the world the tag loop and the category step leave, for the
    entry's slug and with the status filter [publish,draft,pending].
    When the remote answers it with a post, the entry causes no create at
    all and its one write is a PUT on the [id] of the first post of the
    answer, carrying the slug.  When the remote answers that it holds no
    such post, the entry causes exactly one create, a POST on [/posts]
    carrying the slug, sent right after the check.  When the check fails,
    or the entry does not reach it, nothing is written.  The traffic of a
    run on the posts resource is that of its entries, one after the
    other.  Against a remote that reports the posts it holds and loses
    none, a run over an index whose slugs it all holds creates nothing:
    publishing the same index again makes no duplicate. *)
Theorem C1_check_decides_between_an_update_and_one_create :
  forall (W : Type) (B : Builtins) (H : Host W),
    (forall p w markdown isoDate url existing,
        existsSync H (Phases.mdPath B H p) = true ->
        readFileSync H (Phases.mdPath B H p) = inr markdown ->
        Date_toISOString B (date p) = Some isoDate ->
        URL_parse B (Publish.API_BASE H ++ Phases.check_endpoint (template (slug p)))
          = Some url ->
        Remote.counterpart B H (template (slug p)) url (Remote.world_at_check B H p w)
          = inr existing ->
        truthy existing = true ->
        count is_create (events (Publish.publishPost B H p w)) = 0%nat /\
        exists id,
          prop existing "id" = inr id /\
          match URL_parse B (Publish.API_BASE H ++ "/posts/" ++ ToString id) with
          | Some url' =>
              exists data res',
                posts_requests (events (Publish.publishPost B H p w)) =
                [(Remote.check_request B H (template (slug p)) url,
                  fst (network H (Remote.check_request B H (template (slug p)) url)
                         (Remote.world_at_check B H p w)));
                 (options B H ("/posts/" ++ ToString id) "PUT" data url', res')] /\
                body_field "slug" (options B H ("/posts/" ++ ToString id) "PUT" data url')
                = option_map VStr (slug p)
          | None =>
              posts_requests (events (Publish.publishPost B H p w)) =
              [(Remote.check_request B H (template (slug p)) url,
                fst (network H (Remote.check_request B H (template (slug p)) url)
                       (Remote.world_at_check B H p w)))]
          end) /\
    (forall p w markdown isoDate url existing url',
        existsSync H (Phases.mdPath B H p) = true ->
        readFileSync H (Phases.mdPath B H p) = inr markdown ->
        Date_toISOString B (date p) = Some isoDate ->
        URL_parse B (Publish.API_BASE H ++ Phases.check_endpoint (template (slug p)))
          = Some url ->
        Remote.counterpart B H (template (slug p)) url (Remote.world_at_check B H p w)
          = inr existing ->
        truthy existing = false ->
        URL_parse B (Publish.API_BASE H ++ "/posts") = Some url' ->
        count is_create (events (Publish.publishPost B H p w)) = 1%nat /\
        exists data res',
          posts_requests (events (Publish.publishPost B H p w)) =
          [(Remote.check_request B H (template (slug p)) url,
            fst (network H (Remote.check_request B H (template (slug p)) url)
                   (Remote.world_at_check B H p w)));
           (options B H "/posts" "POST" data url', res')] /\
          body_field "slug" (options B H "/posts" "POST" data url')
          = option_map VStr (slug p)) /\
    (forall p w markdown isoDate url e,
        existsSync H (Phases.mdPath B H p) = true ->
        readFileSync H (Phases.mdPath B H p) = inr markdown ->
        Date_toISOString B (date p) = Some isoDate ->
        URL_parse B (Publish.API_BASE H ++ Phases.check_endpoint (template (slug p)))
          = Some url ->
        Remote.counterpart B H (template (slug p)) url (Remote.world_at_check B H p w)
          = inl e ->
        posts_requests (events (Publish.publishPost B H p w)) =
        [(Remote.check_request B H (template (slug p)) url,
          fst (network H (Remote.check_request B H (template (slug p)) url)
                 (Remote.world_at_check B H p w)))] /\
        out (Publish.publishPost B H p w) = Throw e) /\
    (forall p w,
        Phases.readable B H p = false \/
        Date_toISOString B (date p) = None \/
        URL_parse B (Publish.API_BASE H ++ Phases.check_endpoint (template (slug p)))
          = None ->
        posts_requests (events (Publish.publishPost B H p w)) = []) /\
    (forall posts a b w,
        posts_requests (events (Publish.main_loop B H posts a b w))
        = Remote.run_traffic B H posts w) /\
    (forall (holds : W -> string -> Prop) posts a b w,
        Remote.reports B H holds ->
        Remote.keeps H holds ->
        (forall p, In p posts -> holds w (template (slug p))) ->
        count is_create (events (Publish.main_loop B H posts a b w)) = 0%nat).
Proof.
  intros W B H.
  split; [intros; eapply entry_found; eassumption|].
  split; [intros; eapply entry_absent; eassumption|].
  split; [intros; eapply entry_check_failed; eassumption|].
  split; [intros; apply entry_without_check; assumption|].
  split; [intros; apply main_loop_traffic|].
  intros holds posts a b w Hrep Hkeep Hall.
  exact (run_over_held_posts_creates_nothing B H holds posts Hrep Hkeep a b w Hall).
Qed.

Lemma C1_witness :
  count is_create
    (events (Publish.publishPost (Sample.platform [Sample.existing_post])
               (Sample.site [Sample.existing_post]) Sample.existing_post Sample.untouched))
    = 0%nat /\
  count is_create
    (events (Publish.publishPost (Sample.platform [Sample.fresh_post])
               (Sample.site [Sample.fresh_post]) Sample.fresh_post Sample.untouched)) = 1%nat /\
  count is_create
    (events (Publish.main_loop (Sample.platform [Sample.existing_post])
               (Sample.site [Sample.existing_post]) [Sample.existing_post] 0 0
               Sample.untouched)) = 0%nat.
Proof.
  split; [|split].
  - destruct (C1_check_decides_between_an_update_and_one_create (list string)
                (Sample.platform [Sample.existing_post])
                (Sample.site [Sample.existing_post])) as (Hfound & _).
    refine (proj1 (Hfound Sample.existing_post Sample.untouched "Hello"
                     "2025-03-01T00:00:00.000Z"
                     (mkURL "blog.example.com" "/wp-json/wp/v2/posts"
                            "?slug=existing&status=publish,draft,pending")
                     (VObj [("id", VNum 7); ("slug", VStr "existing")]) _ _ _ _ _ _));
      vm_compute; reflexivity.
  - destruct (C1_check_decides_between_an_update_and_one_create (list string)
                (Sample.platform [Sample.fresh_post])
                (Sample.site [Sample.fresh_post])) as (_ & Habsent & _).
    refine (proj1 (Habsent Sample.fresh_post Sample.untouched "Hello"
                     "2024-12-24T00:00:00.000Z"
                     (mkURL "blog.example.com" "/wp-json/wp/v2/posts"
                            "?slug=fresh&status=publish,draft,pending")
                     VNull
                     (mkURL "blog.example.com" "/wp-json/wp/v2/posts" EmptyString)
                     _ _ _ _ _ _ _));
      vm_compute; reflexivity.
  - destruct (C1_check_decides_between_an_update_and_one_create (list string)
                (Sample.platform [Sample.existing_post])
                (Sample.site [Sample.existing_post])) as (_ & _ & _ & _ & _ & Hagain).
    apply (Hagain (fun _ s => s = "existing")).
    + intros w s url -> Hurl.
      exists (VObj [("id", VNum 7); ("slug", VStr "existing")]).
      split; [vm_compute; reflexivity | reflexivity].
    + intros w r s ->. reflexivity.
    + intros p [<-|[]]. reflexivity.
Defined.

(** The sentence of the specification promises one create for every
    entry without a remote counterpart.  The sample remote holds no post
    [nofile]; the entry [nofile] has no markdown file, is skipped, and
    causes no create at all. *)
Lemma C1_counterexample :
  ~ Remote.created_once (Sample.platform [Sample.nofile_post])
      (Sample.site [Sample.nofile_post]) Sample.nofile_post Sample.untouched.
Proof.
  intros Hc.
  assert (Hno : exists url existing,
             URL_parse (Sample.platform [Sample.nofile_post])
               (Publish.API_BASE (Sample.site [Sample.nofile_post])
                ++ Phases.check_endpoint (template (slug Sample.nofile_post))) = Some url /\
             Remote.counterpart (Sample.platform [Sample.nofile_post])
               (Sample.site [Sample.nofile_post]) (template (slug Sample.nofile_post))
               url Sample.untouched = inr existing /\
             truthy existing = false).
  { exists (mkURL "blog.example.com" "/wp-json/wp/v2/posts"
                  "?slug=nofile&status=publish,draft,pending"), VNull.
    split; [vm_compute; reflexivity|]. split; [vm_compute; reflexivity | reflexivity]. }
  specialize (Hc Hno). vm_compute in Hc. discriminate.
Qed.

(* ===================================================================== *)
(** ** A failed post does not stop the run (C3) *)
(* ===================================================================== *)


